(** * CostcoUKTracker: scraper, change detection and polling scheduler

    A shallow embedding of [app/scraper.py], [app/scheduler.py] and the parts
    of [app/models.py], [app/config.py], [app/basket.py],
    [app/notifications.py], [app/security.py] and [app/routes.py] they rely
    on or are called from.

    Conventions of the embedding:
    - a Python [str] is a [string] whose characters are code points below 256
      (so the pound sign is the single character 163);
    - a Python [float] is the rational number it denotes ([Q]); rounding to
      binary64 and overflow are not modelled;
    - a Python [int] is a [Z];
    - a [datetime] is a number of seconds ([Q]), [timedelta] likewise;
    - [Optional[T]] is [option T];
    - random draws and the answers of the outside world (HTTP transport,
      notification sink, basket session) are explicit arguments. *)

From Stdlib Require Import ZArith QArith Qpower Qround Qabs Qminmax.
From Stdlib Require Import Bool List String Ascii Lia Lqa.
From Stdlib Require Import DecimalString.
Import ListNotations.

Set Implicit Arguments.

(* ================================================================= *)
(** * Python primitives *)

Module Py.

Local Open Scope string_scope.

(** The double-quote character, code point 34. *)
Definition dquote : ascii := ascii_of_nat 34.
(** The pound sign, code point 163. *)
Definition pound : ascii := ascii_of_nat 163.

Definition chr (c : ascii) : string := String c EmptyString.

Definition code (c : ascii) : N := N_of_ascii c.

Definition between (lo hi : N) (c : ascii) : bool :=
  ((lo <=? code c) && (code c <=? hi))%N.

(** [str.lower] on one code point below 256: A-Z, and the Latin-1 capitals
    192..222 except the multiplication sign 215. *)
Definition lower_char (c : ascii) : ascii :=
  if between 65 90 c then ascii_of_N (code c + 32)
  else if between 192 222 c && negb (code c =? 215)%N then ascii_of_N (code c + 32)
  else c.

Fixpoint lower (s : string) : string :=
  match s with
  | EmptyString => EmptyString
  | String c s' => String (lower_char c) (lower s')
  end.

Definition is_digit (c : ascii) : bool := between 48 57 c.

(** Characters matched by [\s] (and stripped by [str.strip]) below 256. *)
Definition is_space (c : ascii) : bool :=
  between 9 13 c || between 28 32 c || (code c =? 133)%N || (code c =? 160)%N.

Fixpoint mem (c : ascii) (s : string) : bool :=
  match s with
  | EmptyString => false
  | String d s' => Ascii.eqb c d || mem c s'
  end.

(** [s.startswith(p)] *)
Fixpoint startswith (p s : string) : bool :=
  match p, s with
  | EmptyString, _ => true
  | String a p', String b s' => Ascii.eqb a b && startswith p' s'
  | String _ _, EmptyString => false
  end.

(** [needle in s] *)
Fixpoint contains (needle s : string) : bool :=
  startswith needle s ||
  match s with
  | EmptyString => false
  | String _ s' => contains needle s'
  end.

(** [s.replace(c, "")] for a one-character [c]. *)
Fixpoint remove_char (c : ascii) (s : string) : string :=
  match s with
  | EmptyString => EmptyString
  | String d s' => if Ascii.eqb c d then remove_char c s' else String d (remove_char c s')
  end.

Definition len (s : string) : Z := Z.of_nat (String.length s).

(** Truthiness of the values the code tests with [if x:], [x and ...],
    [x or ...]. *)
Definition truthy_str (o : option string) : bool :=
  match o with
  | Some (String _ _) => true
  | _ => false
  end.

Definition truthy_float (o : option Q) : bool :=
  match o with
  | Some q => negb (Qeq_bool q 0)
  | None => false
  end.

Definition truthy_int (o : option Z) : bool :=
  match o with
  | Some z => negb (z =? 0)%Z
  | None => false
  end.

Definition is_some {A} (o : option A) : bool :=
  match o with Some _ => true | None => false end.

(** Float comparison [a < b]. *)
Definition Qltb (a b : Q) : bool := negb (Qle_bool b a).

(** *** [float(s)] on strings of digits and dots

    The price patterns capture only digits, commas and dots, and commas are
    removed before [float] is called.  On such a string [float] succeeds
    exactly when there is at most one dot and at least one digit; every other
    character makes this model raise [ValueError] ([None]). *)

Fixpoint digits_value (s : string) (acc : Z) : option Z :=
  match s with
  | EmptyString => Some acc
  | String c s' =>
      if is_digit c then digits_value s' (10 * acc + (Z.of_N (code c) - 48))%Z
      else None
  end.

Fixpoint split_dot (s : string) : string * option string :=
  match s with
  | EmptyString => (EmptyString, None)
  | String c s' =>
      if Ascii.eqb c "."%char then (EmptyString, Some s')
      else let (a, b) := split_dot s' in (String c a, b)
  end.

Definition float_of_str (s : string) : option Q :=
  match split_dot s with
  | (EmptyString, None) => None
  | (ip, None) =>
      match digits_value ip 0 with
      | Some n => Some (inject_Z n)
      | None => None
      end
  | (ip, Some fp) =>
      match ip, fp with
      | EmptyString, EmptyString => None
      | _, _ =>
          match digits_value (ip ++ fp) 0, digits_value fp 0 with
          | Some n, Some _ => Some (Qmake n (Z.to_pos (10 ^ len fp)))
          | _, _ => None
          end
      end
  end.

(** *** [f"{x:.2f}"]: two decimals, ties to even on the exact value. *)

Definition round_half_even (q : Q) : Z :=
  let fl := Qfloor q in
  let r := (q - inject_Z fl)%Q in
  match Qcompare r (1 # 2) with
  | Lt => fl
  | Gt => (fl + 1)%Z
  | Eq => if Z.even fl then fl else (fl + 1)%Z
  end.

Definition str_of_nonneg (z : Z) : string :=
  NilZero.string_of_uint (N.to_uint (Z.to_N z)).

Definition two_digits (z : Z) : string :=
  if (z <? 10)%Z then "0" ++ str_of_nonneg z else str_of_nonneg z.

Definition format_2f (q : Q) : string :=
  let n := round_half_even (Qabs q * 100)%Q in
  (if Qltb q 0 then "-" else EmptyString)
    ++ str_of_nonneg (n / 100)%Z ++ "." ++ two_digits (n mod 100)%Z.

End Py.

(* ================================================================= *)
(** * The fragment of [re] used by the scraper's patterns

    Every stock, price and item-number pattern is a sequence of
    single-character matchers (a literal under [re.IGNORECASE], a character
    class, [\d], [\s]) each carrying at most one greedy quantifier, with one
    capture group.  [re.search] is the usual backtracking search: leftmost
    start, greedy quantifiers giving characters back one at a time. *)

Module Re.

Inductive quant := One | Opt | Star | Plus.

Inductive tok :=
| Cls (c : ascii -> bool) (q : quant)
| GroupOpen
| GroupClose.

Definition regex := list tok.

(** A literal character under [re.IGNORECASE]. *)
Definition ci (c : ascii) : ascii -> bool :=
  fun a => Ascii.eqb (Py.lower_char a) (Py.lower_char c).

Definition lit (s : string) : regex :=
  map (fun c => Cls (ci c) One) (list_ascii_of_string s).

(** [[^...]] *)
Definition noneof (s : string) : ascii -> bool := fun a => negb (Py.mem a s).
(** [[\d...]] *)
Definition digit_or (s : string) : ascii -> bool :=
  fun a => Py.is_digit a || Py.mem a s.

Section Match.
Variable A : Type.

(** Continuations take the rest of the subject and the text captured so far. *)
Definition cont := string -> string -> option A.

Definition capture (ing : bool) (cap : string) (c : ascii) : string :=
  if ing then (cap ++ Py.chr c)%string else cap.

Definition one (cls : ascii -> bool) (ing : bool) (s cap : string) (k : cont)
  : option A :=
  match s with
  | String c s' => if cls c then k s' (capture ing cap c) else None
  | EmptyString => None
  end.

(** Greedy repetition: take as many as possible, then give back. *)
Fixpoint star (cls : ascii -> bool) (ing : bool) (s cap : string) (k : cont)
  : option A :=
  match s with
  | String c s' =>
      if cls c then
        match star cls ing s' (capture ing cap c) k with
        | Some r => Some r
        | None => k s cap
        end
      else k s cap
  | EmptyString => k s cap
  end.
End Match.

Fixpoint match_here (r : regex) (ing : bool) (s cap : string) : option string :=
  match r with
  | [] => Some cap
  | GroupOpen :: r' => match_here r' true s EmptyString
  | GroupClose :: r' => match_here r' false s cap
  | Cls c q :: r' =>
      let k := match_here r' ing in
      match q with
      | One => one c ing s cap k
      | Opt => match one c ing s cap k with
               | Some g => Some g
               | None => k s cap
               end
      | Star => star c ing s cap k
      | Plus => one c ing s cap (fun s' cap' => star c ing s' cap' k)
      end
  end.

(** [re.search(r, s, re.IGNORECASE)]: [None] when there is no match, else
    the text of group 1 (empty for a pattern without group). *)
Fixpoint search (r : regex) (s : string) : option string :=
  match match_here r false s EmptyString with
  | Some g => Some g
  | None =>
      match s with
      | String _ s' => search r s'
      | EmptyString => None
      end
  end.

Definition test (r : regex) (s : string) : bool := Py.is_some (search r s).

End Re.

(* ================================================================= *)
(** * [app/models.py] and [app/config.py] *)

Module Models.

Inductive StockStatus := IN_STOCK | OUT_OF_STOCK | WAREHOUSE_ONLY | UNKNOWN | REMOVED.

(** [StockStatus.value] *)
Definition StockStatus_value (s : StockStatus) : string :=
  match s with
  | IN_STOCK => "in_stock"
  | OUT_OF_STOCK => "out_of_stock"
  | WAREHOUSE_ONLY => "warehouse_only"
  | UNKNOWN => "unknown"
  | REMOVED => "removed"
  end.

Definition StockStatus_eqb (a b : StockStatus) : bool :=
  String.eqb (StockStatus_value a) (StockStatus_value b).

Inductive AlertType :=
| BACK_IN_STOCK | PRICE_DROP | TARGET_PRICE | LOWEST_EVER | STOCK_FLAPPING | ADDED_TO_BASKET.

(** [class Product]: the columns read or written by the scheduler. *)
Record Product := {
  id : Z;
  item_number : string;
  name : option string;
  image_url : option string;
  current_price : option Q;
  previous_price : option Q;
  lowest_price : option Q;
  highest_price : option Q;
  stock_status : string;
  checkout_discount : option Q;
  checkout_discount_text : option string;
  is_active : bool;
  poll_interval_minutes : option Z;
  target_price : option Q;
  auto_add_to_basket : bool;
  auto_add_quantity : Z;
  auto_add_max_price : option Q;
  notify_back_in_stock : bool;
  notify_price_drop : bool;
  notify_target_price : bool;
  notify_lowest_ever : bool;
  last_checked_at : option Q;
  last_in_stock_at : option Q;
  last_price_change_at : option Q;
  consecutive_errors : Z;
  last_error : option string;
  last_error_at : option Q;
}.

(** Attribute assignment [product.f = v], one function per assigned column. *)
Definition set_name (v : option string) (p : Product) : Product :=
  {| id := id p; item_number := item_number p; name := v; image_url := image_url p;
     current_price := current_price p; previous_price := previous_price p;
     lowest_price := lowest_price p; highest_price := highest_price p;
     stock_status := stock_status p; checkout_discount := checkout_discount p;
     checkout_discount_text := checkout_discount_text p; is_active := is_active p;
     poll_interval_minutes := poll_interval_minutes p; target_price := target_price p;
     auto_add_to_basket := auto_add_to_basket p;
     auto_add_quantity := auto_add_quantity p;
     auto_add_max_price := auto_add_max_price p;
     notify_back_in_stock := notify_back_in_stock p;
     notify_price_drop := notify_price_drop p;
     notify_target_price := notify_target_price p;
     notify_lowest_ever := notify_lowest_ever p; last_checked_at := last_checked_at p;
     last_in_stock_at := last_in_stock_at p;
     last_price_change_at := last_price_change_at p;
     consecutive_errors := consecutive_errors p; last_error := last_error p;
     last_error_at := last_error_at p |}.

Definition set_image_url (v : option string) (p : Product) : Product :=
  {| id := id p; item_number := item_number p; name := name p; image_url := v;
     current_price := current_price p; previous_price := previous_price p;
     lowest_price := lowest_price p; highest_price := highest_price p;
     stock_status := stock_status p; checkout_discount := checkout_discount p;
     checkout_discount_text := checkout_discount_text p; is_active := is_active p;
     poll_interval_minutes := poll_interval_minutes p; target_price := target_price p;
     auto_add_to_basket := auto_add_to_basket p;
     auto_add_quantity := auto_add_quantity p;
     auto_add_max_price := auto_add_max_price p;
     notify_back_in_stock := notify_back_in_stock p;
     notify_price_drop := notify_price_drop p;
     notify_target_price := notify_target_price p;
     notify_lowest_ever := notify_lowest_ever p; last_checked_at := last_checked_at p;
     last_in_stock_at := last_in_stock_at p;
     last_price_change_at := last_price_change_at p;
     consecutive_errors := consecutive_errors p; last_error := last_error p;
     last_error_at := last_error_at p |}.

Definition set_current_price (v : option Q) (p : Product) : Product :=
  {| id := id p; item_number := item_number p; name := name p;
     image_url := image_url p; current_price := v; previous_price := previous_price p;
     lowest_price := lowest_price p; highest_price := highest_price p;
     stock_status := stock_status p; checkout_discount := checkout_discount p;
     checkout_discount_text := checkout_discount_text p; is_active := is_active p;
     poll_interval_minutes := poll_interval_minutes p; target_price := target_price p;
     auto_add_to_basket := auto_add_to_basket p;
     auto_add_quantity := auto_add_quantity p;
     auto_add_max_price := auto_add_max_price p;
     notify_back_in_stock := notify_back_in_stock p;
     notify_price_drop := notify_price_drop p;
     notify_target_price := notify_target_price p;
     notify_lowest_ever := notify_lowest_ever p; last_checked_at := last_checked_at p;
     last_in_stock_at := last_in_stock_at p;
     last_price_change_at := last_price_change_at p;
     consecutive_errors := consecutive_errors p; last_error := last_error p;
     last_error_at := last_error_at p |}.

Definition set_previous_price (v : option Q) (p : Product) : Product :=
  {| id := id p; item_number := item_number p; name := name p;
     image_url := image_url p; current_price := current_price p; previous_price := v;
     lowest_price := lowest_price p; highest_price := highest_price p;
     stock_status := stock_status p; checkout_discount := checkout_discount p;
     checkout_discount_text := checkout_discount_text p; is_active := is_active p;
     poll_interval_minutes := poll_interval_minutes p; target_price := target_price p;
     auto_add_to_basket := auto_add_to_basket p;
     auto_add_quantity := auto_add_quantity p;
     auto_add_max_price := auto_add_max_price p;
     notify_back_in_stock := notify_back_in_stock p;
     notify_price_drop := notify_price_drop p;
     notify_target_price := notify_target_price p;
     notify_lowest_ever := notify_lowest_ever p; last_checked_at := last_checked_at p;
     last_in_stock_at := last_in_stock_at p;
     last_price_change_at := last_price_change_at p;
     consecutive_errors := consecutive_errors p; last_error := last_error p;
     last_error_at := last_error_at p |}.

Definition set_lowest_price (v : option Q) (p : Product) : Product :=
  {| id := id p; item_number := item_number p; name := name p;
     image_url := image_url p; current_price := current_price p;
     previous_price := previous_price p; lowest_price := v;
     highest_price := highest_price p; stock_status := stock_status p;
     checkout_discount := checkout_discount p;
     checkout_discount_text := checkout_discount_text p; is_active := is_active p;
     poll_interval_minutes := poll_interval_minutes p; target_price := target_price p;
     auto_add_to_basket := auto_add_to_basket p;
     auto_add_quantity := auto_add_quantity p;
     auto_add_max_price := auto_add_max_price p;
     notify_back_in_stock := notify_back_in_stock p;
     notify_price_drop := notify_price_drop p;
     notify_target_price := notify_target_price p;
     notify_lowest_ever := notify_lowest_ever p; last_checked_at := last_checked_at p;
     last_in_stock_at := last_in_stock_at p;
     last_price_change_at := last_price_change_at p;
     consecutive_errors := consecutive_errors p; last_error := last_error p;
     last_error_at := last_error_at p |}.

Definition set_highest_price (v : option Q) (p : Product) : Product :=
  {| id := id p; item_number := item_number p; name := name p;
     image_url := image_url p; current_price := current_price p;
     previous_price := previous_price p; lowest_price := lowest_price p;
     highest_price := v; stock_status := stock_status p;
     checkout_discount := checkout_discount p;
     checkout_discount_text := checkout_discount_text p; is_active := is_active p;
     poll_interval_minutes := poll_interval_minutes p; target_price := target_price p;
     auto_add_to_basket := auto_add_to_basket p;
     auto_add_quantity := auto_add_quantity p;
     auto_add_max_price := auto_add_max_price p;
     notify_back_in_stock := notify_back_in_stock p;
     notify_price_drop := notify_price_drop p;
     notify_target_price := notify_target_price p;
     notify_lowest_ever := notify_lowest_ever p; last_checked_at := last_checked_at p;
     last_in_stock_at := last_in_stock_at p;
     last_price_change_at := last_price_change_at p;
     consecutive_errors := consecutive_errors p; last_error := last_error p;
     last_error_at := last_error_at p |}.

Definition set_stock_status (v : string) (p : Product) : Product :=
  {| id := id p; item_number := item_number p; name := name p;
     image_url := image_url p; current_price := current_price p;
     previous_price := previous_price p; lowest_price := lowest_price p;
     highest_price := highest_price p; stock_status := v;
     checkout_discount := checkout_discount p;
     checkout_discount_text := checkout_discount_text p; is_active := is_active p;
     poll_interval_minutes := poll_interval_minutes p; target_price := target_price p;
     auto_add_to_basket := auto_add_to_basket p;
     auto_add_quantity := auto_add_quantity p;
     auto_add_max_price := auto_add_max_price p;
     notify_back_in_stock := notify_back_in_stock p;
     notify_price_drop := notify_price_drop p;
     notify_target_price := notify_target_price p;
     notify_lowest_ever := notify_lowest_ever p; last_checked_at := last_checked_at p;
     last_in_stock_at := last_in_stock_at p;
     last_price_change_at := last_price_change_at p;
     consecutive_errors := consecutive_errors p; last_error := last_error p;
     last_error_at := last_error_at p |}.

Definition set_checkout_discount (v : option Q) (p : Product) : Product :=
  {| id := id p; item_number := item_number p; name := name p;
     image_url := image_url p; current_price := current_price p;
     previous_price := previous_price p; lowest_price := lowest_price p;
     highest_price := highest_price p; stock_status := stock_status p;
     checkout_discount := v; checkout_discount_text := checkout_discount_text p;
     is_active := is_active p; poll_interval_minutes := poll_interval_minutes p;
     target_price := target_price p; auto_add_to_basket := auto_add_to_basket p;
     auto_add_quantity := auto_add_quantity p;
     auto_add_max_price := auto_add_max_price p;
     notify_back_in_stock := notify_back_in_stock p;
     notify_price_drop := notify_price_drop p;
     notify_target_price := notify_target_price p;
     notify_lowest_ever := notify_lowest_ever p; last_checked_at := last_checked_at p;
     last_in_stock_at := last_in_stock_at p;
     last_price_change_at := last_price_change_at p;
     consecutive_errors := consecutive_errors p; last_error := last_error p;
     last_error_at := last_error_at p |}.

Definition set_checkout_discount_text (v : option string) (p : Product) : Product :=
  {| id := id p; item_number := item_number p; name := name p;
     image_url := image_url p; current_price := current_price p;
     previous_price := previous_price p; lowest_price := lowest_price p;
     highest_price := highest_price p; stock_status := stock_status p;
     checkout_discount := checkout_discount p; checkout_discount_text := v;
     is_active := is_active p; poll_interval_minutes := poll_interval_minutes p;
     target_price := target_price p; auto_add_to_basket := auto_add_to_basket p;
     auto_add_quantity := auto_add_quantity p;
     auto_add_max_price := auto_add_max_price p;
     notify_back_in_stock := notify_back_in_stock p;
     notify_price_drop := notify_price_drop p;
     notify_target_price := notify_target_price p;
     notify_lowest_ever := notify_lowest_ever p; last_checked_at := last_checked_at p;
     last_in_stock_at := last_in_stock_at p;
     last_price_change_at := last_price_change_at p;
     consecutive_errors := consecutive_errors p; last_error := last_error p;
     last_error_at := last_error_at p |}.

Definition set_last_checked_at (v : option Q) (p : Product) : Product :=
  {| id := id p; item_number := item_number p; name := name p;
     image_url := image_url p; current_price := current_price p;
     previous_price := previous_price p; lowest_price := lowest_price p;
     highest_price := highest_price p; stock_status := stock_status p;
     checkout_discount := checkout_discount p;
     checkout_discount_text := checkout_discount_text p; is_active := is_active p;
     poll_interval_minutes := poll_interval_minutes p; target_price := target_price p;
     auto_add_to_basket := auto_add_to_basket p;
     auto_add_quantity := auto_add_quantity p;
     auto_add_max_price := auto_add_max_price p;
     notify_back_in_stock := notify_back_in_stock p;
     notify_price_drop := notify_price_drop p;
     notify_target_price := notify_target_price p;
     notify_lowest_ever := notify_lowest_ever p; last_checked_at := v;
     last_in_stock_at := last_in_stock_at p;
     last_price_change_at := last_price_change_at p;
     consecutive_errors := consecutive_errors p; last_error := last_error p;
     last_error_at := last_error_at p |}.

Definition set_last_in_stock_at (v : option Q) (p : Product) : Product :=
  {| id := id p; item_number := item_number p; name := name p;
     image_url := image_url p; current_price := current_price p;
     previous_price := previous_price p; lowest_price := lowest_price p;
     highest_price := highest_price p; stock_status := stock_status p;
     checkout_discount := checkout_discount p;
     checkout_discount_text := checkout_discount_text p; is_active := is_active p;
     poll_interval_minutes := poll_interval_minutes p; target_price := target_price p;
     auto_add_to_basket := auto_add_to_basket p;
     auto_add_quantity := auto_add_quantity p;
     auto_add_max_price := auto_add_max_price p;
     notify_back_in_stock := notify_back_in_stock p;
     notify_price_drop := notify_price_drop p;
     notify_target_price := notify_target_price p;
     notify_lowest_ever := notify_lowest_ever p; last_checked_at := last_checked_at p;
     last_in_stock_at := v; last_price_change_at := last_price_change_at p;
     consecutive_errors := consecutive_errors p; last_error := last_error p;
     last_error_at := last_error_at p |}.

Definition set_last_price_change_at (v : option Q) (p : Product) : Product :=
  {| id := id p; item_number := item_number p; name := name p;
     image_url := image_url p; current_price := current_price p;
     previous_price := previous_price p; lowest_price := lowest_price p;
     highest_price := highest_price p; stock_status := stock_status p;
     checkout_discount := checkout_discount p;
     checkout_discount_text := checkout_discount_text p; is_active := is_active p;
     poll_interval_minutes := poll_interval_minutes p; target_price := target_price p;
     auto_add_to_basket := auto_add_to_basket p;
     auto_add_quantity := auto_add_quantity p;
     auto_add_max_price := auto_add_max_price p;
     notify_back_in_stock := notify_back_in_stock p;
     notify_price_drop := notify_price_drop p;
     notify_target_price := notify_target_price p;
     notify_lowest_ever := notify_lowest_ever p; last_checked_at := last_checked_at p;
     last_in_stock_at := last_in_stock_at p; last_price_change_at := v;
     consecutive_errors := consecutive_errors p; last_error := last_error p;
     last_error_at := last_error_at p |}.

Definition set_consecutive_errors (v : Z) (p : Product) : Product :=
  {| id := id p; item_number := item_number p; name := name p;
     image_url := image_url p; current_price := current_price p;
     previous_price := previous_price p; lowest_price := lowest_price p;
     highest_price := highest_price p; stock_status := stock_status p;
     checkout_discount := checkout_discount p;
     checkout_discount_text := checkout_discount_text p; is_active := is_active p;
     poll_interval_minutes := poll_interval_minutes p; target_price := target_price p;
     auto_add_to_basket := auto_add_to_basket p;
     auto_add_quantity := auto_add_quantity p;
     auto_add_max_price := auto_add_max_price p;
     notify_back_in_stock := notify_back_in_stock p;
     notify_price_drop := notify_price_drop p;
     notify_target_price := notify_target_price p;
     notify_lowest_ever := notify_lowest_ever p; last_checked_at := last_checked_at p;
     last_in_stock_at := last_in_stock_at p;
     last_price_change_at := last_price_change_at p; consecutive_errors := v;
     last_error := last_error p; last_error_at := last_error_at p |}.

Definition set_last_error (v : option string) (p : Product) : Product :=
  {| id := id p; item_number := item_number p; name := name p;
     image_url := image_url p; current_price := current_price p;
     previous_price := previous_price p; lowest_price := lowest_price p;
     highest_price := highest_price p; stock_status := stock_status p;
     checkout_discount := checkout_discount p;
     checkout_discount_text := checkout_discount_text p; is_active := is_active p;
     poll_interval_minutes := poll_interval_minutes p; target_price := target_price p;
     auto_add_to_basket := auto_add_to_basket p;
     auto_add_quantity := auto_add_quantity p;
     auto_add_max_price := auto_add_max_price p;
     notify_back_in_stock := notify_back_in_stock p;
     notify_price_drop := notify_price_drop p;
     notify_target_price := notify_target_price p;
     notify_lowest_ever := notify_lowest_ever p; last_checked_at := last_checked_at p;
     last_in_stock_at := last_in_stock_at p;
     last_price_change_at := last_price_change_at p;
     consecutive_errors := consecutive_errors p; last_error := v;
     last_error_at := last_error_at p |}.

Definition set_last_error_at (v : option Q) (p : Product) : Product :=
  {| id := id p; item_number := item_number p; name := name p;
     image_url := image_url p; current_price := current_price p;
     previous_price := previous_price p; lowest_price := lowest_price p;
     highest_price := highest_price p; stock_status := stock_status p;
     checkout_discount := checkout_discount p;
     checkout_discount_text := checkout_discount_text p; is_active := is_active p;
     poll_interval_minutes := poll_interval_minutes p; target_price := target_price p;
     auto_add_to_basket := auto_add_to_basket p;
     auto_add_quantity := auto_add_quantity p;
     auto_add_max_price := auto_add_max_price p;
     notify_back_in_stock := notify_back_in_stock p;
     notify_price_drop := notify_price_drop p;
     notify_target_price := notify_target_price p;
     notify_lowest_ever := notify_lowest_ever p; last_checked_at := last_checked_at p;
     last_in_stock_at := last_in_stock_at p;
     last_price_change_at := last_price_change_at p;
     consecutive_errors := consecutive_errors p; last_error := last_error p;
     last_error_at := v |}.
End Models.

Import Models.

(** The fields of [Settings] read by the scraper, the scheduler and the
    basket entry point. *)
Record Settings := {
  default_poll_interval_minutes : Z;
  min_poll_interval_minutes : Z;
  max_poll_interval_minutes : Z;
  backoff_multiplier : Q;
  auto_add_to_basket_enabled : bool;
  safe_mode : bool;
  kill_switch : bool;
}.

(** The defaults of [class Settings]. *)
Definition default_settings : Settings := {|
  default_poll_interval_minutes := 45;
  min_poll_interval_minutes := 15;
  max_poll_interval_minutes := 180;
  backoff_multiplier := 2;
  auto_add_to_basket_enabled := false;
  safe_mode := true;
  kill_switch := false;
|}.

(* ================================================================= *)
(** * [app/scraper.py] *)

Module Scraper.

Import Re.
Local Open Scope string_scope.

Record ProductData := {
  item_number : string;
  name : option string;
  price : option Q;
  stock_status : StockStatus;
  image_url : option string;
  is_warehouse_only : bool;
  checkout_discount : option Q;
  checkout_discount_text : option string;
  error : option string;
}.

(** [ProductData(item_number=..., stock_status=..., error=...)]: the other
    fields take their dataclass defaults. *)
Definition error_data (item : string) (st : StockStatus) (err : string) : ProductData := {|
  item_number := item; name := None; price := None; stock_status := st;
  image_url := None; is_warehouse_only := false; checkout_discount := None;
  checkout_discount_text := None; error := Some err;
|}.

Definition COSTCO_UK_BASE : string := "https://www.costco.co.uk".

Definition q : regex := [Cls (ci Py.dquote) One].
Definition many (c : ascii -> bool) : regex := [Cls c Star].
Definition not_quote : ascii -> bool := noneof (Py.chr Py.dquote).

(** [STOCK_PATTERNS] *)
Definition STOCK_PATTERNS_out_of_stock : list regex := [
  lit "class=" ++ q ++ many not_quote ++ lit "outOfStock" ++ many not_quote ++ q;
  lit ">Out of Stock<";
  lit "disabled=" ++ q ++ lit "disabled" ++ q ++ many (noneof ">") ++ lit ">Out of Stock";
  lit "btn-primary disabled outOfStock"
]%list.

Definition STOCK_PATTERNS_in_stock : list regex := [
  lit "id=" ++ q ++ lit "add-to-cart-button" ++ q;
  lit ">Add to cart<";
  lit "data-cy=" ++ q ++ lit "addtocart-button";
  lit "class=" ++ q ++ many not_quote ++ lit "add-to-cart__btn" ++ many not_quote ++ q
    ++ many (noneof ">") ++ lit ">Add to cart"
]%list.

Definition STOCK_PATTERNS_warehouse_only : list regex := [
  lit "warehouse only";
  lit "in-warehouse";
  lit "Available in Warehouse"
].

(** The capture group of the pound patterns: one or more of [\d,], an
    optional dot, then any number of digits. *)
Definition amount_group : regex :=
  [GroupOpen; Cls (digit_or ",") Plus; Cls (ci "."%char) Opt; Cls Py.is_digit Star; GroupClose].

(** The capture group over [\d.], one or more. *)
Definition dotted_group : regex :=
  [GroupOpen; Cls (digit_or ".") Plus; GroupClose].

(** The capture group over [\d], one or more. *)
Definition digits_group : regex :=
  [GroupOpen; Cls Py.is_digit Plus; GroupClose].

(** [PRICE_PATTERNS] *)
Definition PRICE_PATTERNS : list regex := [
  lit "<span" ++ many (noneof ">") ++ lit "class=" ++ q ++ many not_quote
    ++ lit "notranslate" ++ many not_quote ++ q ++ many (noneof ">")
    ++ lit ">" ++ lit (Py.chr Py.pound) ++ amount_group ++ lit "</span>";
  q ++ lit "price" ++ q ++ lit ":" ++ many Py.is_space ++ [Cls (ci Py.dquote) Opt]
    ++ dotted_group ++ [Cls (ci Py.dquote) Opt];
  lit (Py.chr Py.pound) ++ amount_group;
  lit "data-product-price=" ++ q ++ dotted_group ++ q
]%list.

(** [ITEM_NUMBER_PATTERNS]; [\d{5,7}] is five digits and two optional ones. *)
Definition ITEM_NUMBER_PATTERNS : list regex := [
  lit "productCodePost" ++ many (noneof ">") ++ lit "value=" ++ q ++ digits_group ++ q;
  lit "data-cy=" ++ q ++ lit "addtocart-button-" ++ digits_group ++ q;
  lit "Item" ++ many Py.is_space ++ [Cls (ci "#"%char) Opt] ++ many Py.is_space
    ++ [Cls (ci ":"%char) Opt] ++ many Py.is_space
    ++ [GroupOpen; Cls Py.is_digit One; Cls Py.is_digit One; Cls Py.is_digit One;
        Cls Py.is_digit One; Cls Py.is_digit One; Cls Py.is_digit Opt;
        Cls Py.is_digit Opt; GroupClose];
  lit "/p/" ++ digits_group
]%list.

(** The rate limiter's fields of [CostcoScraper]. *)
Record State := {
  _last_request_time : option Q;
  _consecutive_errors : Z;
  _backoff_until : option Q;
}.

(** [__init__] *)
Definition init : State := {|
  _last_request_time := None; _consecutive_errors := 0; _backoff_until := None |}.

(** [_get_delay]; [jitter] is the draw of [random.uniform(0.5, 2.0)]. *)
Definition _get_delay (cfg : Settings) (st : State) (jitter : Q) : Q :=
  let base_delay :=
    if safe_mode cfg then 3 + inject_Z (_consecutive_errors st) * 2
    else 1 + inject_Z (_consecutive_errors st) * 1 in
  base_delay * jitter.

(** [_wait_if_needed]: the new state and the durations slept, in order.
    [now] is the clock on entry; the clock has advanced by the first sleep
    when the normal delay is computed. *)
Definition _wait_if_needed (cfg : Settings) (st : State) (now jitter : Q)
  : State * list Q :=
  let '(st1, now1, slept) :=
    match _backoff_until st with
    | Some b =>
        if Py.Qltb now b then
          ({| _last_request_time := _last_request_time st;
              _consecutive_errors := _consecutive_errors st;
              _backoff_until := None |}, b, [b - now])
        else (st, now, [])
    | None => (st, now, [])
    end in
  match _last_request_time st1 with
  | Some t =>
      let elapsed := now1 - t in
      let delay := _get_delay cfg st1 jitter in
      if Py.Qltb elapsed delay then (st1, slept ++ [delay - elapsed])%list
      else (st1, slept)
  | None => (st1, slept)
  end.

Definition _build_product_url (item : string) : string :=
  COSTCO_UK_BASE ++ "/p/" ++ item.

Definition str_of_int (z : Z) : string :=
  if (z <? 0)%Z then "-" ++ Py.str_of_nonneg (- z) else Py.str_of_nonneg z.

Definition blocking_indicators : list string :=
  ["captcha"; "robot"; "blocked"; "access denied"; "please verify"; "security check"].

Fixpoint first_indicator (inds : list string) (html html_lower : string) : option string :=
  match inds with
  | [] => None
  | indicator :: rest =>
      if Py.contains indicator html_lower && (Py.len html <? 10000)%Z
      then Some ("Possible blocking detected: " ++ indicator)
      else first_indicator rest html html_lower
  end.

(** [_detect_blocking] *)
Definition _detect_blocking (html : string) (status_code : Z) : option string :=
  if (status_code =? 403)%Z then Some "Access forbidden (403)"
  else if (status_code =? 429)%Z then Some "Rate limited (429)"
  else if (status_code >=? 500)%Z then Some ("Server error (" ++ str_of_int status_code ++ ")")
  else first_indicator blocking_indicators html (Py.lower html).

(** The body of the loop of [_parse_price] for one pattern: the price to
    return, or [None] to go on with the next pattern (no match, [ValueError],
    or a value outside the sanity range). *)
Definition price_candidate (pattern : regex) (html : string) : option Q :=
  match search pattern html with
  | Some g =>
      match Py.float_of_str (Py.remove_char ","%char g) with
      | Some price =>
          if Py.Qltb 0 price && Py.Qltb price 100000 then Some price else None
      | None => None
      end
  | None => None
  end.

Fixpoint parse_price_loop (patterns : list regex) (html : string) : option Q :=
  match patterns with
  | [] => None
  | pattern :: rest =>
      match price_candidate pattern html with
      | Some price => Some price
      | None => parse_price_loop rest html
      end
  end.

(** [_parse_price] *)
Definition _parse_price (html : string) : option Q :=
  parse_price_loop PRICE_PATTERNS html.

(** [for pattern in patterns: if re.search(pattern, html, re.IGNORECASE): ...] *)
Fixpoint any_pattern (patterns : list regex) (html : string) : bool :=
  match patterns with
  | [] => false
  | pattern :: rest => if test pattern html then true else any_pattern rest html
  end.

(** [_parse_stock_status] *)
Definition _parse_stock_status (html : string) : StockStatus :=
  if any_pattern STOCK_PATTERNS_out_of_stock html then OUT_OF_STOCK
  else if any_pattern STOCK_PATTERNS_warehouse_only html then WAREHOUSE_ONLY
  else if any_pattern STOCK_PATTERNS_in_stock html then IN_STOCK
  else UNKNOWN.

Fixpoint first_group (patterns : list regex) (html : string) : option string :=
  match patterns with
  | [] => None
  | pattern :: rest =>
      match search pattern html with
      | Some g => Some g
      | None => first_group rest html
      end
  end.

(** A literal matched as it is written (a search without [re.IGNORECASE]). *)
Definition lit_exact (s : string) : regex :=
  map (fun c => Cls (Ascii.eqb c) One) (list_ascii_of_string s).

(** [_parse_item_number] *)
Definition _parse_item_number (html url : string) : option string :=
  match search (lit_exact "/p/" ++ digits_group)%list url with
  | Some g => Some g
  | None => first_group ITEM_NUMBER_PATTERNS html
  end.

(** [a or b] on an optional string. *)
Definition or_str (a : option string) (b : string) : string :=
  match a with
  | Some (String c s) => String c s
  | _ => b
  end.

(** [_trigger_backoff]; [now] is the clock when it runs. *)
Definition backoff_seconds (cfg : Settings) (consecutive_errors : Z) : Q :=
  Qmin (60 * backoff_multiplier cfg ^ consecutive_errors) 3600.

Definition _trigger_backoff (cfg : Settings) (st : State) (now : Q) : State := {|
  _last_request_time := _last_request_time st;
  _consecutive_errors := _consecutive_errors st;
  _backoff_until := Some (now + backoff_seconds cfg (_consecutive_errors st));
|}.

Definition incr_errors (st : State) : State := {|
  _last_request_time := _last_request_time st;
  _consecutive_errors := _consecutive_errors st + 1;
  _backoff_until := _backoff_until st;
|}.

Definition reset_errors (st : State) : State := {|
  _last_request_time := _last_request_time st;
  _consecutive_errors := 0;
  _backoff_until := _backoff_until st;
|}.

Definition set_last_request_time (st : State) (t : Q) : State := {|
  _last_request_time := Some t;
  _consecutive_errors := _consecutive_errors st;
  _backoff_until := _backoff_until st;
|}.

(** What [await client.get(url, headers=headers)] does. *)
Inductive Transport :=
| Response (status_code : Z) (text : string)
| TimeoutException
| RequestError (msg : string)
| OtherException (msg : string).

(** The readings of [datetime.utcnow()] and the draw of [_get_delay] during
    one call of [fetch_product]. *)
Record Clock := {
  at_wait : Q;
  at_request : Q;
  at_response : Q;
  delay_jitter : Q;
}.

Section Fetch.
(** The extractors no property below depends on. *)
Variable _parse_name : string -> option string.
Variable _parse_image : string -> option string.
Variable _parse_checkout_discount : string -> option Q * option string.

(** [fetch_product] *)
Definition fetch_product (cfg : Settings) (st : State) (url_or_item : string)
    (clk : Clock) (net : Transport) : State * ProductData :=
  if kill_switch cfg then
    (st, {| item_number := url_or_item; name := None; price := None;
            stock_status := UNKNOWN; image_url := None; is_warehouse_only := false;
            checkout_discount := None; checkout_discount_text := None;
            error := Some "Kill switch is active - automation disabled" |})
  else
    let '(url, item) :=
      if Py.startswith "http" url_or_item
      then (url_or_item, or_str (_parse_item_number EmptyString url_or_item) url_or_item)
      else (_build_product_url url_or_item, url_or_item) in
    let st := fst (_wait_if_needed cfg st (at_wait clk) (delay_jitter clk)) in
    let st := set_last_request_time st (at_request clk) in
    match net with
    | Response status_code html =>
        match _detect_blocking html status_code with
        | Some blocking_error =>
            let st := incr_errors st in
            let st := _trigger_backoff cfg st (at_response clk) in
            (st, error_data item UNKNOWN blocking_error)
        | None =>
            if (status_code =? 404)%Z then
              (st, error_data item REMOVED "Product not found (404)")
            else if negb (status_code =? 200)%Z then
              (incr_errors st, error_data item UNKNOWN ("HTTP " ++ str_of_int status_code))
            else
              let st := reset_errors st in
              let parsed_item := or_str (_parse_item_number html url) item in
              let '(discount, discount_text) := _parse_checkout_discount html in
              (st, {| item_number := parsed_item;
                      name := _parse_name html;
                      price := _parse_price html;
                      stock_status := _parse_stock_status html;
                      image_url := _parse_image html;
                      is_warehouse_only :=
                        StockStatus_eqb (_parse_stock_status html) WAREHOUSE_ONLY;
                      checkout_discount := discount;
                      checkout_discount_text := discount_text;
                      error := None |})
        end
    | TimeoutException => (incr_errors st, error_data item UNKNOWN "Request timeout")
    | RequestError msg =>
        (incr_errors st, error_data item UNKNOWN ("Request error: " ++ msg))
    | OtherException msg =>
        (incr_errors st, error_data item UNKNOWN ("Unexpected error: " ++ msg))
    end.
End Fetch.

End Scraper.

(* ================================================================= *)
(** * [app/scheduler.py] *)

Module Scheduler.

Local Open Scope string_scope.

(** One channel's outcome in the list returned by
    [notifications.send_notification]. *)
Record NotificationResult := { channel : string; success : bool }.

(** [BasketResult] of [app/basket.py]. *)
Record BasketResult := { basket_success : bool; message : string }.

(** The collaborators: the notification sink ([None] when it raises) and the
    basket session's [add_to_cart]. *)
Record World := {
  send_notification :
    Product -> AlertType -> option string -> option string -> option (list NotificationResult);
  add_to_cart : string -> Z -> BasketResult;
}.

(** What one call does to the database session and to the collaborators, in
    the order it happens. *)
Inductive Event :=
| Notify (alert_type : AlertType) (old_value new_value : option string)
| AddAlert (product_id : Z) (alert_type : AlertType) (old_value new_value : option string)
    (channels_sent : string)
| AddStockHistory (product_id : Z) (status previous_status : string) (recorded_at : Q)
| AddPriceHistory (product_id : Z) (price : Q) (previous_price : option Q) (recorded_at : Q)
| Commit
| AddToBasket (item : string) (quantity : Z).

(** An entry of [alerts_to_send]. *)
Definition alert := (AlertType * option string * option string)%type.

(** [_should_poll]; [jitter] is the draw of [random.uniform(0.8, 1.2)]. *)
Definition _should_poll (cfg : Settings) (product : Product) (now jitter : Q) : bool :=
  match last_checked_at product with
  | None => true
  | Some checked =>
      let interval :=
        if Py.truthy_int (poll_interval_minutes product)
        then match poll_interval_minutes product with Some i => i | None => 0%Z end
        else default_poll_interval_minutes cfg in
      let effective_interval := inject_Z interval * jitter in
      let elapsed := (now - checked) / 60 in
      Qle_bool effective_interval elapsed
  end.

(** [_send_alert] *)
Definition _send_alert (w : World) (product : Product) (a : alert) : list Event :=
  let '(alert_type, old_value, new_value) := a in
  Notify alert_type old_value new_value ::
  match send_notification w product alert_type old_value new_value with
  | Some results =>
      let channels_sent :=
        String.concat "," (map channel (filter success results)) in
      [AddAlert (id product) alert_type old_value new_value channels_sent; Commit]
  | None => []
  end.

(** [add_to_basket] of [app/basket.py] *)
Definition add_to_basket (cfg : Settings) (w : World) (item : string) (quantity : Z)
  : BasketResult :=
  if negb (auto_add_to_basket_enabled cfg)
  then {| basket_success := false; message := "Auto-add-to-basket is disabled" |}
  else add_to_cart w item quantity.

(** The price constraint of [_handle_auto_basket]:
    [product.auto_add_max_price and data.price] and
    [data.price > product.auto_add_max_price]. *)
Definition over_max_price (product : Product) (data : Scraper.ProductData) : bool :=
  Py.truthy_float (auto_add_max_price product) && Py.truthy_float (Scraper.price data) &&
  match auto_add_max_price product, Scraper.price data with
  | Some max_price, Some price => Py.Qltb max_price price
  | _, _ => false
  end.

(** [_handle_auto_basket] *)
Definition _handle_auto_basket (cfg : Settings) (w : World) (product : Product)
    (data : Scraper.ProductData) : list Event :=
  if over_max_price product data then []
  else
    let result := add_to_basket cfg w (item_number product) (auto_add_quantity product) in
    AddToBasket (item_number product) (auto_add_quantity product) ::
    (if basket_success result
     then _send_alert w product
            (ADDED_TO_BASKET, None,
             Some ("Qty: " ++ Scraper.str_of_int (auto_add_quantity product)))
     else []).

(** The working state of [_process_product_update]. *)
Record Ctx := {
  product : Product;
  trace : list Event;
  alerts_to_send : list alert;
  changed : bool;
}.

(** "Handle errors" *)
Definition record_error (product : Product) (err : option string) (now : Q) : Product :=
  set_last_error_at (Some now)
    (set_last_error err
       (set_consecutive_errors (consecutive_errors product + 1)%Z product)).

(** "Clear error state on success" and "Update basic info" *)
Definition clear_error_and_update_info (product : Product) (data : Scraper.ProductData)
  : Product :=
  let product := set_last_error None (set_consecutive_errors 0%Z product) in
  let product :=
    if Py.truthy_str (Scraper.name data) && negb (Py.truthy_str (name product))
    then set_name (Scraper.name data) product else product in
  if Py.truthy_str (Scraper.image_url data)
  then set_image_url (Scraper.image_url data) product else product.

Definition is_back_in_stock (old_status new_status : string) : bool :=
  String.eqb old_status (StockStatus_value OUT_OF_STOCK) &&
  String.eqb new_status (StockStatus_value IN_STOCK).

(** "Check stock status change" *)
Definition check_stock (cfg : Settings) (w : World) (data : Scraper.ProductData)
    (now : Q) (c : Ctx) : Ctx :=
  let old_status := stock_status (product c) in
  let new_status := StockStatus_value (Scraper.stock_status data) in
  if negb (String.eqb old_status new_status) then
    let history := AddStockHistory (id (product c)) new_status old_status now in
    let product := set_stock_status new_status (product c) in
    if is_back_in_stock old_status new_status then
      let product := set_last_in_stock_at (Some now) product in
      let alerts :=
        if notify_back_in_stock product
        then (alerts_to_send c ++ [(BACK_IN_STOCK, Some old_status, Some new_status)])%list
        else alerts_to_send c in
      let basket :=
        if auto_add_to_basket product then _handle_auto_basket cfg w product data else [] in
      {| product := product; trace := (trace c ++ history :: basket)%list;
         alerts_to_send := alerts; changed := true |}
    else
      {| product := product; trace := (trace c ++ [history])%list;
         alerts_to_send := alerts_to_send c; changed := true |}
  else c.

(** [old_price is None or abs(old_price - new_price) > 0.01] *)
Definition price_differs (old_price : option Q) (new_price : Q) : bool :=
  match old_price with
  | None => true
  | Some old => Py.Qltb (1 # 100) (Qabs (old - new_price))
  end.

(** "Check price change" *)
Definition check_price (data : Scraper.ProductData) (now : Q) (old_price : option Q)
    (c : Ctx) : Ctx :=
  match Scraper.price data with
  | Some new_price =>
      if price_differs old_price new_price then
        let product :=
          set_last_price_change_at (Some now)
            (set_current_price (Some new_price)
               (set_previous_price old_price (product c))) in
        {| product := product;
           trace := (trace c ++ [AddPriceHistory (id product) new_price old_price now])%list;
           alerts_to_send := alerts_to_send c; changed := true |}
      else c
  | None => c
  end.

(** "Update checkout discount info (always, even if price unchanged)" *)
Definition update_checkout_discount (data : Scraper.ProductData) (c : Ctx) : Ctx :=
  {| product :=
       set_checkout_discount_text (Scraper.checkout_discount_text data)
         (set_checkout_discount (Scraper.checkout_discount data) (product c));
     trace := trace c; alerts_to_send := alerts_to_send c; changed := changed c |}.

Definition with_product (c : Ctx) (p : Product) : Ctx :=
  {| product := p; trace := trace c; alerts_to_send := alerts_to_send c;
     changed := changed c |}.

Definition append_alert (c : Ctx) (a : alert) : Ctx :=
  {| product := product c; trace := trace c;
     alerts_to_send := (alerts_to_send c ++ [a])%list; changed := changed c |}.

(** "Update lowest/highest" *)
Definition update_lowest (new_price : Q) (c : Ctx) : Ctx :=
  let below :=
    match lowest_price (product c) with
    | None => true
    | Some lowest => Py.Qltb new_price lowest
    end in
  if below then
    let old_lowest := lowest_price (product c) in
    let c := with_product c (set_lowest_price (Some new_price) (product c)) in
    match old_lowest with
    | Some old =>
        if notify_lowest_ever (product c)
        then append_alert c
               (LOWEST_EVER, Some (Py.format_2f old), Some (Py.format_2f new_price))
        else c
    | None => c
    end
  else c.

Definition update_highest (new_price : Q) (c : Ctx) : Ctx :=
  let above :=
    match highest_price (product c) with
    | None => true
    | Some highest => Py.Qltb highest new_price
    end in
  if above then with_product c (set_highest_price (Some new_price) (product c)) else c.

(** "Check for price drop" *)
Definition check_price_drop (old_price : option Q) (new_price : Q) (c : Ctx) : Ctx :=
  match old_price with
  | Some old =>
      if Py.truthy_float old_price && Py.Qltb new_price old && notify_price_drop (product c)
      then append_alert c
             (PRICE_DROP, Some (Py.format_2f old), Some (Py.format_2f new_price))
      else c
  | None => c
  end.

(** "Check target price" *)
Definition check_target_price (new_price : Q) (c : Ctx) : Ctx :=
  match target_price (product c) with
  | Some target =>
      if Py.truthy_float (target_price (product c)) && Qle_bool new_price target
         && notify_target_price (product c)
      then append_alert c (TARGET_PRICE, None, Some (Py.format_2f new_price))
      else c
  | None => c
  end.

(** "Check price change (continued)" *)
Definition check_price_continued (data : Scraper.ProductData) (old_price : option Q)
    (c : Ctx) : Ctx :=
  match Scraper.price data with
  | Some new_price =>
      if price_differs old_price new_price then
        check_target_price new_price
          (check_price_drop old_price new_price
             (update_highest new_price (update_lowest new_price c)))
      else c
  | None => c
  end.

(** "Send alerts" *)
Fixpoint send_alerts (w : World) (product : Product) (alerts : list alert) : list Event :=
  match alerts with
  | [] => []
  | a :: rest => (_send_alert w product a ++ send_alerts w product rest)%list
  end.

(** [_process_product_update]: the product as written back, what happened,
    and the returned flag. *)
Definition _process_product_update (cfg : Settings) (w : World) (product : Product)
    (data : Scraper.ProductData) (now : Q) : Product * list Event * bool :=
  let product := set_last_checked_at (Some now) product in
  if Py.truthy_str (Scraper.error data) then
    (record_error product (Scraper.error data) now, [Commit], false)
  else
    let c := {| product := clear_error_and_update_info product data; trace := [];
                alerts_to_send := []; changed := false |} in
    let c := check_stock cfg w data now c in
    let old_price := current_price (Scheduler.product c) in
    let c := check_price data now old_price c in
    let c := update_checkout_discount data c in
    let c := check_price_continued data old_price c in
    (Scheduler.product c,
     (trace c ++ Commit :: send_alerts w (Scheduler.product c) (alerts_to_send c))%list,
     changed c).

(** The alerts handed to the notification sink, in the order sent. *)
Fixpoint sent_alerts (tr : list Event) : list alert :=
  match tr with
  | [] => []
  | Notify t o n :: rest => (t, o, n) :: sent_alerts rest
  | _ :: rest => sent_alerts rest
  end.

(** The alerts written to the [alerts] table, in the order recorded. *)
Fixpoint recorded_alerts (tr : list Event) : list alert :=
  match tr with
  | [] => []
  | AddAlert _ t o n _ :: rest => (t, o, n) :: recorded_alerts rest
  | _ :: rest => recorded_alerts rest
  end.

(** The calls of [add_to_basket]. *)
Fixpoint basket_attempts (tr : list Event) : list (string * Z) :=
  match tr with
  | [] => []
  | AddToBasket i n :: rest => (i, n) :: basket_attempts rest
  | _ :: rest => basket_attempts rest
  end.

End Scheduler.

(* ================================================================= *)
(** * More Python string primitives *)

Module PyStr.

Local Open Scope string_scope.

(** [s.lstrip()] *)
Fixpoint lstrip (s : string) : string :=
  match s with
  | EmptyString => EmptyString
  | String c s' => if Py.is_space c then lstrip s' else s
  end.

(** [s.rstrip()] *)
Fixpoint rstrip (s : string) : string :=
  match s with
  | EmptyString => EmptyString
  | String c s' =>
      match rstrip s' with
      | EmptyString => if Py.is_space c then EmptyString else String c EmptyString
      | r => String c r
      end
  end.

(** [s.strip()] *)
Definition strip (s : string) : string := rstrip (lstrip s).

(** [s.split(sep)] for a one-character separator: never empty, the empty
    string gives one empty piece. *)
Fixpoint split (sep : ascii) (s : string) : list string :=
  match s with
  | EmptyString => [EmptyString]
  | String c s' =>
      if Ascii.eqb c sep then EmptyString :: split sep s'
      else match split sep s' with
           | piece :: rest => String c piece :: rest
           | [] => [String c EmptyString]
           end
  end.

(** [re.sub(r'\s+', ' ', s)]: every maximal run of whitespace becomes one
    space. *)
Fixpoint collapse_spaces (s : string) : string :=
  match s with
  | EmptyString => EmptyString
  | String c s' =>
      if Py.is_space c then
        match s' with
        | String d _ => if Py.is_space d then collapse_spaces s'
                        else String " " (collapse_spaces s')
        | EmptyString => String " " EmptyString
        end
      else String c (collapse_spaces s')
  end.

(** [s.replace(old, "")] for a non-empty [old]: occurrences are removed left
    to right without overlap; [skip] counts the characters of an occurrence
    still to drop. *)
Fixpoint remove_from (old : string) (skip : nat) (s : string) : string :=
  match s with
  | EmptyString => EmptyString
  | String c s' =>
      match skip with
      | S k => remove_from old k s'
      | O =>
          if Py.startswith old s then remove_from old (String.length old - 1) s'
          else String c (remove_from old 0 s')
      end
  end.

Definition remove (old s : string) : string := remove_from old 0 s.

(** [s[:n]] *)
Fixpoint take (n : nat) (s : string) : string :=
  match n, s with
  | S k, String c s' => String c (take k s')
  | _, _ => EmptyString
  end.

(** [[x.strip() for x in s.split(sep) if x.strip()]] *)
Definition stripped_pieces (sep : ascii) (s : string) : list string :=
  map strip (filter (fun x => negb (String.eqb (strip x) EmptyString)) (split sep s)).

End PyStr.

(* ================================================================= *)
(** * [app/scraper.py], [app/models.py], [app/config.py]: the remaining
      extractors and properties *)

Module Extract.

Import Re Scraper.
Local Open Scope string_scope.

(** The capture group over the characters not in [s], one or more. *)
Definition until_group (s : string) : regex :=
  [GroupOpen; Cls (noneof s) Plus; GroupClose].

(** [NAME_PATTERNS] *)
Definition NAME_PATTERNS : list regex := [
  lit "<h1" ++ many (noneof ">") ++ lit "class=" ++ q ++ many not_quote
    ++ lit "product-name" ++ many not_quote ++ q ++ many (noneof ">") ++ lit ">"
    ++ until_group "<" ++ lit "</h1>";
  lit "<title>" ++ until_group "|<";
  q ++ lit "name" ++ q ++ lit ":" ++ many Py.is_space ++ q
    ++ until_group (Py.chr Py.dquote) ++ q
]%list.

(** [IMAGE_PATTERNS] *)
Definition IMAGE_PATTERNS : list regex := [
  lit "<img" ++ many (noneof ">") ++ lit "class=" ++ q ++ many not_quote
    ++ lit "product-image" ++ many not_quote ++ q ++ many (noneof ">")
    ++ lit "src=" ++ q ++ until_group (Py.chr Py.dquote) ++ q;
  q ++ lit "image" ++ q ++ lit ":" ++ many Py.is_space ++ q
    ++ until_group (Py.chr Py.dquote) ++ q;
  lit "<meta" ++ many (noneof ">") ++ lit "property=" ++ q ++ lit "og:image" ++ q
    ++ many (noneof ">") ++ lit "content=" ++ q ++ until_group (Py.chr Py.dquote) ++ q
]%list.

(** The clean-up of a matched name. *)
Definition clean_name (g : string) : string :=
  PyStr.strip (PyStr.remove " | Costco UK" (PyStr.collapse_spaces (PyStr.strip g))).

Fixpoint parse_name_loop (patterns : list regex) (html : string) : option string :=
  match patterns with
  | [] => None
  | pattern :: rest =>
      match search pattern html with
      | Some g =>
          let name := clean_name g in
          if (5 <? Py.len name)%Z then Some (PyStr.take 500 name)
          else parse_name_loop rest html
      | None => parse_name_loop rest html
      end
  end.

(** [_parse_name] *)
Definition _parse_name (html : string) : option string :=
  parse_name_loop NAME_PATTERNS html.

(** The fix-up of a matched image URL. *)
Definition absolute_url (img_url : string) : string :=
  if Py.startswith "//" img_url then "https:" ++ img_url
  else if Py.startswith "/" img_url then COSTCO_UK_BASE ++ img_url
  else img_url.

(** [_parse_image] *)
Definition _parse_image (html : string) : option string :=
  match first_group IMAGE_PATTERNS html with
  | Some img_url => Some (absolute_url img_url)
  | None => None
  end.

(** [max(0, price - discount)] *)
Definition discounted (price discount : Q) : Q :=
  if Py.Qltb 0 (price - discount) then price - discount else 0.

(** [ProductData.effective_price] and [Product.effective_price]: the same
    body, on [price]/[checkout_discount] and on
    [current_price]/[checkout_discount]. *)
Definition effective_price_of (price checkout_discount : option Q) : option Q :=
  match price with
  | None => None
  | Some p =>
      if Py.truthy_float checkout_discount
      then match checkout_discount with
           | Some d => Some (discounted p d)
           | None => Some p
           end
      else Some p
  end.

Definition data_effective_price (data : ProductData) : option Q :=
  effective_price_of (price data) (checkout_discount data).

Definition effective_price (p : Product) : option Q :=
  effective_price_of (current_price p) (Models.checkout_discount p).

(** [Product.price_change_percent] *)
Definition price_change_percent (p : Product) : option Q :=
  match current_price p, previous_price p with
  | Some current, Some previous =>
      if Py.truthy_float (current_price p) && Py.truthy_float (previous_price p)
         && Py.Qltb 0 previous
      then Some (((current - previous) / previous) * 100)
      else None
  | _, _ => None
  end.

(** [Product.is_clearance_price]: [round] is to the nearest integer, ties to
    even; [%] has the sign of the divisor. *)
Definition is_clearance_price (p : Product) : bool :=
  match current_price p with
  | Some price =>
      if Py.truthy_float (current_price p) then
        let cents := (Py.round_half_even (price * 100) mod 100)%Z in
        existsb (Z.eqb cents) [97; 0; 88; 49]%Z
      else false
  | None => false
  end.

(** [Product.enabled_channels], from the [notification_channels] column. *)
Definition enabled_channels (notification_channels : string) : list string :=
  PyStr.stripped_pieces ","%char notification_channels.

(** [Settings.user_agent_list], from [user_agents]. *)
Definition user_agent_list (user_agents : string) : list string :=
  PyStr.stripped_pieces "|"%char user_agents.

(** [Settings.allowed_ip_list], from [allowed_ips]. *)
Definition allowed_ip_list (allowed_ips : string) : list string :=
  match allowed_ips with
  | EmptyString => []
  | _ => PyStr.stripped_pieces ","%char allowed_ips
  end.

(** [check_ip_allowed] of [app/security.py] *)
Definition check_ip_allowed (allowed_ips client_ip : string) : bool :=
  match allowed_ip_list allowed_ips with
  | [] => true
  | ips => existsb (String.eqb client_ip) ips || String.eqb client_ip "127.0.0.1"
  end.

End Extract.

(* ================================================================= *)
(** * [app/notifications.py] *)

Module Notifications.

Import Scheduler.
Local Open Scope string_scope.

(** The notification fields of [Settings]. *)
Record ChannelSettings := {
  smtp_enabled : bool;
  telegram_enabled : bool;
  telegram_bot_token : string;
  discord_enabled : bool;
  discord_webhook_url : string;
  pushover_enabled : bool;
  pushover_app_token : string;
}.

(** *** Format specifications of [float.__format__]

    [[[fill]align][sign][z][#][0][width][grouping][.precision][type]]: the
    specification is read left to right and must be used up; a float takes
    the types e, E, f, F, g, G, n and the percent sign. *)

Definition drop_if (f : ascii -> bool) (s : string) : string :=
  match s with
  | String c s' => if f c then s' else s
  | EmptyString => s
  end.

Fixpoint drop_digits (s : string) : string :=
  match s with
  | String c s' => if Py.is_digit c then drop_digits s' else s
  | EmptyString => s
  end.

Definition is_align (c : ascii) : bool := Py.mem c "<>=^".

Definition drop_fill_align (s : string) : string :=
  match s with
  | String a (String b r) =>
      if is_align b then r else if is_align a then String b r else s
  | String a EmptyString => if is_align a then EmptyString else s
  | EmptyString => s
  end.

(** The grouping option, and what follows it; [None] when both [,] and [_]
    are given. *)
Definition take_grouping (s : string) : option (bool * string) :=
  match s with
  | String c s' =>
      if Py.mem c ",_" then
        match s' with
        | String d _ => if Py.mem d ",_" then None else Some (true, s')
        | EmptyString => Some (true, s')
        end
      else Some (false, s)
  | EmptyString => Some (false, s)
  end.

(** The precision, and what follows it; [None] when the dot has no digit. *)
Definition take_precision (s : string) : option string :=
  match s with
  | String "." s' =>
      match s' with
      | String d _ => if Py.is_digit d then Some (drop_digits s') else None
      | EmptyString => None
      end
  | _ => Some s
  end.

(** Whether [format(x, spec)] succeeds on a float [x]. *)
Definition float_spec_valid (spec : string) : bool :=
  let s := drop_fill_align spec in
  let s := drop_if (fun c => Py.mem c "+- ") s in
  let s := drop_if (Ascii.eqb "z") s in
  let s := drop_if (Ascii.eqb "#") s in
  let s := drop_digits s in
  match take_grouping s with
  | None => false
  | Some (grouped, s) =>
      match take_precision s with
      | None => false
      | Some EmptyString => true
      | Some (String type EmptyString) =>
          if grouped then Py.mem type "eEfFgG%" else Py.mem type "eEfFgGn%"
      | Some _ => false
      end
  end.

(** The replacement field [{value:spec}] of an f-string for an optional
    float: [None] when formatting raises.  [render] is the text of a float
    under a valid specification. *)
Definition format_field (render : string -> Q -> string) (value : option Q)
    (spec : string) : option string :=
  match value with
  | Some x => if float_spec_valid spec then Some (render spec x) else None
  | None =>
      match spec with
      | EmptyString => Some "None"
      | _ => None
      end
  end.

(** The specification that follows [product.current_price:] in the bodies
    of the back-in-stock, target-price, lowest-ever and added-to-basket
    messages. *)
Definition price_field_spec : string := ".2f if product.current_price else 'N/A'".

Section Service.
Variable cs : ChannelSettings.
(** The [notification_channels] column of a product. *)
Variable notification_channels : Product -> string.
(** The text of a float under a valid format specification. *)
Variable render : string -> Q -> string.
(** The price-drop and default messages, which hold no price field. *)
Variable plain_message :
  Product -> AlertType -> option string -> option string -> option (string * string).
(** The other messages, around the text of their first price field. *)
Variable priced_message :
  Product -> AlertType -> option string -> option string -> string -> string * string.
(** What the transport of a channel answers for a title and a text. *)
Variable deliver : string -> string -> string -> bool.

(** [_format_message]; [None] when it raises. *)
Definition _format_message (product : Product) (alert_type : AlertType)
    (old_value new_value : option string) : option (string * string) :=
  match alert_type with
  | PRICE_DROP | STOCK_FLAPPING => plain_message product alert_type old_value new_value
  | BACK_IN_STOCK | TARGET_PRICE | LOWEST_EVER | ADDED_TO_BASKET =>
      match format_field render (current_price product) price_field_spec with
      | Some price_text =>
          Some (priced_message product alert_type old_value new_value price_text)
      | None => None
      end
  end.

Definition result (name : string) (ok : bool) : NotificationResult :=
  {| channel := name; success := ok |}.

(** [send_email], [send_telegram], [send_discord], [send_pushover] *)
Definition send_email (subject body : string) : NotificationResult :=
  if negb (smtp_enabled cs) then result "email" false
  else result "email" (deliver "email" subject body).

Definition send_telegram (message : string) : NotificationResult :=
  if negb (telegram_enabled cs) || String.eqb (telegram_bot_token cs) EmptyString
  then result "telegram" false
  else result "telegram" (deliver "telegram" EmptyString message).

Definition send_discord (subject body : string) : NotificationResult :=
  if negb (discord_enabled cs) || String.eqb (discord_webhook_url cs) EmptyString
  then result "discord" false
  else result "discord" (deliver "discord" subject (PyStr.take 4000 body)).

Definition send_pushover (subject body : string) : NotificationResult :=
  if negb (pushover_enabled cs) || String.eqb (pushover_app_token cs) EmptyString
  then result "pushover" false
  else result "pushover" (deliver "pushover" subject (PyStr.take 1000 body)).

Definition newline : string := Py.chr (ascii_of_nat 10).

(** The loop over [channels] of [send_notification]. *)
Fixpoint dispatch (subject body : string) (channels : list string)
  : list NotificationResult :=
  match channels with
  | [] => []
  | chan :: rest =>
      let later := dispatch subject body rest in
      if String.eqb chan "email" && smtp_enabled cs
      then send_email subject body :: later
      else if String.eqb chan "telegram" && telegram_enabled cs
      then send_telegram ("<b>" ++ subject ++ "</b>" ++ newline ++ newline ++ body) :: later
      else if String.eqb chan "discord" && discord_enabled cs
      then send_discord subject body :: later
      else if String.eqb chan "pushover" && pushover_enabled cs
      then send_pushover subject body :: later
      else later
  end.

(** [send_notification] with [channels=None]; [None] when it raises. *)
Definition send_notification (product : Product) (alert_type : AlertType)
    (old_value new_value : option string) : option (list NotificationResult) :=
  match _format_message product alert_type old_value new_value with
  | Some (subject, body) =>
      Some (dispatch subject body (Extract.enabled_channels (notification_channels product)))
  | None => None
  end.

(** The collaborators of the scheduler with this notification service. *)
Definition service_world (add_to_cart : string -> Z -> BasketResult) : World :=
  {| Scheduler.send_notification := send_notification;
     Scheduler.add_to_cart := add_to_cart |}.

End Service.

End Notifications.

(* ================================================================= *)
(** * [app/scheduler.py], [app/routes.py], [app/basket.py]: the callers of
      [fetch_product] and [_process_product_update] *)

Module Polling.

Import Scheduler.
Local Open Scope string_scope.

Section Callers.
(** The checkout-discount extractor, left abstract. *)
Variable _parse_checkout_discount : string -> option Q * option string.

(** [scraper.fetch_product] with the extractors of this file. *)
Definition fetch : Settings -> Scraper.State -> string -> Scraper.Clock ->
                   Scraper.Transport -> Scraper.State * Scraper.ProductData :=
  Scraper.fetch_product Extract._parse_name Extract._parse_image _parse_checkout_discount.

(** [db.query(Product).filter(Product.id == product_id).first()] *)
Fixpoint find_by_id (products : list Product) (product_id : Z) : option Product :=
  match products with
  | [] => None
  | p :: rest => if (id p =? product_id)%Z then Some p else find_by_id rest product_id
  end.

(** The table once the row found by [find_by_id] has been written back. *)
Fixpoint store_by_id (products : list Product) (product_id : Z) (p' : Product)
  : list Product :=
  match products with
  | [] => []
  | p :: rest =>
      if (id p =? product_id)%Z then p' :: rest
      else p :: store_by_id rest product_id p'
  end.

(** What the world supplies while one product is polled: the clock and draw
    of [_should_poll], the pacing delay, the clock and answer of the fetch,
    the clock of the update. *)
Record Step := {
  due_at : Q;
  due_jitter : Q;
  pace : Q;
  clock : Scraper.Clock;
  answer : Scraper.Transport;
  processed_at : Q;
}.

(** [poll_single_product]: [None] when no product has this id. *)
Definition poll_single_product (cfg : Settings) (w : World) (st : Scraper.State)
    (products : list Product) (product_id : Z) (step : Step)
  : option (Scraper.State * list Product * list Event * Scraper.ProductData) :=
  match find_by_id products product_id with
  | None => None
  | Some product =>
      let '(st', data) := fetch cfg st (item_number product) (clock step) (answer step) in
      let '(product', events, _) :=
        _process_product_update cfg w product data (processed_at step) in
      Some (st', store_by_id products product_id product', events, data)
  end.

(** The counters of a [SchedulerStatus] row. *)
Record Run := {
  products_checked : Z;
  products_updated : Z;
  errors_count : Z;
  status : string;
}.

(** The state threaded through the loop of [_poll_all_products]. *)
Record Loop := {
  scraper : Scraper.State;
  polled : list Product;
  events : list Event;
  sleeps : list Q;
  checked : Z;
  updated : Z;
  errors : Z;
}.

(** One round of the loop, for [product] and what the world supplies. *)
Definition poll_one (cfg : Settings) (w : World) (l : Loop) (product : Product)
    (step : Step) : Loop :=
  if negb (_should_poll cfg product (due_at step) (due_jitter step)) then
    {| scraper := scraper l; polled := (polled l ++ [product])%list; events := events l;
       sleeps := sleeps l; checked := checked l; updated := updated l;
       errors := errors l |}
  else
    let sleeps' := if (0 <? checked l)%Z then (sleeps l ++ [pace step])%list else sleeps l in
    let '(st', data) :=
      fetch cfg (scraper l) (item_number product) (clock step) (answer step) in
    let '(product', evs, changed) :=
      _process_product_update cfg w product data (processed_at step) in
    {| scraper := st'; polled := (polled l ++ [product'])%list;
       events := (events l ++ evs)%list; sleeps := sleeps';
       checked := (checked l + 1)%Z;
       updated := if changed then (updated l + 1)%Z else updated l;
       errors := if Py.truthy_str (Scraper.error data) then (errors l + 1)%Z else errors l |}.

Fixpoint poll_loop (cfg : Settings) (w : World) (l : Loop)
    (work : list (Product * Step)) : Loop :=
  match work with
  | [] => l
  | (product, step) :: rest => poll_loop cfg w (poll_one cfg w l product step) rest
  end.

(** [_poll_all_products] over the active products, each with what the world
    supplies for it: [None] when the kill switch skips the cycle.  No step
    modelled here raises, so the handler of unexpected exceptions is not
    reached. *)
Definition _poll_all_products (cfg : Settings) (w : World) (st : Scraper.State)
    (work : list (Product * Step)) : option (Loop * Run) :=
  if kill_switch cfg then None
  else
    let l := poll_loop cfg w
               {| scraper := st; polled := []; events := []; sleeps := [];
                  checked := 0; updated := 0; errors := 0 |} work in
    Some (l, {| products_checked := checked l; products_updated := updated l;
                errors_count := errors l;
                status := if (errors l =? 0)%Z then "completed"
                          else "completed_with_errors" |}).

(** The outcome of [validate_checkout_ready] of [app/basket.py]. *)
Record Readiness := {
  stock_available : bool;
  price_confirmed : bool;
  ready_price : option Q;
  delivery_possible : bool;
  ready_message : string;
}.

Definition validate_checkout_ready (cfg : Settings) (st : Scraper.State) (item : string)
    (clk : Scraper.Clock) (net : Scraper.Transport) : Scraper.State * Readiness :=
  let '(st', data) := fetch cfg st item clk net in
  let in_stock := StockStatus_eqb (Scraper.stock_status data) IN_STOCK in
  (st', {| stock_available := in_stock;
           price_confirmed := Py.is_some (Scraper.price data);
           ready_price := Scraper.price data;
           delivery_possible := negb (Scraper.is_warehouse_only data);
           ready_message :=
             if in_stock && Py.is_some (Scraper.price data)
                && negb (Scraper.is_warehouse_only data)
             then "Validation passed" else "Validation failed" |}).

(** The rows [add_product] of [app/routes.py] writes to the history tables. *)
Inductive Row :=
| PriceRow (product_id : Z) (price : Q)
| StockRow (product_id : Z) (status : string).

(** [Product(...)] as [add_product] builds it, the other columns at their
    defaults. *)
Definition new_product (new_id : Z) (item : string) (data : Scraper.ProductData)
    (target : option Q) (now : Q) : Product := {|
  id := new_id; item_number := item; name := Scraper.name data;
  image_url := Scraper.image_url data;
  current_price := Scraper.price data; previous_price := None;
  lowest_price := Scraper.price data; highest_price := Scraper.price data;
  stock_status := StockStatus_value (Scraper.stock_status data);
  checkout_discount := Scraper.checkout_discount data;
  checkout_discount_text := Scraper.checkout_discount_text data;
  is_active := true; poll_interval_minutes := None; target_price := target;
  auto_add_to_basket := false; auto_add_quantity := 1; auto_add_max_price := None;
  notify_back_in_stock := true; notify_price_drop := true;
  notify_target_price := true; notify_lowest_ever := true;
  last_checked_at := Some now;
  last_in_stock_at :=
    if StockStatus_eqb (Scraper.stock_status data) IN_STOCK then Some now else None;
  last_price_change_at := None;
  consecutive_errors := 0; last_error := None; last_error_at := None;
|}.

(** [existing.is_active = True] *)
Definition reactivate (p : Product) : Product := {|
  id := id p; item_number := item_number p; name := name p; image_url := image_url p;
  current_price := current_price p; previous_price := previous_price p;
  lowest_price := lowest_price p; highest_price := highest_price p;
  stock_status := stock_status p; checkout_discount := checkout_discount p;
  checkout_discount_text := checkout_discount_text p;
  is_active := true; poll_interval_minutes := poll_interval_minutes p;
  target_price := target_price p; auto_add_to_basket := auto_add_to_basket p;
  auto_add_quantity := auto_add_quantity p; auto_add_max_price := auto_add_max_price p;
  notify_back_in_stock := notify_back_in_stock p; notify_price_drop := notify_price_drop p;
  notify_target_price := notify_target_price p; notify_lowest_ever := notify_lowest_ever p;
  last_checked_at := last_checked_at p; last_in_stock_at := last_in_stock_at p;
  last_price_change_at := last_price_change_at p;
  consecutive_errors := consecutive_errors p; last_error := last_error p;
  last_error_at := last_error_at p;
|}.

(** "Extract item number" of [add_product] *)
Definition item_of (url_or_item : string) : string :=
  if Py.startswith "http" url_or_item then
    match Re.search (Scraper.lit_exact "/p/" ++ Scraper.digits_group)%list url_or_item with
    | Some g => g
    | None => url_or_item
    end
  else PyStr.strip url_or_item.

(** The first product with this item number, and the table with it
    reactivated. *)
Fixpoint find_by_item (products : list Product) (item : string) : option Product :=
  match products with
  | [] => None
  | p :: rest => if String.eqb (item_number p) item then Some p else find_by_item rest item
  end.

Fixpoint reactivate_item (products : list Product) (item : string) : list Product :=
  match products with
  | [] => []
  | p :: rest =>
      if String.eqb (item_number p) item then reactivate p :: rest
      else p :: reactivate_item rest item
  end.

(** [add_product]: the scraper state, the table and the history rows
    written; [new_id] is the key the database gives a new row. *)
Definition add_product (cfg : Settings) (st : Scraper.State) (products : list Product)
    (url_or_item : string) (target : option Q) (new_id : Z) (clk : Scraper.Clock)
    (net : Scraper.Transport) (now : Q) : Scraper.State * list Product * list Row :=
  let item := item_of url_or_item in
  match find_by_item products item with
  | Some _ => (st, reactivate_item products item, [])
  | None =>
      let '(st', data) := fetch cfg st item clk net in
      let product := new_product new_id item data target now in
      let price_rows :=
        match Scraper.price data with
        | Some price =>
            if Py.truthy_float (Scraper.price data) then [PriceRow new_id price] else []
        | None => []
        end in
      (st', (products ++ [product])%list,
       (price_rows ++ [StockRow new_id (StockStatus_value (Scraper.stock_status data))])%list)
  end.

End Callers.

End Polling.

(* ================================================================= *)
(** * Notions used to state the properties *)

Module ReSpec.

Import Re.
Local Open Scope string_scope.

(** Every character of [s] is in the class [c]. *)
Fixpoint all_in (c : ascii -> bool) (s : string) : bool :=
  match s with
  | EmptyString => true
  | String a s' => c a && all_in c s'
  end.

(** The strings one token stands for. *)
Inductive tok_lang : tok -> string -> Prop :=
| lang_one c a : c a = true -> tok_lang (Cls c One) (String a EmptyString)
| lang_opt_none c : tok_lang (Cls c Opt) EmptyString
| lang_opt_one c a : c a = true -> tok_lang (Cls c Opt) (String a EmptyString)
| lang_star c s : all_in c s = true -> tok_lang (Cls c Star) s
| lang_plus c a s : c a = true -> all_in c s = true -> tok_lang (Cls c Plus) (String a s)
| lang_open : tok_lang GroupOpen EmptyString
| lang_close : tok_lang GroupClose EmptyString.

(** The strings a pattern stands for: concatenations of its tokens'. *)
Inductive lang : regex -> string -> Prop :=
| lang_nil : lang [] EmptyString
| lang_cons t r s1 s2 : tok_lang t s1 -> lang r s2 -> lang (t :: r) (s1 ++ s2).

(** A prefix of the subject is in the language. *)
Definition prefix_in (r : regex) (s : string) : Prop :=
  exists m rest, s = m ++ rest /\ lang r m.

(** A substring of the subject is in the language. *)
Definition occurs_in (r : regex) (s : string) : Prop :=
  exists pre m post, s = pre ++ m ++ post /\ lang r m.

End ReSpec.

Module ScraperSpec.

Import Re Scraper.
Local Open Scope string_scope.

(** Some pattern of the list is found in the page. *)
Definition found_in (patterns : list regex) (html : string) : Prop :=
  exists pattern, In pattern patterns /\ search pattern html <> None.

(** A page carrying an active out-of-stock marker and an add-to-cart
    fragment. *)
Definition both_markers : string :=
  "<div>Out of Stock</div><button>Add to cart</button>".

(** What it takes for one pattern to yield [price]: it is found, group 1
    without its commas parses as a float, and the value is strictly between
    0 and 100000. *)
Definition yields (pattern : regex) (html : string) (price : Q) : Prop :=
  exists g,
    search pattern html = Some g /\
    Py.float_of_str (Py.remove_char ","%char g) = Some price /\
    0 < price /\ price < 100000.

(** A structured price tag, a clock and stand-ins for the extractors left
    abstract. *)
Definition span_price : string :=
  "<span class=" ++ Py.chr Py.dquote ++ "price notranslate" ++ Py.chr Py.dquote ++ ">"
    ++ Py.chr Py.pound ++ "1,299.99</span>".

Definition no_name (html : string) : option string := None.
Definition no_discount (html : string) : option Q * option string := (None, None).

Definition clock0 : Clock :=
  {| at_wait := 0; at_request := 0; at_response := 1; delay_jitter := 1 |}.


End ScraperSpec.

Module SchedulerSpec.

Import Scheduler.
Local Open Scope string_scope.

(** The three components of the result of [_process_product_update]. *)
Definition product_after (r : Product * list Event * bool) : Product := fst (fst r).
Definition events_of (r : Product * list Event * bool) : list Event := snd (fst r).
Definition flag_of (r : Product * list Event * bool) : bool := snd r.

(** The sink never raises: every alert sent is then recorded, in order. *)
Definition sink_reliable (w : World) : Prop :=
  forall p t o n, send_notification w p t o n <> None.

(** ** Groups of columns *)

(** The error columns. *)
Definition errors (p : Product) : Z * option string * option Q :=
  (consecutive_errors p, last_error p, last_error_at p).

(** The columns that configure a product; no step assigns them. *)
Definition policy (p : Product)
  : option Q * bool * bool * bool * bool * bool * Z * option Q * string * Z :=
  (target_price p, notify_back_in_stock p, notify_price_drop p, notify_target_price p,
   notify_lowest_ever p, auto_add_to_basket p, auto_add_quantity p, auto_add_max_price p,
   item_number p, id p).

(** ** The price steps *)

(** The lowest and highest price once a new price [x] is taken in. *)
Definition new_lowest (lowest : option Q) (x : Q) : Q :=
  match lowest with
  | Some lo => if Py.Qltb x lo then x else lo
  | None => x
  end.

Definition new_highest (highest : option Q) (x : Q) : Q :=
  match highest with
  | Some hi => if Py.Qltb hi x then x else hi
  | None => x
  end.

(** The alerts a new price [x] adds, read off the product before the step. *)
Definition lowest_alert (p : Product) (x : Q) : list alert :=
  match lowest_price p with
  | Some lo =>
      if Py.Qltb x lo && notify_lowest_ever p
      then [(LOWEST_EVER, Some (Py.format_2f lo), Some (Py.format_2f x))] else []
  | None => []
  end.

Definition drop_alert (p : Product) (old : option Q) (x : Q) : list alert :=
  match old with
  | Some o =>
      if Py.truthy_float old && Py.Qltb x o && notify_price_drop p
      then [(PRICE_DROP, Some (Py.format_2f o), Some (Py.format_2f x))] else []
  | None => []
  end.

Definition target_alert (p : Product) (x : Q) : list alert :=
  match target_price p with
  | Some t =>
      if Py.truthy_float (target_price p) && Qle_bool x t && notify_target_price p
      then [(TARGET_PRICE, None, Some (Py.format_2f x))] else []
  | None => []
  end.

(** What a step from [c] to [c'] does: the price columns it leaves, the
    alerts it appends, and everything it keeps. *)
Record effect (c c' : Ctx) (lo cu hi pv : option Q) (added : list alert) : Prop := {
  eff_lowest : lowest_price (product c') = lo;
  eff_current : current_price (product c') = cu;
  eff_highest : highest_price (product c') = hi;
  eff_previous : previous_price (product c') = pv;
  eff_policy : policy (product c') = policy (product c);
  eff_errors : errors (product c') = errors (product c);
  eff_stock : stock_status (product c') = stock_status (product c);
  eff_trace : trace c' = trace c;
  eff_alerts : alerts_to_send c' = (alerts_to_send c ++ added)%list;
  eff_changed : changed c' = changed c;
}.

(** A step that keeps the price columns too. *)
Definition keeps_prices (c c' : Ctx) (added : list alert) : Prop :=
  effect c c' (lowest_price (product c)) (current_price (product c))
    (highest_price (product c)) (previous_price (product c)) added.

(** The three price steps after the stock check, as one. *)
Definition price_steps (data : Scraper.ProductData) (now : Q) (c : Ctx) : Ctx :=
  let old := current_price (product c) in
  check_price_continued data old
    (update_checkout_discount data (check_price data now old c)).

(** The new price of a snapshot, when it counts as a price change. *)
Definition price_change (data : Scraper.ProductData) (c : Ctx) : option Q :=
  match Scraper.price data with
  | Some x => if price_differs (current_price (product c)) x then Some x else None
  | None => None
  end.

(** ** The stock step and the whole update *)

(** The product as [_handle_auto_basket] sees it on a back-in-stock
    transition: new stock status and in-stock time written, prices not yet. *)
Definition restocked (p : Product) (data : Scraper.ProductData) (now : Q) : Product :=
  set_last_in_stock_at (Some now)
    (set_stock_status (StockStatus_value (Scraper.stock_status data)) p).

(** The snapshot takes the product from out of stock to in stock. *)
Definition back_in_stock (p : Product) (data : Scraper.ProductData) : bool :=
  is_back_in_stock (stock_status p) (StockStatus_value (Scraper.stock_status data)).

(** What the stock check appends to [alerts_to_send] and to the trace. *)
Definition back_in_stock_alert (p : Product) (data : Scraper.ProductData) : list alert :=
  if back_in_stock p data && notify_back_in_stock p
  then [(BACK_IN_STOCK, Some (stock_status p),
         Some (StockStatus_value (Scraper.stock_status data)))]
  else [].

Definition basket_events (cfg : Settings) (w : World) (p : Product)
    (data : Scraper.ProductData) (now : Q) : list Event :=
  if back_in_stock p data && auto_add_to_basket p
  then _handle_auto_basket cfg w (restocked p data now) data else [].

Definition stock_events (cfg : Settings) (w : World) (p : Product)
    (data : Scraper.ProductData) (now : Q) : list Event :=
  if String.eqb (stock_status p) (StockStatus_value (Scraper.stock_status data)) then []
  else AddStockHistory (id p) (StockStatus_value (Scraper.stock_status data))
         (stock_status p) now :: basket_events cfg w p data now.

(** The working state when the stock check begins, and when the last price
    step has run. *)
Definition start (p : Product) (data : Scraper.ProductData) (now : Q) : Ctx :=
  {| product := clear_error_and_update_info (set_last_checked_at (Some now) p) data;
     trace := []; alerts_to_send := []; changed := false |}.

Definition finish (cfg : Settings) (w : World) (p : Product)
    (data : Scraper.ProductData) (now : Q) : Ctx :=
  price_steps data now (check_stock cfg w data now (start p data now)).

(** The alert of a successful basket call. *)
Definition added_alert (p : Product) : alert :=
  (ADDED_TO_BASKET, None, Some ("Qty: " ++ Scraper.str_of_int (auto_add_quantity p))).

(** The alert kinds raised by the price steps. *)
Definition is_price_alert (a : alert) : bool :=
  match fst (fst a) with
  | LOWEST_EVER | PRICE_DROP | TARGET_PRICE => true
  | _ => false
  end.

(** ** The due-check *)

(** The interval the code uses: the product's own when set and non-zero,
    else the global default. *)
Definition configured_interval (cfg : Settings) (p : Product) : Z :=
  match poll_interval_minutes p with
  | Some i => if (i =? 0)%Z then default_poll_interval_minutes cfg else i
  | None => default_poll_interval_minutes cfg
  end.

(** ** Concrete products, snapshots and collaborators *)

(** A tracked product at price 100 (lowest 100, highest 120, target 90), all
    notifications on, last checked at time 0. *)
Definition sample (stock : string) (poll : option Z) (auto_add : bool)
    (max_price : option Q) : Product := {|
  id := 1; item_number := "123456"; name := Some "Sample item"; image_url := None;
  current_price := Some 100; previous_price := None;
  lowest_price := Some 100; highest_price := Some 120;
  stock_status := stock; checkout_discount := None; checkout_discount_text := None;
  is_active := true; poll_interval_minutes := poll; target_price := Some 90;
  auto_add_to_basket := auto_add; auto_add_quantity := 1; auto_add_max_price := max_price;
  notify_back_in_stock := true; notify_price_drop := true;
  notify_target_price := true; notify_lowest_ever := true;
  last_checked_at := Some 0; last_in_stock_at := None; last_price_change_at := None;
  consecutive_errors := 0; last_error := None; last_error_at := None;
|}.

(** A product tracked a moment ago whose first fetch failed: no price yet. *)
Definition unpriced : Product := {|
  id := 2; item_number := "654321"; name := None; image_url := None;
  current_price := None; previous_price := None;
  lowest_price := None; highest_price := None;
  stock_status := "unknown"; checkout_discount := None; checkout_discount_text := None;
  is_active := true; poll_interval_minutes := None; target_price := None;
  auto_add_to_basket := false; auto_add_quantity := 1; auto_add_max_price := None;
  notify_back_in_stock := true; notify_price_drop := true;
  notify_target_price := true; notify_lowest_ever := true;
  last_checked_at := None; last_in_stock_at := None; last_price_change_at := None;
  consecutive_errors := 1; last_error := Some "Request timeout"; last_error_at := Some 0;
|}.

(** An error-free snapshot. *)
Definition snapshot (price : option Q) (stock : StockStatus) : Scraper.ProductData := {|
  Scraper.item_number := "123456"; Scraper.name := Some "Sample item";
  Scraper.price := price; Scraper.stock_status := stock; Scraper.image_url := None;
  Scraper.is_warehouse_only := false; Scraper.checkout_discount := None;
  Scraper.checkout_discount_text := None; Scraper.error := None;
|}.

(** A sink that delivers by email and a basket session that answers
    [basket_ok]. *)
Definition world (basket_ok : bool) : World := {|
  send_notification := fun _ _ _ _ => Some [{| channel := "email"; success := true |}];
  add_to_cart := fun _ _ => {| basket_success := basket_ok; message := "done" |};
|}.

(** The default settings with the assisted checkout switched on. *)
Definition basket_settings : Settings := {|
  default_poll_interval_minutes := 45;
  min_poll_interval_minutes := 15;
  max_poll_interval_minutes := 180;
  backoff_multiplier := 2;
  auto_add_to_basket_enabled := true;
  safe_mode := true;
  kill_switch := false;
|}.

(** ** The due-check as the specification words it *)

(** The due-check as the specification words it: the interval is clamped
    between the global minimum and maximum before the jitter applies. *)
Definition clamp (x lo hi : Z) : Z := Z.max lo (Z.min x hi).

Definition claimed_effective_interval (cfg : Settings) (p : Product) : Z :=
  clamp (match poll_interval_minutes p with
         | Some i => i
         | None => default_poll_interval_minutes cfg
         end)
    (min_poll_interval_minutes cfg) (max_poll_interval_minutes cfg).

Definition claimed_due (cfg : Settings) (p : Product) (now jitter : Q) : bool :=
  match last_checked_at p with
  | None => true
  | Some checked =>
      Qle_bool (inject_Z (claimed_effective_interval cfg p) * jitter) ((now - checked) / 60)
  end.

End SchedulerSpec.

(** ** Notions for the scraper, the extractors and the notifications *)

Module CoverageSpec.

Import Scraper Scheduler SchedulerSpec.
Local Open Scope string_scope.

(** The sum of the durations slept. *)
Fixpoint total (sleeps : list Q) : Q :=
  match sleeps with
  | [] => 0
  | d :: rest => d + total rest
  end.


Definition succeeded (net : Transport) : bool :=
  match net with
  | Response status html => negb (Py.is_some (_detect_blocking html status)) && (status =? 200)%Z
  | _ => false
  end.


(** Whether a pattern opens a group. *)
Definition has_open (r : Re.regex) : bool :=
  existsb (fun t => match t with Re.GroupOpen => true | _ => false end) r.

(** The tokens whose text ends up in group 1: those of the last group
    opened, or, when none is opened, those up to the closing of a group
    already open ([ing]). *)
Fixpoint inside (r : Re.regex) (ing : bool) : Re.regex :=
  match r with
  | [] => []
  | Re.GroupOpen :: r' => inside r' true
  | Re.GroupClose :: r' => if has_open r' then inside r' false else []
  | Re.Cls c q :: r' =>
      if has_open r' then inside r' ing
      else if ing then Re.Cls c q :: inside r' true else inside r' false
  end.

(** A character that is not whitespace, or is the plain space. *)
Definition plain_spaced (c : ascii) : bool :=
  negb (Py.is_space c) || Ascii.eqb c " ".

(** A character other than the double quote. *)
Definition unquoted (c : ascii) : bool := Scraper.not_quote c.

(** A character of a blank allow-list: whitespace or a comma. *)
Definition blank_or_comma (c : ascii) : bool :=
  Py.is_space c || Ascii.eqb c ",".

(** The channels [send_notification] knows and the settings switch on. *)
Definition channel_on (cs : Notifications.ChannelSettings) (chan : string) : bool :=
  String.eqb chan "email" && Notifications.smtp_enabled cs
  || String.eqb chan "telegram" && Notifications.telegram_enabled cs
  || String.eqb chan "discord" && Notifications.discord_enabled cs
  || String.eqb chan "pushover" && Notifications.pushover_enabled cs.

(** Whether the settings hold what a channel needs besides its switch: the
    bot token, the webhook URL, the application token. *)
Definition has_credentials (cs : Notifications.ChannelSettings) (chan : string) : bool :=
  if String.eqb chan "telegram"
  then negb (String.eqb (Notifications.telegram_bot_token cs) EmptyString)
  else if String.eqb chan "discord"
  then negb (String.eqb (Notifications.discord_webhook_url cs) EmptyString)
  else if String.eqb chan "pushover"
  then negb (String.eqb (Notifications.pushover_app_token cs) EmptyString)
  else true.

(** The text group 1 starts from: empty once the pattern opens a group. *)
Definition seed (r : Re.regex) (cap : string) : string :=
  if has_open r then EmptyString else cap.

(** A string that is empty or begins with a character that is not
    whitespace. *)
Definition clean_head (s : string) : Prop :=
  match s with
  | EmptyString => True
  | String a _ => Py.is_space a = false
  end.

(** A page whose title holds a name. *)
Definition titled_page : string :=
  "<title>  Kirkland   Signature
 Olive Oil | Costco UK</title>".

(** A page whose image is given relative to the site root. *)
Definition imaged_page : string :=
  "<meta property=" ++ Py.chr Py.dquote ++ "og:image" ++ Py.chr Py.dquote
    ++ " content=" ++ Py.chr Py.dquote ++ "/medias/oil.jpg" ++ Py.chr Py.dquote ++ ">".

(** A result under the name of its channel that succeeds only with the
    channel's credentials. *)
Definition answers_for (cs : Notifications.ChannelSettings) (chan : string)
    (r : Scheduler.NotificationResult) : Prop :=
  Scheduler.channel r = chan /\ (Scheduler.success r = true -> has_credentials cs chan = true).

End CoverageSpec.

(** ** Notions for the update as a whole *)

Module UpdateSpec.

Import Scheduler SchedulerSpec.
Local Open Scope string_scope.

(** The descriptive columns and the discount columns. *)
Definition desc (p : Product) : option string * option string := (name p, image_url p).

Definition disc (p : Product) : option Q * option string :=
  (checkout_discount p, checkout_discount_text p).

(** A product that already agrees with a snapshot: an update from the
    snapshot finds nothing to change. *)
Definition settled (p : Product) (data : Scraper.ProductData) : Prop :=
  stock_status p = StockStatus_value (Scraper.stock_status data) /\
  consecutive_errors p = 0%Z /\ last_error p = None /\
  (Py.truthy_str (Scraper.name data) = true -> Py.truthy_str (name p) = true) /\
  (Py.truthy_str (Scraper.image_url data) = true ->
   image_url p = Scraper.image_url data) /\
  disc p = (Scraper.checkout_discount data, Scraper.checkout_discount_text data) /\
  (forall x, Scraper.price data = Some x -> price_differs (current_price p) x = false).

(** The rows written to the history tables. *)
Definition is_history (e : Event) : bool :=
  match e with
  | AddStockHistory _ _ _ _ | AddPriceHistory _ _ _ _ => true
  | _ => false
  end.

(** The same notification sink with another basket session. *)
Definition with_cart (w : World) (cart : string -> Z -> BasketResult) : World :=
  {| send_notification := send_notification w; add_to_cart := cart |}.

(** The alert kinds whose message carries the price field. *)
Definition has_price_field (t : AlertType) : bool :=
  match t with
  | BACK_IN_STOCK | TARGET_PRICE | LOWEST_EVER | ADDED_TO_BASKET => true
  | PRICE_DROP | STOCK_FLAPPING => false
  end.

Definition kind (a : alert) : AlertType := fst (fst a).

End UpdateSpec.

(** ** Notions for the callers *)

Module PollingSpec.

Import Scheduler SchedulerSpec.
Local Open Scope string_scope.

(** A product of the cycle that [_should_poll] lets through. *)
Definition due (cfg : Settings) (ws : Product * Polling.Step) : bool :=
  _should_poll cfg (fst ws) (Polling.due_at (snd ws)) (Polling.due_jitter (snd ws)).

(** The counters of a cycle add up: nothing is negative, a product counts as
    updated or as an error but never as both, and one pacing delay was slept
    before every fetch but the first. *)
Definition balanced (l : Polling.Loop) : Prop :=
  (0 <= Polling.checked l)%Z /\ (0 <= Polling.updated l)%Z /\ (0 <= Polling.errors l)%Z /\
  (Polling.updated l + Polling.errors l <= Polling.checked l)%Z /\
  Z.of_nat (List.length (Polling.sleeps l)) = Z.max 0 (Polling.checked l - 1).

(** How a polled product relates to the product it was: the same row, and
    the very same product when it was not due. *)
Definition written_back (cfg : Settings) (ws : Product * Polling.Step) (p' : Product)
  : Prop :=
  id p' = id (fst ws) /\ item_number p' = item_number (fst ws) /\
  (due cfg ws = false -> p' = fst ws).

(** The state a cycle starts from. *)
Definition idle (st : Scraper.State) : Polling.Loop :=
  {| Polling.scraper := st; Polling.polled := []; Polling.events := [];
     Polling.sleeps := []; Polling.checked := 0; Polling.updated := 0;
     Polling.errors := 0 |}.

(** A step of the cycle whose fetch times out. *)
Definition timeout_step : Polling.Step :=
  {| Polling.due_at := 6000; Polling.due_jitter := 1; Polling.pace := 3;
     Polling.clock := ScraperSpec.clock0; Polling.answer := Scraper.TimeoutException;
     Polling.processed_at := 6001 |}.

(** The default settings with the kill switch on. *)
Definition halted_settings : Settings := {|
  default_poll_interval_minutes := 45;
  min_poll_interval_minutes := 15;
  max_poll_interval_minutes := 180;
  backoff_multiplier := 2;
  auto_add_to_basket_enabled := false;
  safe_mode := true;
  kill_switch := true;
|}.

End PollingSpec.

(* ================================================================= *)
(** * Properties of the matcher *)

Module ReProps.

Import Re ReSpec.
Local Open Scope string_scope.

Lemma append_assoc (a b c : string) : (a ++ b) ++ c = a ++ b ++ c.
Proof. induction a as [|x a IH]; simpl; [reflexivity | now rewrite IH]. Qed.

Section Continuation.
Variable A : Type.
Variable k : cont A.
(** The continuation succeeds or fails whatever was captured. *)
Variable accepts : string -> Prop.
Hypothesis k_accepts : forall s cap, k s cap <> None <-> accepts s.

Lemma one_defined (c : ascii -> bool) (ing : bool) (s cap : string) :
  one c ing s cap k <> None <->
  exists a rest, s = String a rest /\ c a = true /\ accepts rest.
Proof.
  unfold one. destruct s as [|a s'].
  - split; [congruence | intros (? & ? & [=] & _)].
  - destruct (c a) eqn:E.
    + rewrite k_accepts. split.
      * intros H. now exists a, s'.
      * intros (? & ? & [= <- <-] & _ & H). exact H.
    + split; [congruence | intros (? & ? & [= <- <-] & H & _); congruence].
Qed.

Lemma star_defined (c : ascii -> bool) (ing : bool) (s cap : string) :
  star c ing s cap k <> None <->
  exists m rest, s = m ++ rest /\ all_in c m = true /\ accepts rest.
Proof.
  revert cap. induction s as [|a s' IH]; intros cap; simpl.
  - rewrite k_accepts. split.
    + intros H. now exists EmptyString, EmptyString.
    + intros ([|] & rest & Hs & _ & H); simpl in Hs; [now subst | discriminate].
  - destruct (c a) eqn:E.
    + destruct (star c ing s' (capture ing cap a) k) eqn:Es.
      * split; [intros _ | congruence].
        assert (Hd : star c ing s' (capture ing cap a) k <> None) by congruence.
        apply IH in Hd. destruct Hd as (m & rest & -> & Hm & Hr).
        exists (String a m), rest. simpl. now rewrite E, Hm.
      * rewrite k_accepts. split.
        -- intros H. now exists EmptyString, (String a s').
        -- intros ([|b m] & rest & Hs & Hm & Hr); simpl in Hs.
           ++ now subst.
           ++ injection Hs as <- ->. simpl in Hm. apply andb_true_iff in Hm.
              exfalso. assert (Hd : star c ing (m ++ rest) (capture ing cap a) k <> None).
              { apply IH. exists m, rest. tauto. }
              congruence.
    + rewrite k_accepts. split.
      * intros H. now exists EmptyString, (String a s').
      * intros ([|b m] & rest & Hs & Hm & Hr); simpl in Hs.
        -- now subst.
        -- injection Hs as <- ->. simpl in Hm. rewrite E in Hm. discriminate.
Qed.
End Continuation.

(** [match_here] succeeds exactly when a prefix of the subject is in the
    language of the pattern. *)
Lemma match_here_defined (r : regex) (ing : bool) (s cap : string) :
  match_here r ing s cap <> None <-> prefix_in r s.
Proof.
  revert ing s cap. induction r as [|t r IH]; intros ing s cap.
  - simpl. split; [intros _ | congruence].
    exists EmptyString, s. split; [reflexivity | constructor].
  - destruct t as [c q | | ].
    + assert (Hk : forall s0 cap0, match_here r ing s0 cap0 <> None <-> prefix_in r s0)
        by (intros; apply IH).
      destruct q; cbn [match_here].
      * rewrite (one_defined _ _ Hk). split.
        -- intros (a & rest & -> & Ha & m & rest' & -> & Hm).
           exists (String a m), rest'. split; [reflexivity|].
           apply (lang_cons (lang_one c a Ha) Hm).
        -- intros (m & rest & -> & Hm). inversion Hm as [|t' r' s1 s2 Ht Hr]; subst.
           inversion Ht; subst. simpl.
           eexists _, _. split; [reflexivity|]. split; [assumption|]. now exists s2, rest.
      * split.
        -- intros H.
           destruct (one c ing s cap (match_here r ing)) eqn:E.
           ++ assert (Hd : one c ing s cap (match_here r ing) <> None) by congruence.
              apply (one_defined _ _ Hk) in Hd.
              destruct Hd as (a & rest & -> & Ha & m & rest' & -> & Hm).
              exists (String a m), rest'. split; [reflexivity|].
              apply (lang_cons (lang_opt_one c a Ha) Hm).
           ++ apply IH in H. destruct H as (m & rest & -> & Hm).
              exists m, rest. split; [reflexivity|].
              apply (lang_cons (lang_opt_none c) Hm).
        -- intros (m & rest & -> & Hm). inversion Hm as [|t' r' s1 s2 Ht Hr]; subst.
           destruct (one c ing ((s1 ++ s2) ++ rest) cap (match_here r ing)) eqn:E;
             [congruence|].
           inversion Ht; subst; simpl in *.
           ++ apply IH. now exists s2, rest.
           ++ exfalso.
              assert (Hd : one c ing (String a (s2 ++ rest)) cap (match_here r ing) <> None).
              { apply (one_defined _ _ Hk). eexists _, _. split; [reflexivity|].
                split; [assumption|]. now exists s2, rest. }
              exact (Hd E).
      * rewrite (star_defined _ _ Hk). split.
        -- intros (m & rest & -> & Hall & m' & rest' & -> & Hm).
           exists (m ++ m'), rest'. split; [now rewrite append_assoc|].
           apply (lang_cons (lang_star c m Hall) Hm).
        -- intros (m & rest & -> & Hm). inversion Hm as [|t' r' s1 s2 Ht Hr]; subst.
           inversion Ht; subst. exists s1, (s2 ++ rest).
           split; [now rewrite append_assoc|]. split; [assumption|]. now exists s2, rest.
      * assert (Hk' : forall s0 cap0,
                   star c ing s0 cap0 (match_here r ing) <> None <->
                   exists m rest, s0 = m ++ rest /\ all_in c m = true /\ prefix_in r rest)
          by (intros; apply (star_defined _ _ Hk)).
        rewrite (one_defined (fun s' cap' => star c ing s' cap' (match_here r ing)) _ Hk').
        split.
        -- intros (a & rest & -> & Ha & m & rest0 & -> & Hall & m' & rest' & -> & Hm).
           exists (String a m ++ m'), rest'. split; [simpl; now rewrite append_assoc|].
           apply (lang_cons (lang_plus c a m Ha Hall) Hm).
        -- intros (m & rest & -> & Hm). inversion Hm as [|t' r' s1 s2 Ht Hr]; subst.
           inversion Ht; subst. simpl.
           eexists _, _. split; [reflexivity|]. split; [assumption|].
           eexists _, (s2 ++ rest). split; [now rewrite append_assoc|].
           split; [assumption|]. now exists s2, rest.
    + cbn [match_here]. rewrite IH. split.
      * intros (m & rest & -> & Hm). exists m, rest. split; [reflexivity|].
        apply (lang_cons lang_open Hm).
      * intros (m & rest & -> & Hm). inversion Hm as [|t' r' s1 s2 Ht Hr]; subst.
        inversion Ht; subst. now exists s2, rest.
    + cbn [match_here]. rewrite IH. split.
      * intros (m & rest & -> & Hm). exists m, rest. split; [reflexivity|].
        apply (lang_cons lang_close Hm).
      * intros (m & rest & -> & Hm). inversion Hm as [|t' r' s1 s2 Ht Hr]; subst.
        inversion Ht; subst. now exists s2, rest.
Qed.

(** [re.search] finds a match exactly when some substring of the subject is
    in the language of the pattern. *)
Theorem search_defined (r : regex) (s : string) :
  test r s = true <-> occurs_in r s.
Proof.
  unfold test. induction s as [|a s IH]; simpl.
  - destruct (match_here r false EmptyString EmptyString) eqn:E.
    + split; [intros _ | reflexivity].
      assert (Hd : match_here r false EmptyString EmptyString <> None) by congruence.
      apply match_here_defined in Hd. destruct Hd as (m & rest & Hs & Hm).
      exists EmptyString, m, rest. auto.
    + split; [discriminate|]. intros (pre & m & post & Hs & Hm).
      destruct pre; [|discriminate]. simpl in Hs.
      exfalso. assert (Hd : match_here r false EmptyString EmptyString <> None).
      { apply match_here_defined. now exists m, post. }
      congruence.
  - destruct (match_here r false (String a s) EmptyString) eqn:E.
    + split; [intros _ | reflexivity].
      assert (Hd : match_here r false (String a s) EmptyString <> None) by congruence.
      apply match_here_defined in Hd. destruct Hd as (m & rest & Hs & Hm).
      exists EmptyString, m, rest. auto.
    + rewrite IH. split.
      * intros (pre & m & post & -> & Hm). now exists (String a pre), m, post.
      * intros ([|b pre] & m & post & Hs & Hm); simpl in Hs.
        -- exfalso. assert (Hd : match_here r false (String a s) EmptyString <> None).
           { apply match_here_defined. now exists m, post. }
           congruence.
        -- injection Hs as <- ->. now exists pre, m, post.
Qed.

End ReProps.

(* ================================================================= *)
(** * Properties of the scraper *)

Module ScraperProps.

Import Re Scraper ReSpec ScraperSpec.
Local Open Scope string_scope.

(** Boolean float comparisons against the order of [Q]. *)
Lemma Qltb_lt (a b : Q) : Py.Qltb a b = true <-> a < b.
Proof.
  unfold Py.Qltb. rewrite negb_true_iff, <- not_true_iff_false, Qle_bool_iff.
  split; intro H; [apply Qnot_le_lt | apply Qlt_not_le]; exact H.
Qed.

Lemma Qltb_ge (a b : Q) : Py.Qltb a b = false <-> b <= a.
Proof.
  unfold Py.Qltb. rewrite negb_false_iff. apply Qle_bool_iff.
Qed.

Lemma test_true (r : regex) (html : string) :
  test r html = true <-> search r html <> None.
Proof.
  unfold test. destruct (search r html); simpl; split; congruence.
Qed.

(** Being found is a matter of the pattern's language alone: some substring
    of the page belongs to it. *)
Lemma found_in_occurs (patterns : list regex) (html : string) :
  found_in patterns html <->
  exists pattern, In pattern patterns /\ occurs_in pattern html.
Proof.
  unfold found_in.
  split; intros (r & Hin & Hr); exists r; (split; [exact Hin|]).
  - now apply ReProps.search_defined, test_true.
  - now apply test_true, ReProps.search_defined.
Qed.

Lemma any_pattern_found (patterns : list regex) (html : string) :
  any_pattern patterns html = true <-> found_in patterns html.
Proof.
  induction patterns as [|p ps IH]; simpl.
  - split; [discriminate | intros (r & [] & _)].
  - destruct (test p html) eqn:E.
    + split; [intros _ | reflexivity].
      exists p. split; [now left | now apply test_true].
    + rewrite IH. split.
      * intros (r & Hin & Hr). exists r. split; [now right | exact Hr].
      * intros (r & [<- | Hin] & Hr).
        -- apply test_true in Hr. congruence.
        -- now exists r.
Qed.

Lemma any_pattern_not_found (patterns : list regex) (html : string) :
  any_pattern patterns html = false <-> ~ found_in patterns html.
Proof.
  rewrite <- any_pattern_found. destruct (any_pattern patterns html); split; congruence.
Qed.

(** C1. The stock status of a page follows a fixed precedence: out of stock
    when an out-of-stock pattern is found; else warehouse only when a
    warehouse-only pattern is found; else in stock when an in-stock pattern is
    found; else unknown.  In particular a page on which both an out-of-stock
    and an in-stock pattern are found is out of stock. *)
Theorem parse_stock_status_precedence (html : string) :
  let out := found_in STOCK_PATTERNS_out_of_stock html in
  let warehouse := found_in STOCK_PATTERNS_warehouse_only html in
  let instock := found_in STOCK_PATTERNS_in_stock html in
  (out -> _parse_stock_status html = OUT_OF_STOCK) /\
  (~ out -> warehouse -> _parse_stock_status html = WAREHOUSE_ONLY) /\
  (~ out -> ~ warehouse -> instock -> _parse_stock_status html = IN_STOCK) /\
  (~ out -> ~ warehouse -> ~ instock -> _parse_stock_status html = UNKNOWN) /\
  (out -> instock -> _parse_stock_status html = OUT_OF_STOCK).
Proof.
  cbv zeta. unfold _parse_stock_status.
  repeat split; intros;
    repeat match goal with
           | H : found_in _ _ |- _ => apply any_pattern_found in H; rewrite H
           | H : ~ found_in _ _ |- _ => apply any_pattern_not_found in H; rewrite H
           end; reflexivity.
Qed.

Lemma parse_stock_status_precedence_witness :
  _parse_stock_status both_markers = OUT_OF_STOCK.
Proof.
  apply (proj2 (proj2 (proj2 (proj2 (parse_stock_status_precedence both_markers))))).
  - exists (lit ">Out of Stock<"). split; [simpl; auto | vm_compute; discriminate].
  - exists (lit ">Add to cart<"). split; [simpl; auto | vm_compute; discriminate].
Defined.

(** Matching ignores case, and a warehouse marker outranks add-to-cart. *)
Example stock_examples :
  _parse_stock_status "<b>IN-WAREHOUSE</b> <a>add to cart</a>" = WAREHOUSE_ONLY /\
  _parse_stock_status "<a>add to cart</a>" = IN_STOCK /\
  _parse_stock_status "<p>nothing to see</p>" = UNKNOWN.
Proof. vm_compute. auto. Qed.

Lemma price_candidate_yields (pattern : regex) (html : string) (price : Q) :
  price_candidate pattern html = Some price <-> yields pattern html price.
Proof.
  unfold price_candidate, yields. split.
  - destruct (search pattern html) as [g|]; [|discriminate].
    destruct (Py.float_of_str _) as [x|] eqn:Ef; [|discriminate].
    destruct (Py.Qltb 0 x) eqn:E0; [|discriminate].
    destruct (Py.Qltb x 100000) eqn:E1; [|discriminate].
    simpl. intros [= <-]. exists g.
    apply Qltb_lt in E0. apply Qltb_lt in E1. auto.
  - intros (g & -> & -> & H0 & H1).
    apply Qltb_lt in H0. apply Qltb_lt in H1. now rewrite H0, H1.
Qed.

Lemma price_candidate_none (pattern : regex) (html : string) :
  price_candidate pattern html = None <-> forall x, ~ yields pattern html x.
Proof.
  split.
  - intros E x Hx. apply price_candidate_yields in Hx. congruence.
  - intros H. destruct (price_candidate pattern html) as [x|] eqn:E; [|reflexivity].
    apply price_candidate_yields in E. now apply H in E.
Qed.

(** The loop returns the candidate of the first pattern that has one. *)
Lemma parse_price_loop_some (patterns : list regex) (html : string) (price : Q) :
  parse_price_loop patterns html = Some price <->
  exists i pattern,
    nth_error patterns i = Some pattern /\ yields pattern html price /\
    forall j earlier, (j < i)%nat -> nth_error patterns j = Some earlier ->
                      forall x, ~ yields earlier html x.
Proof.
  induction patterns as [|p ps IH]; simpl.
  - split; [discriminate | intros ([|i] & r & H & _); discriminate].
  - destruct (price_candidate p html) as [x|] eqn:E.
    + split.
      * intros [= <-]. exists 0%nat, p. split; [reflexivity|].
        split; [now apply price_candidate_yields | intros j ? Hj; lia].
      * intros ([|i] & r & Hn & Hy & Hearlier).
        -- simpl in Hn. injection Hn as <-.
           apply price_candidate_yields in Hy. congruence.
        -- apply price_candidate_yields in E.
           exfalso. apply (Hearlier 0%nat p) with (x := x); [lia | reflexivity | exact E].
    + rewrite IH. split.
      * intros (i & r & Hn & Hy & Hearlier). exists (S i), r.
        split; [exact Hn|]. split; [exact Hy|].
        intros [|j] e Hj He.
        -- simpl in He. injection He as <-. now apply price_candidate_none.
        -- apply (Hearlier j e); [lia | exact He].
      * intros ([|i] & r & Hn & Hy & Hearlier).
        -- simpl in Hn. injection Hn as <-.
           apply price_candidate_yields in Hy. congruence.
        -- exists i, r. split; [exact Hn|]. split; [exact Hy|].
           intros j e Hj He. apply (Hearlier (S j) e); [lia | exact He].
Qed.

Lemma parse_price_loop_none (patterns : list regex) (html : string) :
  parse_price_loop patterns html = None <->
  forall pattern, In pattern patterns -> forall x, ~ yields pattern html x.
Proof.
  induction patterns as [|p ps IH]; simpl.
  - split; [intros _ ? [] | reflexivity].
  - destruct (price_candidate p html) as [x|] eqn:E.
    + split; [discriminate|]. intros H. exfalso.
      apply (H p (or_introl eq_refl) x). now apply price_candidate_yields.
    + rewrite IH. split.
      * intros H r [<- | Hin]; [now apply price_candidate_none | now apply H].
      * intros H r Hin. apply H. now right.
Qed.

(** C7. The extracted price is the value given by the first pattern of
    [PRICE_PATTERNS] that is found and whose group, commas removed, parses to
    a float strictly between 0 and 100000; when no pattern gives such a
    value (each is absent, unparsable or out of range) there is no price. *)
Theorem parse_price_first_in_range (html : string) :
  (forall price,
      _parse_price html = Some price <->
      exists i pattern,
        nth_error PRICE_PATTERNS i = Some pattern /\ yields pattern html price /\
        forall j earlier, (j < i)%nat -> nth_error PRICE_PATTERNS j = Some earlier ->
                          forall x, ~ yields earlier html x) /\
  (_parse_price html = None <->
   forall pattern, In pattern PRICE_PATTERNS -> forall x, ~ yields pattern html x).
Proof.
  split.
  - intro price. apply parse_price_loop_some.
  - apply parse_price_loop_none.
Qed.

Lemma parse_price_first_in_range_witness :
  _parse_price span_price = Some (129999 # 100).
Proof.
  apply (proj1 (parse_price_first_in_range span_price)).
  exists 0%nat, (nth 0 PRICE_PATTERNS []). split; [reflexivity|]. split.
  - exists "1,299.99". split; [vm_compute; reflexivity|].
    split; [reflexivity|]. split; reflexivity.
  - intros j earlier Hj. lia.
Defined.

(** Thousands separators are removed; a zero or six-figure amount is passed
    over for the next pattern; a page with only such amounts has no price. *)
Example price_examples :
  _parse_price span_price = Some (129999 # 100) /\
  _parse_price (Py.chr Py.pound ++ "0.00 data-product-price="
                  ++ Py.chr Py.dquote ++ "12.50" ++ Py.chr Py.dquote) = Some (1250 # 100) /\
  _parse_price (Py.chr Py.pound ++ "250000") = None /\
  _parse_price (Py.chr Py.pound ++ "100000") = None /\
  _parse_price (Py.chr Py.pound ++ "99999.99") = Some (9999999 # 100).
Proof. vm_compute. auto 6. Qed.

(** ** Blocking, not-found and backoff *)

Lemma first_indicator_none (inds : list string) (html html_lower : string) :
  first_indicator inds html html_lower = None <->
  (10000 <= Py.len html)%Z \/
  forall indicator, In indicator inds -> Py.contains indicator html_lower = false.
Proof.
  induction inds as [|ind rest IH]; simpl.
  - split; [intros _; right; intros ? [] | reflexivity].
  - destruct (Py.contains ind html_lower) eqn:Ec; simpl.
    + destruct (Py.len html <? 10000)%Z eqn:El.
      * split; [discriminate|]. intros [H | H]; [lia|].
        specialize (H ind (or_introl eq_refl)). congruence.
      * rewrite IH. split; intros _; left; lia.
    + rewrite IH. split.
      * intros [H | H]; [now left | right].
        intros i [<- | Hi]; [exact Ec | now apply H].
      * intros [H | H]; [now left | right]. intros i Hi. apply H. now right.
Qed.

Lemma wait_keeps_errors (cfg : Settings) (st : State) (now jitter : Q) :
  _consecutive_errors (fst (_wait_if_needed cfg st now jitter)) = _consecutive_errors st.
Proof.
  unfold _wait_if_needed.
  destruct (_backoff_until st) as [b|]; [destruct (Py.Qltb now b)|]; simpl;
    destruct (_last_request_time st) as [t|]; simpl;
    try match goal with |- context [if ?c then _ else _] => destruct c end; reflexivity.
Qed.

Lemma backoff_seconds_cap (cfg : Settings) (n : Z) : backoff_seconds cfg n <= 3600.
Proof. apply Q.le_min_r. Qed.


Section Fetch.
Variable _parse_name : string -> option string.
Variable _parse_image : string -> option string.
Variable _parse_checkout_discount : string -> option Q * option string.

Let fetch := fetch_product _parse_name _parse_image _parse_checkout_discount.


(** C5 (amended). A 404 response whose body does not trip the blocking
    heuristic (it has at least 10000 characters, or contains none of the
    indicator phrases) gives a snapshot with stock status removed and the
    error "Product not found (404)"; the consecutive-error count is left
    alone and no backoff is set. *)
Theorem not_found_is_removed (cfg : Settings) (st : State) (url_or_item : string)
    (clk : Clock) (html : string) :
  kill_switch cfg = false ->
  ((10000 <= Py.len html)%Z \/
   forall indicator, In indicator blocking_indicators ->
                     Py.contains indicator (Py.lower html) = false) ->
  let result := fetch cfg st url_or_item clk (Response 404 html) in
  stock_status (snd result) = REMOVED /\
  error (snd result) = Some "Product not found (404)" /\
  price (snd result) = None /\
  _consecutive_errors (fst result) = _consecutive_errors st /\
  _backoff_until (fst result) =
    _backoff_until (fst (_wait_if_needed cfg st (at_wait clk) (delay_jitter clk))).
Proof.
  intros Hks Hclean. cbv zeta.
  assert (Hnb : _detect_blocking html 404 = None).
  { unfold _detect_blocking.
    change (404 =? 403)%Z with false. change (404 =? 429)%Z with false.
    change (404 >=? 500)%Z with false. cbv iota.
    now apply first_indicator_none. }
  unfold fetch, fetch_product. rewrite Hks.
  destruct (Py.startswith "http" url_or_item); rewrite Hnb; simpl;
    rewrite wait_keeps_errors; auto.
Qed.
End Fetch.


(** Scenario D: a 403 on a fresh scraper with the default multiplier 2. *)
Example forbidden_backoff :
  let result := fetch_product no_name no_name no_discount default_settings init "123456"
                  clock0 (Response 403 "<html>Forbidden</html>") in
  error (snd result) = Some "Access forbidden (403)" /\
  _consecutive_errors (fst result) = 1%Z /\
  _backoff_until (fst result) = Some (1 + 120).
Proof. vm_compute. auto. Qed.


Lemma not_found_is_removed_witness :
  stock_status
    (snd (fetch_product no_name no_name no_discount default_settings init "123456" clock0
            (Response 404 "<h1>Page not found</h1>"))) = REMOVED.
Proof.
  refine (proj1
    (not_found_is_removed no_name no_name no_discount default_settings init
       "123456" clock0 "<h1>Page not found</h1>" eq_refl _)).
  right. intros indicator Hin. simpl in Hin.
  repeat (destruct Hin as [<- | Hin]; [vm_compute; reflexivity|]). destruct Hin.
Defined.

(** C5 as stated fails: a short 404 page that contains an indicator phrase is
    reported as possible blocking, with stock status unknown, an error count
    raised and a backoff set. *)
Lemma not_found_reported_as_blocking :
  let result := fetch_product no_name no_name no_discount default_settings init "123456"
                  clock0 (Response 404 "<title>404</title><meta name=robots>") in
  stock_status (snd result) = UNKNOWN /\
  error (snd result) = Some "Possible blocking detected: robot" /\
  _consecutive_errors (fst result) = 1%Z /\
  _backoff_until (fst result) = Some (1 + 120).
Proof. vm_compute. auto. Qed.

End ScraperProps.

(* ================================================================= *)
(** * Properties of the scheduler *)

Module SchedulerProps.

Import Scheduler SchedulerSpec.
Import ScraperProps.
Local Open Scope string_scope.

(** ** Reading alerts and basket calls off a trace *)

Lemma sent_alerts_app (t1 t2 : list Event) :
  sent_alerts (t1 ++ t2) = (sent_alerts t1 ++ sent_alerts t2)%list.
Proof.
  induction t1 as [|e t1 IH]; [reflexivity|].
  destruct e; simpl; rewrite IH; reflexivity.
Qed.

Lemma recorded_alerts_app (t1 t2 : list Event) :
  recorded_alerts (t1 ++ t2) = (recorded_alerts t1 ++ recorded_alerts t2)%list.
Proof.
  induction t1 as [|e t1 IH]; [reflexivity|].
  destruct e; simpl; rewrite IH; reflexivity.
Qed.

Lemma basket_attempts_app (t1 t2 : list Event) :
  basket_attempts (t1 ++ t2) = (basket_attempts t1 ++ basket_attempts t2)%list.
Proof.
  induction t1 as [|e t1 IH]; [reflexivity|].
  destruct e; simpl; rewrite IH; reflexivity.
Qed.

Lemma sent_send_alert (w : World) (p : Product) (a : alert) :
  sent_alerts (_send_alert w p a) = [a].
Proof.
  destruct a as [[t o] n]. unfold _send_alert.
  destruct (send_notification w p t o n); reflexivity.
Qed.

Lemma basket_send_alert (w : World) (p : Product) (a : alert) :
  basket_attempts (_send_alert w p a) = [].
Proof.
  destruct a as [[t o] n]. unfold _send_alert.
  destruct (send_notification w p t o n); reflexivity.
Qed.

Lemma sent_send_alerts (w : World) (p : Product) (alerts : list alert) :
  sent_alerts (send_alerts w p alerts) = alerts.
Proof.
  induction alerts as [|a rest IH]; [reflexivity|].
  simpl. rewrite sent_alerts_app, sent_send_alert, IH. reflexivity.
Qed.

Lemma basket_send_alerts (w : World) (p : Product) (alerts : list alert) :
  basket_attempts (send_alerts w p alerts) = [].
Proof.
  induction alerts as [|a rest IH]; [reflexivity|].
  simpl. rewrite basket_attempts_app, basket_send_alert, IH. reflexivity.
Qed.

Lemma recorded_send_alert (w : World) (p : Product) (a : alert) :
  sink_reliable w -> recorded_alerts (_send_alert w p a) = [a].
Proof.
  intros Hw. destruct a as [[t o] n]. unfold _send_alert.
  destruct (send_notification w p t o n) eqn:E; [reflexivity | now apply Hw in E].
Qed.


(** ** The price steps, one at a time *)

Ltac by_computation := split; simpl; rewrite ?app_nil_r; try reflexivity; try assumption.

Lemma update_lowest_effect (x : Q) (c : Ctx) :
  effect c (update_lowest x c)
    (Some (new_lowest (lowest_price (product c)) x)) (current_price (product c))
    (highest_price (product c)) (previous_price (product c))
    (lowest_alert (product c) x).
Proof.
  unfold update_lowest, lowest_alert, new_lowest.
  destruct (lowest_price (product c)) as [lo|] eqn:El.
  - destruct (Py.Qltb x lo); simpl.
    + destruct (notify_lowest_ever (product c)); by_computation.
    + by_computation.
  - by_computation.
Qed.

Lemma update_highest_effect (x : Q) (c : Ctx) :
  effect c (update_highest x c)
    (lowest_price (product c)) (current_price (product c))
    (Some (new_highest (highest_price (product c)) x)) (previous_price (product c)) [].
Proof.
  unfold update_highest, new_highest.
  destruct (highest_price (product c)) as [hi|] eqn:Eh.
  - destruct (Py.Qltb hi x); by_computation.
  - by_computation.
Qed.

Lemma check_price_drop_effect (old : option Q) (x : Q) (c : Ctx) :
  keeps_prices c (check_price_drop old x c) (drop_alert (product c) old x).
Proof.
  unfold keeps_prices, check_price_drop, drop_alert.
  destruct old as [o|]; [|by_computation].
  destruct (Py.truthy_float (Some o) && Py.Qltb x o && notify_price_drop (product c));
    by_computation.
Qed.

Lemma check_target_price_effect (x : Q) (c : Ctx) :
  keeps_prices c (check_target_price x c) (target_alert (product c) x).
Proof.
  unfold keeps_prices, check_target_price, target_alert.
  destruct (target_price (product c)) as [t|]; [|by_computation].
  destruct (Py.truthy_float (Some t) && Qle_bool x t && notify_target_price (product c));
    by_computation.
Qed.

Lemma update_checkout_discount_effect (data : Scraper.ProductData) (c : Ctx) :
  keeps_prices c (update_checkout_discount data c) [].
Proof. by_computation. Qed.

Lemma lowest_alert_ext (p p' : Product) (x : Q) :
  lowest_price p' = lowest_price p -> policy p' = policy p ->
  lowest_alert p' x = lowest_alert p x.
Proof. unfold lowest_alert, policy. intros -> [= _ _ _ _ -> _ _ _ _ _]. reflexivity. Qed.

Lemma drop_alert_ext (p p' : Product) (old : option Q) (x : Q) :
  policy p' = policy p -> drop_alert p' old x = drop_alert p old x.
Proof. unfold drop_alert, policy. intros [= _ _ -> _ _ _ _ _ _ _]. reflexivity. Qed.

Lemma target_alert_ext (p p' : Product) (x : Q) :
  policy p' = policy p -> target_alert p' x = target_alert p x.
Proof. unfold target_alert, policy. intros [= -> _ _ -> _ _ _ _ _ _]. reflexivity. Qed.

Lemma price_steps_unchanged (data : Scraper.ProductData) (now : Q) (c : Ctx) :
  price_change data c = None -> keeps_prices c (price_steps data now c) [].
Proof.
  unfold price_change, price_steps, check_price_continued, check_price.
  destruct (Scraper.price data) as [x|].
  - destruct (price_differs (current_price (product c)) x); [discriminate|].
    intros _. by_computation.
  - intros _. by_computation.
Qed.

Lemma price_steps_changed (data : Scraper.ProductData) (now : Q) (c : Ctx) (x : Q) :
  price_change data c = Some x ->
  let c' := price_steps data now c in
  let old := current_price (product c) in
  lowest_price (product c') = Some (new_lowest (lowest_price (product c)) x) /\
  current_price (product c') = Some x /\
  highest_price (product c') = Some (new_highest (highest_price (product c)) x) /\
  previous_price (product c') = old /\
  policy (product c') = policy (product c) /\
  errors (product c') = errors (product c) /\
  stock_status (product c') = stock_status (product c) /\
  trace c' = (trace c ++ [AddPriceHistory (id (product c)) x old now])%list /\
  alerts_to_send c' =
    (alerts_to_send c ++ lowest_alert (product c) x ++ drop_alert (product c) old x
       ++ target_alert (product c) x)%list /\
  changed c' = true.
Proof.
  unfold price_change, price_steps, check_price_continued, check_price.
  destruct (Scraper.price data) as [y|]; [|discriminate].
  destruct (price_differs (current_price (product c)) y); [|discriminate].
  intros [= ->]. cbv zeta.
  set (old := current_price (product c)).
  set (c2 := update_checkout_discount data _).
  assert (H2 : lowest_price (product c2) = lowest_price (product c) /\
               current_price (product c2) = Some x /\
               highest_price (product c2) = highest_price (product c) /\
               previous_price (product c2) = old /\
               policy (product c2) = policy (product c) /\
               errors (product c2) = errors (product c) /\
               stock_status (product c2) = stock_status (product c) /\
               trace c2 = (trace c ++ [AddPriceHistory (id (product c)) x old now])%list /\
               alerts_to_send c2 = alerts_to_send c /\ changed c2 = true)
    by (repeat split).
  clearbody c2.
  destruct H2 as (Hlo & Hcu & Hhi & Hpv & Hpol & Herr & Hst & Htr & Hal & Hch).
  set (c3 := update_lowest x c2).
  set (c4 := update_highest x c3).
  set (c5 := check_price_drop old x c4).
  destruct (update_lowest_effect x c2) as [A1 A2 A3 A4 A5 A6 A7 A8 A9 A10].
  destruct (update_highest_effect x c3) as [B1 B2 B3 B4 B5 B6 B7 B8 B9 B10].
  destruct (check_price_drop_effect old x c4) as [C1 C2 C3 C4 C5 C6 C7 C8 C9 C10].
  destruct (check_target_price_effect x c5) as [D1 D2 D3 D4 D5 D6 D7 D8 D9 D10].
  fold c3 in A1, A2, A3, A4, A5, A6, A7, A8, A9, A10, B1, B2, B3, B4, B5, B6, B7, B8, B9, B10.
  fold c4 in B1, B2, B3, B4, B5, B6, B7, B8, B9, B10, C1, C2, C3, C4, C5, C6, C7, C8, C9, C10.
  fold c5 in C1, C2, C3, C4, C5, C6, C7, C8, C9, C10, D1, D2, D3, D4, D5, D6, D7, D8, D9, D10.
  assert (P3 : policy (product c3) = policy (product c)) by congruence.
  assert (P4 : policy (product c4) = policy (product c)) by congruence.
  assert (P5 : policy (product c5) = policy (product c)) by congruence.
  rewrite D1, D2, D3, D4, D5, D6, D7, D8, D9, D10.
  rewrite C1, C2, C3, C4, C6, C7, C8, C9, C10.
  rewrite B1, B2, B3, B4, B6, B7, B8, B9, B10.
  rewrite A1, A2, A3, A4, A6, A7, A8, A9, A10.
  rewrite Hlo, Hcu, Hhi, Hpv, Herr, Hst, Htr, Hal, Hch.
  rewrite (target_alert_ext x P5), (drop_alert_ext old x P4), (lowest_alert_ext x Hlo Hpol).
  rewrite app_nil_r, <- !app_assoc.
  repeat split. exact P5.
Qed.

(** ** The stock step *)

Lemma back_in_stock_differs (old new : string) :
  is_back_in_stock old new = true -> String.eqb old new = false.
Proof.
  unfold is_back_in_stock. rewrite andb_true_iff, !String.eqb_eq.
  intros [-> ->]. reflexivity.
Qed.

Lemma check_stock_effect (cfg : Settings) (w : World) (data : Scraper.ProductData)
    (now : Q) (c : Ctx) :
  let c' := check_stock cfg w data now c in
  lowest_price (product c') = lowest_price (product c) /\
  current_price (product c') = current_price (product c) /\
  highest_price (product c') = highest_price (product c) /\
  previous_price (product c') = previous_price (product c) /\
  policy (product c') = policy (product c) /\
  errors (product c') = errors (product c) /\
  stock_status (product c') = StockStatus_value (Scraper.stock_status data) /\
  trace c' = (trace c ++ stock_events cfg w (product c) data now)%list /\
  alerts_to_send c' = (alerts_to_send c ++ back_in_stock_alert (product c) data)%list.
Proof.
  cbv zeta.
  unfold check_stock, stock_events, basket_events, back_in_stock_alert, back_in_stock.
  destruct (String.eqb (stock_status (product c))
              (StockStatus_value (Scraper.stock_status data))) eqn:Eeq.
  - apply String.eqb_eq in Eeq. simpl.
    destruct (is_back_in_stock _ _) eqn:Eb.
    + apply back_in_stock_differs in Eb. rewrite Eeq, String.eqb_refl in Eb. discriminate.
    + simpl. rewrite !app_nil_r. repeat split. exact Eeq.
  - simpl. destruct (is_back_in_stock _ _); simpl.
    + destruct (notify_back_in_stock (product c)); destruct (auto_add_to_basket (product c));
        simpl; rewrite ?app_nil_r; repeat split.
    + rewrite ?app_nil_r. repeat split.
Qed.

(** ** An error-free update, step by step *)

Lemma process_valid (cfg : Settings) (w : World) (p : Product)
    (data : Scraper.ProductData) (now : Q) :
  Py.truthy_str (Scraper.error data) = false ->
  _process_product_update cfg w p data now =
  let c := finish cfg w p data now in
  (product c, (trace c ++ Commit :: send_alerts w (product c) (alerts_to_send c))%list,
   changed c).
Proof. intros H. unfold _process_product_update. rewrite H. reflexivity. Qed.

Lemma process_error (cfg : Settings) (w : World) (p : Product)
    (data : Scraper.ProductData) (now : Q) :
  Py.truthy_str (Scraper.error data) = true ->
  _process_product_update cfg w p data now =
  (record_error (set_last_checked_at (Some now) p) (Scraper.error data) now, [Commit], false).
Proof. intros H. unfold _process_product_update. rewrite H. reflexivity. Qed.

Lemma start_effect (p : Product) (data : Scraper.ProductData) (now : Q) :
  let p0 := product (start p data now) in
  lowest_price p0 = lowest_price p /\ current_price p0 = current_price p /\
  highest_price p0 = highest_price p /\ previous_price p0 = previous_price p /\
  policy p0 = policy p /\ stock_status p0 = stock_status p /\
  consecutive_errors p0 = 0%Z /\ last_error p0 = None.
Proof.
  cbv zeta. unfold start, clear_error_and_update_info. cbn [product].
  destruct (Py.truthy_str (Scraper.name data) && _);
    destruct (Py.truthy_str (Scraper.image_url data)); repeat split.
Qed.

Lemma price_steps_keeps (data : Scraper.ProductData) (now : Q) (c : Ctx) :
  policy (product (price_steps data now c)) = policy (product c) /\
  errors (product (price_steps data now c)) = errors (product c) /\
  stock_status (product (price_steps data now c)) = stock_status (product c).
Proof.
  destruct (price_change data c) as [x|] eqn:E.
  - destruct (price_steps_changed data now c E) as (_ & _ & _ & _ & H1 & H2 & H3 & _).
    auto.
  - destruct (price_steps_unchanged data now c E). auto.
Qed.

(** C8. A snapshot that carries an error raises the product's
    consecutive-error counter by exactly one, stores the error and its time,
    and sends no alert (nor calls the basket); a snapshot without error
    resets the counter to 0 and clears the stored error. *)
Theorem error_counter_tracking (cfg : Settings) (w : World) (p : Product)
    (data : Scraper.ProductData) (now : Q) :
  let r := _process_product_update cfg w p data now in
  if Py.truthy_str (Scraper.error data) then
    consecutive_errors (product_after r) = (consecutive_errors p + 1)%Z /\
    last_error (product_after r) = Scraper.error data /\
    last_error_at (product_after r) = Some now /\
    sent_alerts (events_of r) = [] /\
    recorded_alerts (events_of r) = [] /\
    basket_attempts (events_of r) = [] /\
    flag_of r = false
  else
    consecutive_errors (product_after r) = 0%Z /\
    last_error (product_after r) = None.
Proof.
  cbv zeta. destruct (Py.truthy_str (Scraper.error data)) eqn:E.
  - rewrite process_error by exact E. repeat split.
  - rewrite process_valid by exact E. cbv zeta. unfold product_after, finish. cbn [fst].
    destruct (price_steps_keeps data now
                (check_stock cfg w data now (start p data now))) as (_ & H & _).
    destruct (check_stock_effect cfg w data now (start p data now))
      as (_ & _ & _ & _ & _ & H' & _).
    destruct (start_effect p data now) as (_ & _ & _ & _ & _ & _ & Hc & He).
    rewrite H' in H. unfold errors in H. rewrite Hc, He in H.
    injection H as -> -> _. auto.
Qed.

(** ** Price ordering *)

Lemma new_lowest_le (lowest : option Q) (x : Q) : new_lowest lowest x <= x.
Proof.
  unfold new_lowest. destruct lowest as [lo|]; [|apply Qle_refl].
  destruct (Py.Qltb x lo) eqn:E; [apply Qle_refl|]. now apply Qltb_ge in E.
Qed.

Lemma new_highest_ge (highest : option Q) (x : Q) : x <= new_highest highest x.
Proof.
  unfold new_highest. destruct highest as [hi|]; [|apply Qle_refl].
  destruct (Py.Qltb hi x) eqn:E; [apply Qle_refl|]. now apply Qltb_ge in E.
Qed.

(** C9. If the lowest, current and highest prices of a product are known
    and ordered, they are still known and ordered after any snapshot has
    been processed; and on a product with no price yet, the first priced
    error-free snapshot sets all three to that price. *)
Theorem price_order_preserved (cfg : Settings) (w : World) (p : Product)
    (data : Scraper.ProductData) (now : Q) :
  let p' := product_after (_process_product_update cfg w p data now) in
  (forall lo cur hi,
      lowest_price p = Some lo -> current_price p = Some cur -> highest_price p = Some hi ->
      lo <= cur /\ cur <= hi ->
      exists lo' cur' hi',
        lowest_price p' = Some lo' /\ current_price p' = Some cur' /\
        highest_price p' = Some hi' /\ lo' <= cur' /\ cur' <= hi') /\
  (forall x,
      lowest_price p = None -> current_price p = None -> highest_price p = None ->
      Py.truthy_str (Scraper.error data) = false -> Scraper.price data = Some x ->
      lowest_price p' = Some x /\ current_price p' = Some x /\ highest_price p' = Some x /\
      previous_price p' = None).
Proof.
  cbv zeta.
  destruct (start_effect p data now) as (S1 & S2 & S3 & S4 & _).
  destruct (check_stock_effect cfg w data now (start p data now))
    as (K1 & K2 & K3 & K4 & _).
  rewrite S1 in K1. rewrite S2 in K2. rewrite S3 in K3. rewrite S4 in K4.
  set (c1 := check_stock cfg w data now (start p data now)) in *.
  split.
  - intros lo cur hi Elo Ecur Ehi [Hle1 Hle2].
    destruct (Py.truthy_str (Scraper.error data)) eqn:E.
    + rewrite process_error by exact E. exists lo, cur, hi. simpl. auto.
    + rewrite process_valid by exact E. cbv zeta. unfold product_after, finish. cbn [fst].
      fold c1. destruct (price_change data c1) as [x|] eqn:Ech.
      * destruct (price_steps_changed data now c1 Ech) as (P1 & P2 & P3 & _).
        exists (new_lowest (lowest_price (product c1)) x), x,
               (new_highest (highest_price (product c1)) x).
        repeat split; try assumption; [apply new_lowest_le | apply new_highest_ge].
      * destruct (price_steps_unchanged data now c1 Ech) as [P1 P2 P3 _ _ _ _ _ _ _].
        exists lo, cur, hi. rewrite P1, P2, P3, K1, K2, K3. auto.
  - intros x Elo Ecur Ehi E Hx.
    rewrite process_valid by exact E. cbv zeta. unfold product_after, finish. cbn [fst].
    fold c1.
    assert (Ech : price_change data c1 = Some x).
    { unfold price_change. rewrite Hx, K2, Ecur. reflexivity. }
    destruct (price_steps_changed data now c1 Ech) as (P1 & P2 & P3 & P4 & _).
    rewrite P1, P2, P3, P4, K1, K2, K3, Elo, Ecur, Ehi. auto.
Qed.

(** ** The alerts of an error-free update *)

Lemma stock_events_without_restock (cfg : Settings) (w : World) (p : Product)
    (data : Scraper.ProductData) (now : Q) :
  back_in_stock p data = false ->
  stock_events cfg w p data now = [] \/
  stock_events cfg w p data now =
    [AddStockHistory (id p) (StockStatus_value (Scraper.stock_status data))
       (stock_status p) now].
Proof.
  intros H. unfold stock_events, basket_events. rewrite H. simpl.
  destruct (String.eqb _ _); auto.
Qed.

Lemma back_in_stock_start (p : Product) (data : Scraper.ProductData) (now : Q) :
  back_in_stock (product (start p data now)) data = back_in_stock p data.
Proof.
  unfold back_in_stock.
  destruct (start_effect p data now) as (_ & _ & _ & _ & _ & -> & _). reflexivity.
Qed.

Lemma sent_with_commit (w : World) (p : Product) (tr : list Event) (alerts : list alert) :
  sent_alerts (tr ++ Commit :: send_alerts w p alerts) = (sent_alerts tr ++ alerts)%list.
Proof. rewrite sent_alerts_app. simpl. now rewrite sent_send_alerts. Qed.

Lemma basket_with_commit (w : World) (p : Product) (tr : list Event) (alerts : list alert) :
  basket_attempts (tr ++ Commit :: send_alerts w p alerts) = basket_attempts tr.
Proof.
  rewrite basket_attempts_app. simpl. now rewrite basket_send_alerts, app_nil_r.
Qed.


(** C4. Scenario B: on a product at price 100 (lowest 100, highest 120) with
    target price 90 and the three price notifications on, an error-free
    snapshot priced 85 that does not also bring the product back in stock
    sends exactly LOWEST_EVER(100.00 -> 85.00), PRICE_DROP(100.00 -> 85.00)
    and TARGET_PRICE(None -> 85.00), in that order; the lowest price becomes
    85, the previous price 100, the current price 85. *)
Theorem scenario_price_drop (cfg : Settings) (w : World) (p : Product)
    (data : Scraper.ProductData) (now : Q) :
  current_price p = Some 100 -> lowest_price p = Some 100 -> highest_price p = Some 120 ->
  target_price p = Some 90 ->
  notify_lowest_ever p = true -> notify_price_drop p = true ->
  notify_target_price p = true ->
  Py.truthy_str (Scraper.error data) = false -> Scraper.price data = Some 85 ->
  back_in_stock p data = false ->
  let r := _process_product_update cfg w p data now in
  sent_alerts (events_of r) =
    [(LOWEST_EVER, Some "100.00", Some "85.00");
     (PRICE_DROP, Some "100.00", Some "85.00");
     (TARGET_PRICE, None, Some "85.00")] /\
  lowest_price (product_after r) = Some 85 /\
  previous_price (product_after r) = Some 100 /\
  current_price (product_after r) = Some 85 /\
  highest_price (product_after r) = Some 120 /\
  basket_attempts (events_of r) = [] /\
  flag_of r = true.
Proof.
  intros Ecur Elo Ehi Etg Hn1 Hn2 Hn3 Herr Hprice Hstock. cbv zeta.
  rewrite process_valid by exact Herr. cbv zeta.
  unfold product_after, events_of, flag_of, finish. cbn [fst snd].
  destruct (start_effect p data now) as (S1 & S2 & S3 & S4 & S5 & _).
  destruct (check_stock_effect cfg w data now (start p data now))
    as (K1 & K2 & K3 & K4 & K5 & _ & _ & Ktr & Kal).
  rewrite S1, Elo in K1. rewrite S2, Ecur in K2. rewrite S3, Ehi in K3. rewrite S5 in K5.
  unfold back_in_stock_alert in Kal. rewrite back_in_stock_start, Hstock in Kal.
  pose proof (stock_events_without_restock cfg w (product (start p data now)) data now) as Hev.
  rewrite back_in_stock_start in Hev. specialize (Hev Hstock).
  set (c1 := check_stock cfg w data now (start p data now)) in *.
  unfold policy in K5. injection K5 as T1 _ T3 T4 T5 _ _ _ _ _.
  rewrite Etg in T1. rewrite Hn2 in T3. rewrite Hn3 in T4. rewrite Hn1 in T5.
  assert (Ech : price_change data c1 = Some 85).
  { unfold price_change. rewrite Hprice, K2. reflexivity. }
  destruct (price_steps_changed data now c1 Ech) as (P1 & P2 & P3 & P4 & _ & _ & _ & Ptr & Pal & Pch).
  assert (Hal : alerts_to_send (price_steps data now c1) =
                [(LOWEST_EVER, Some "100.00", Some "85.00");
                 (PRICE_DROP, Some "100.00", Some "85.00");
                 (TARGET_PRICE, None, Some "85.00")]).
  { rewrite Pal, Kal. unfold lowest_alert, drop_alert, target_alert.
    rewrite K1, K2, T1, T3, T4, T5. reflexivity. }
  assert (Hs : sent_alerts (trace c1) = [] /\ basket_attempts (trace c1) = []).
  { rewrite Ktr. destruct Hev as [-> | ->]; split; reflexivity. }
  destruct Hs as [Hs1 Hs2].
  rewrite sent_with_commit, basket_with_commit, Hal, Ptr.
  rewrite sent_alerts_app, basket_attempts_app, Hs1, Hs2.
  rewrite P1, P2, P3, P4, Pch, K1, K2, K3.
  repeat split.
Qed.

(** ** Auto-add-to-basket *)

Lemma handle_auto_basket_events (cfg : Settings) (w : World) (p : Product)
    (data : Scraper.ProductData) :
  let attempt := add_to_basket cfg w (item_number p) (auto_add_quantity p) in
  basket_attempts (_handle_auto_basket cfg w p data) =
    (if over_max_price p data then [] else [(item_number p, auto_add_quantity p)]) /\
  sent_alerts (_handle_auto_basket cfg w p data) =
    (if over_max_price p data then []
     else if basket_success attempt then [added_alert p] else []) /\
  (sink_reliable w ->
   recorded_alerts (_handle_auto_basket cfg w p data) =
   sent_alerts (_handle_auto_basket cfg w p data)).
Proof.
  cbv zeta. unfold _handle_auto_basket, added_alert.
  destruct (over_max_price p data); [repeat split|].
  destruct (basket_success _).
  - cbn [basket_attempts sent_alerts recorded_alerts].
    rewrite basket_send_alert, sent_send_alert.
    repeat split. intros Hw. now rewrite recorded_send_alert.
  - repeat split.
Qed.


Lemma restocked_policy (p : Product) (data : Scraper.ProductData) (now : Q) :
  policy (restocked p data now) = policy p.
Proof. reflexivity. Qed.

Lemma price_alerts_kind (p : Product) (old : option Q) (x : Q) :
  forallb is_price_alert (lowest_alert p x ++ drop_alert p old x ++ target_alert p x) = true.
Proof.
  unfold lowest_alert, drop_alert, target_alert.
  destruct (lowest_price p) as [lo|]; [destruct (_ && _)|];
    (destruct old as [o|]; [destruct (_ && _ && _)|]);
    (destruct (target_price p) as [t|]; [destruct (_ && _ && _)|]); reflexivity.
Qed.

(** The price steps add price alerts only, and nothing but at most one
    price-history row to the trace. *)
Lemma price_steps_adds (data : Scraper.ProductData) (now : Q) (c : Ctx) :
  exists price_alerts extra,
    alerts_to_send (price_steps data now c) = (alerts_to_send c ++ price_alerts)%list /\
    forallb is_price_alert price_alerts = true /\
    trace (price_steps data now c) = (trace c ++ extra)%list /\
    sent_alerts extra = [] /\ recorded_alerts extra = [] /\ basket_attempts extra = [].
Proof.
  destruct (price_change data c) as [x|] eqn:E.
  - destruct (price_steps_changed data now c E) as (_ & _ & _ & _ & _ & _ & _ & Htr & Hal & _).
    eexists _, _. split; [exact Hal|]. split; [apply price_alerts_kind|].
    split; [exact Htr|]. repeat split.
  - destruct (price_steps_unchanged data now c E) as [_ _ _ _ _ _ _ Htr Hal _].
    exists [], []. rewrite Htr, Hal, !app_nil_r. repeat split.
Qed.


Lemma stock_events_restock (cfg : Settings) (w : World) (p : Product)
    (data : Scraper.ProductData) (now : Q) :
  back_in_stock p data = true -> auto_add_to_basket p = true ->
  stock_events cfg w p data now =
  AddStockHistory (id p) (StockStatus_value (Scraper.stock_status data)) (stock_status p) now
    :: _handle_auto_basket cfg w (restocked p data now) data.
Proof.
  intros Hb Ha. unfold stock_events, basket_events. rewrite Hb, Ha.
  unfold back_in_stock in Hb. now rewrite (back_in_stock_differs _ _ Hb).
Qed.

Lemma truthy_float_false (o : option Q) :
  Py.truthy_float o = false <-> o = None \/ exists x, o = Some x /\ x == 0.
Proof.
  unfold Py.truthy_float. destruct o as [x|].
  - rewrite negb_false_iff, Qeq_bool_iff. split.
    + intros H. right. now exists x.
    + intros [H | (y & [= ->] & H)]; [discriminate | exact H].
  - split; auto.
Qed.

(** C10. The max-price gate of auto-add-to-basket looks at the snapshot's
    price only: the basket is called unless a non-zero max price is set and
    the snapshot has a non-zero price above it, whatever the stored current
    price is.  So when the snapshot has no price (None or 0) the basket call
    goes ahead even though a max price is configured, also through a whole
    update that brings the product back in stock. *)
Theorem basket_gate_uses_snapshot_price (cfg : Settings) (w : World) (p : Product)
    (data : Scraper.ProductData) :
  let called := [(item_number p, auto_add_quantity p)] in
  (over_max_price p data = true <->
   exists max_price snapshot_price,
     auto_add_max_price p = Some max_price /\ Scraper.price data = Some snapshot_price /\
     ~ max_price == 0 /\ ~ snapshot_price == 0 /\ max_price < snapshot_price) /\
  basket_attempts (_handle_auto_basket cfg w p data) =
    (if over_max_price p data then [] else called) /\
  (forall stored,
      basket_attempts (_handle_auto_basket cfg w (set_current_price stored p) data) =
      basket_attempts (_handle_auto_basket cfg w p data)) /\
  (Scraper.price data = None \/ (exists x, Scraper.price data = Some x /\ x == 0) ->
   basket_attempts (_handle_auto_basket cfg w p data) = called /\
   forall now,
     Py.truthy_str (Scraper.error data) = false ->
     back_in_stock p data = true -> auto_add_to_basket p = true ->
     basket_attempts (events_of (_process_product_update cfg w p data now)) = called).
Proof.
  cbv zeta.
  destruct (handle_auto_basket_events cfg w p data) as (B1 & _).
  split; [|split; [exact B1|split]].
  - unfold over_max_price, Py.truthy_float.
    destruct (auto_add_max_price p) as [m|]; destruct (Scraper.price data) as [x|]; simpl.
    + rewrite !andb_true_iff, !negb_true_iff, <- !not_true_iff_false, !Qeq_bool_iff, Qltb_lt.
      split.
      * intros [[H1 H2] H3]. exists m, x. auto.
      * intros (m' & x' & [= <-] & [= <-] & H1 & H2 & H3). auto.
    + rewrite !andb_false_r. split; [discriminate | intros (? & ? & _ & [=] & _)].
    + split; [discriminate | intros (? & ? & [=] & _)].
    + split; [discriminate | intros (? & ? & [=] & _)].
  - intros stored.
    destruct (handle_auto_basket_events cfg w (set_current_price stored p) data) as (-> & _).
    rewrite B1. reflexivity.
  - intros Hno. apply truthy_float_false in Hno.
    assert (Hgate : forall q, policy q = policy p -> over_max_price q data = false).
    { intros q0 Hq. unfold over_max_price. rewrite Hno, andb_false_r. reflexivity. }
    split.
    + rewrite B1, (Hgate p eq_refl). reflexivity.
    + intros now Herr Hb Ha.
      rewrite process_valid by exact Herr. cbv zeta. unfold events_of, finish.
      cbn [fst snd]. rewrite basket_with_commit.
      destruct (start_effect p data now) as (_ & _ & _ & _ & S5 & _).
      destruct (check_stock_effect cfg w data now (start p data now))
        as (_ & _ & _ & _ & _ & _ & _ & Ktr & _).
      set (p0 := product (start p data now)) in *.
      set (c1 := check_stock cfg w data now (start p data now)) in *.
      destruct (price_steps_adds data now c1) as (pa & extra & _ & _ & -> & _ & _ & E3).
      rewrite basket_attempts_app, E3, app_nil_r, Ktr.
      change (trace (start p data now)) with (@nil Event). cbn [app].
      assert (Hb0 : back_in_stock p0 data = true)
        by (unfold p0; now rewrite back_in_stock_start).
      pose proof S5 as S5'. unfold policy in S5'.
      injection S5' as _ _ _ _ _ Ha0 Hq _ Hi _. rewrite Ha in Ha0.
      rewrite (stock_events_restock cfg w p0 data now Hb0 Ha0).
      cbn [basket_attempts].
      destruct (handle_auto_basket_events cfg w (restocked p0 data now) data) as (-> & _).
      rewrite (Hgate (restocked p0 data now)) by (rewrite restocked_policy; exact S5).
      change (item_number (restocked p0 data now)) with (item_number p0).
      change (auto_add_quantity (restocked p0 data now)) with (auto_add_quantity p0).
      now rewrite Hi, Hq.
Qed.

(** ** The due-check *)

(** C3 (amended). A product is due iff it was never checked, or the minutes
    elapsed since its last check are at least its interval (its own when set
    and non-zero, else the global default; no clamping between the global
    minimum and maximum) times the jitter.  Hence, with a positive interval
    and a jitter of at least 0.8, a product last checked 0.79 interval ago
    is not due. *)
Theorem should_poll_due (cfg : Settings) (p : Product) (now jitter : Q) :
  (_should_poll cfg p now jitter = true <->
   last_checked_at p = None \/
   exists checked,
     last_checked_at p = Some checked /\
     inject_Z (configured_interval cfg p) * jitter <= (now - checked) / 60) /\
  (forall checked,
      last_checked_at p = Some checked ->
      (0 < configured_interval cfg p)%Z -> 8 # 10 <= jitter ->
      (now - checked) / 60 == (79 # 100) * inject_Z (configured_interval cfg p) ->
      _should_poll cfg p now jitter = false).
Proof.
  assert (Hi : (if Py.truthy_int (poll_interval_minutes p)
                then match poll_interval_minutes p with Some i => i | None => 0%Z end
                else default_poll_interval_minutes cfg) = configured_interval cfg p).
  { unfold configured_interval, Py.truthy_int.
    destruct (poll_interval_minutes p) as [i|]; [destruct (i =? 0)%Z|]; reflexivity. }
  unfold _should_poll. cbv zeta. rewrite Hi.
  destruct (last_checked_at p) as [t|].
  - rewrite Qle_bool_iff. split.
    + split.
      * intros H. right. now exists t.
      * intros [H | (t' & [= <-] & H)]; [discriminate | exact H].
    + intros t' [= <-] Hpos Hj Hel.
      apply not_true_iff_false. rewrite Qle_bool_iff, Hel.
      assert (Hq : 0 < inject_Z (configured_interval cfg p))
        by (change 0 with (inject_Z 0); rewrite <- Zlt_Qlt; exact Hpos).
      nra.
  - split; [split; auto | discriminate].
Qed.

Lemma scenario_price_drop_witness :
  sent_alerts
    (events_of
       (_process_product_update default_settings (world false)
          (sample "in_stock" None false None) (snapshot (Some 85) IN_STOCK) 60)) =
  [(LOWEST_EVER, Some "100.00", Some "85.00");
   (PRICE_DROP, Some "100.00", Some "85.00");
   (TARGET_PRICE, None, Some "85.00")].
Proof.
  exact (proj1
    (scenario_price_drop default_settings (world false)
       (sample "in_stock" None false None) (snapshot (Some 85) IN_STOCK) 60
       eq_refl eq_refl eq_refl eq_refl eq_refl eq_refl eq_refl eq_refl eq_refl eq_refl)).
Defined.

Lemma price_order_preserved_witness :
  exists lo cur hi,
    lowest_price
      (product_after
         (_process_product_update default_settings (world false)
            (sample "in_stock" None false None) (snapshot (Some 130) IN_STOCK) 60))
    = Some lo /\
    current_price
      (product_after
         (_process_product_update default_settings (world false)
            (sample "in_stock" None false None) (snapshot (Some 130) IN_STOCK) 60))
    = Some cur /\
    highest_price
      (product_after
         (_process_product_update default_settings (world false)
            (sample "in_stock" None false None) (snapshot (Some 130) IN_STOCK) 60))
    = Some hi /\
    lo <= cur /\ cur <= hi.
Proof.
  apply (proj1
    (price_order_preserved default_settings (world false)
       (sample "in_stock" None false None) (snapshot (Some 130) IN_STOCK) 60)
    100 100 120 eq_refl eq_refl eq_refl).
  split; [apply Qle_refl | vm_compute; discriminate].
Defined.

(** Scenario A: the first priced snapshot sets the baseline and sends nothing. *)
Example scenario_first_price :
  let r := _process_product_update default_settings (world false) unpriced
             (snapshot (Some 100) IN_STOCK) 60 in
  lowest_price (product_after r) = Some 100 /\
  current_price (product_after r) = Some 100 /\
  highest_price (product_after r) = Some 100 /\
  previous_price (product_after r) = None /\
  consecutive_errors (product_after r) = 0%Z /\
  sent_alerts (events_of r) = [].
Proof. vm_compute. repeat split. Qed.



(** A failed basket attempt sends no alert of its own. *)
Example failed_basket_attempt :
  let r := _process_product_update basket_settings (world false)
             (sample "out_of_stock" None true (Some 150)) (snapshot (Some 100) IN_STOCK) 60 in
  basket_attempts (events_of r) = [("123456", 1%Z)] /\
  sent_alerts (events_of r) = [(BACK_IN_STOCK, Some "out_of_stock", Some "in_stock")].
Proof. vm_compute. split; reflexivity. Qed.

(** Scenario C: back in stock at 60 with a max price of 50: the back-in-stock
    alert goes out (with the price-drop alerts of the new price), the basket
    is not called. *)
Example scenario_gate_skips_basket :
  let r := _process_product_update basket_settings (world true)
             (sample "out_of_stock" None true (Some 50)) (snapshot (Some 60) IN_STOCK) 60 in
  basket_attempts (events_of r) = [] /\
  map (fun a => fst (fst a)) (sent_alerts (events_of r)) =
    [BACK_IN_STOCK; LOWEST_EVER; PRICE_DROP; TARGET_PRICE].
Proof. vm_compute. split; reflexivity. Qed.

Lemma basket_gate_uses_snapshot_price_witness :
  basket_attempts
    (events_of
       (_process_product_update basket_settings (world true)
          (sample "out_of_stock" None true (Some 50)) (snapshot None IN_STOCK) 60))
  = [("123456", 1%Z)].
Proof.
  exact (proj2
    (proj2 (proj2 (proj2
       (basket_gate_uses_snapshot_price basket_settings (world true)
          (sample "out_of_stock" None true (Some 50)) (snapshot None IN_STOCK))))
       (or_introl eq_refl))
    60 eq_refl eq_refl eq_refl).
Defined.

(** The stored price (100) is above the max price (50), the snapshot price is
    0: the gate lets the basket call through. *)
Example gate_ignores_stored_price :
  basket_attempts
    (_handle_auto_basket basket_settings (world true)
       (sample "in_stock" None true (Some 50)) (snapshot (Some 0) IN_STOCK))
  = [("123456", 1%Z)].
Proof. reflexivity. Qed.

(** C3 as stated fails: a product with its own interval of 5 minutes (the
    global minimum being 15), checked 6 minutes ago, is due for every jitter
    between 0.8 and 1.2, while the clamped interval of 15 minutes would make
    it not due for any. *)
Lemma should_poll_ignores_min_interval :
  let p := sample "in_stock" (Some 5%Z) false None in
  _should_poll default_settings p 360 (8 # 10) = true /\
  _should_poll default_settings p 360 (12 # 10) = true /\
  claimed_due default_settings p 360 (8 # 10) = false /\
  claimed_due default_settings p 360 (12 # 10) = false.
Proof. vm_compute. repeat split. Qed.

Lemma should_poll_due_witness :
  _should_poll default_settings (sample "in_stock" None false None) 2133 (8 # 10) = false.
Proof.
  refine (proj2
    (should_poll_due default_settings (sample "in_stock" None false None) 2133 (8 # 10))
    0 eq_refl _ _ _).
  - reflexivity.
  - vm_compute. discriminate.
  - reflexivity.
Defined.

(** With jitter 1.0 a product checked exactly one interval ago is due. *)
Example due_at_interval :
  _should_poll default_settings (sample "in_stock" None false None) 2700 1 = true /\
  _should_poll default_settings (sample "in_stock" None false None) 2699 1 = false /\
  _should_poll default_settings unpriced 0 1 = true.
Proof. vm_compute. repeat split. Qed.

End SchedulerProps.

(* ================================================================= *)
(** * What the matcher captures *)

Module CaptureProps.

Import Re ReSpec CoverageSpec.
Local Open Scope string_scope.

Lemma append_nil_r (s : string) : s ++ EmptyString = s.
Proof. induction s as [|a s IH]; simpl; [reflexivity | now rewrite IH]. Qed.

Lemma inside_closed (r : regex) : has_open r = false -> inside r false = [].
Proof.
  induction r as [|t r IH]; [reflexivity|].
  destruct t as [c q| |]; unfold has_open; simpl; fold (has_open r).
  - intros H. rewrite H. now apply IH.
  - discriminate.
  - intros H. now rewrite H.
Qed.

Lemma lang_nil_inv (m : string) : lang [] m -> m = EmptyString.
Proof. intros H. now inversion H. Qed.

Section Continuation.
Variable k : cont string.
Variable ing : bool.

Lemma star_stops (c : ascii -> bool) (s cap g : string) :
  k s cap = Some g ->
  exists m0 rest,
    s = m0 ++ rest /\ all_in c m0 = true /\
    k rest (if ing then cap ++ m0 else cap) = Some g.
Proof.
  intros H. exists EmptyString, s. repeat split.
  destruct ing; rewrite ?append_nil_r; exact H.
Qed.

(** What the continuation is called with after a greedy repetition. *)
Lemma star_calls (c : ascii -> bool) (s cap g : string) :
  star c ing s cap k = Some g ->
  exists m0 rest,
    s = m0 ++ rest /\ all_in c m0 = true /\
    k rest (if ing then cap ++ m0 else cap) = Some g.
Proof.
  revert cap. induction s as [|a s IH]; intros cap; simpl.
  - apply star_stops.
  - destruct (c a) eqn:Ea; [|apply star_stops].
    destruct (star c ing s (capture ing cap a) k) as [g'|] eqn:Es; [|apply star_stops].
    intros [= <-]. apply IH in Es. destruct Es as (m0 & rest & -> & Hall & Hk).
    exists (String a m0), rest. simpl. rewrite Ea, Hall. repeat split.
    unfold capture in Hk. destruct ing; [|exact Hk].
    now rewrite ReProps.append_assoc in Hk.
Qed.

Lemma one_calls (c : ascii -> bool) (s cap g : string) (k' : cont string) :
  one c ing s cap k' = Some g ->
  exists a rest, s = String a rest /\ c a = true /\ k' rest (capture ing cap a) = Some g.
Proof.
  unfold one. destruct s as [|a s']; [discriminate|].
  destruct (c a) eqn:Ea; [|discriminate]. intros H. now exists a, s'.
Qed.
End Continuation.

(** Group 1 belongs to the language of the tokens inside the group. *)
Lemma match_here_captures (r : regex) (ing : bool) (s cap g : string) :
  match_here r ing s cap = Some g ->
  exists m, g = seed r cap ++ m /\ lang (inside r ing) m.
Proof.
  revert ing s cap g. induction r as [|t r IH]; intros ing s cap g.
  - simpl. intros [= <-]. exists EmptyString. unfold seed. simpl.
    rewrite append_nil_r. split; [reflexivity | constructor].
  - destruct t as [c q | | ].
    + assert (Hwrap : forall tok_text m cap',
                 tok_lang (Cls c q) tok_text ->
                 cap' = (if ing then cap ++ tok_text else cap) ->
                 lang (inside r ing) m ->
                 exists m', seed r cap' ++ m = seed (Cls c q :: r) cap ++ m' /\
                            lang (inside (Cls c q :: r) ing) m').
      { intros tok_text m cap' Ht -> Hm. unfold seed. cbn [inside].
        change (has_open (Cls c q :: r)) with (has_open r).
        destruct (has_open r) eqn:Ho.
        - exists m. auto.
        - destruct ing.
          + exists (tok_text ++ m). rewrite ReProps.append_assoc. split; [reflexivity|].
            now apply lang_cons.
          + rewrite (inside_closed r Ho) in Hm. apply lang_nil_inv in Hm. subst m.
            exists EmptyString. rewrite (inside_closed r Ho). split; [reflexivity|constructor]. }
      destruct q; cbn [match_here]; intros H.
      * apply one_calls in H. destruct H as (a & rest & -> & Ha & Hk).
        apply IH in Hk. destruct Hk as (m & -> & Hm).
        apply (Hwrap (String a EmptyString)); [now constructor | | exact Hm].
        unfold capture. destruct ing; reflexivity.
      * destruct (one c ing s cap (match_here r ing)) as [g'|] eqn:E.
        -- injection H as <-. apply one_calls in E.
           destruct E as (a & rest & -> & Ha & Hk).
           apply IH in Hk. destruct Hk as (m & -> & Hm).
           apply (Hwrap (String a EmptyString)); [now constructor | | exact Hm].
           unfold capture. destruct ing; reflexivity.
        -- apply IH in H. destruct H as (m & -> & Hm).
           apply (Hwrap EmptyString); [constructor | | exact Hm].
           destruct ing; [now rewrite append_nil_r | reflexivity].
      * apply star_calls in H. destruct H as (m0 & rest & -> & Hall & Hk).
        apply IH in Hk. destruct Hk as (m & -> & Hm).
        apply (Hwrap m0); [now constructor | reflexivity | exact Hm].
      * apply one_calls in H. destruct H as (a & rest & -> & Ha & Hk).
        apply star_calls in Hk. destruct Hk as (m0 & rest' & -> & Hall & Hk).
        apply IH in Hk. destruct Hk as (m & -> & Hm).
        apply (Hwrap (String a m0)); [now constructor | | exact Hm].
        unfold capture. destruct ing; [now rewrite ReProps.append_assoc | reflexivity].
    + cbn [match_here]. intros H. apply IH in H. destruct H as (m & -> & Hm).
      exists m. unfold seed. cbn [inside]. split; [|exact Hm].
      destruct (has_open r); reflexivity.
    + cbn [match_here]. intros H. apply IH in H. destruct H as (m & -> & Hm).
      unfold seed. cbn [inside]. change (has_open (GroupClose :: r)) with (has_open r).
      destruct (has_open r) eqn:Ho.
      * exists m. auto.
      * rewrite (inside_closed r Ho) in Hm. apply lang_nil_inv in Hm. subst m.
        exists EmptyString. split; [reflexivity | constructor].
Qed.

(** The text [re.search] returns as group 1 of a pattern that opens a group
    belongs to the language of the tokens inside that group. *)
Lemma search_captures (r : regex) (s g : string) :
  has_open r = true -> search r s = Some g -> lang (inside r false) g.
Proof.
  intros Ho. induction s as [|a s IH]; simpl.
  - destruct (match_here r false EmptyString EmptyString) as [g'|] eqn:E; [|discriminate].
    intros [= <-]. apply match_here_captures in E. destruct E as (m & -> & Hm).
    unfold seed. now rewrite Ho.
  - destruct (match_here r false (String a s) EmptyString) as [g'|] eqn:E; [|exact IH].
    intros [= <-]. apply match_here_captures in E. destruct E as (m & -> & Hm).
    unfold seed. now rewrite Ho.
Qed.

Lemma all_in_app (c : ascii -> bool) (a b : string) :
  all_in c (a ++ b) = all_in c a && all_in c b.
Proof. induction a as [|x a IH]; simpl; [reflexivity | now rewrite IH, andb_assoc]. Qed.

(** A string made of tokens over one class stays in the class. *)
Lemma lang_all_in (d : ascii -> bool) (r : regex) (g : string) :
  (forall t, In t r -> exists q, t = Cls d q) -> lang r g -> all_in d g = true.
Proof.
  intros Hr H. induction H as [|t r s1 s2 Ht Hl IH]; [reflexivity|].
  rewrite all_in_app, IH by (intros t' Ht'; apply Hr; now right).
  destruct (Hr t (or_introl eq_refl)) as [q ->].
  rewrite andb_true_r. inversion Ht; subst; simpl; rewrite ?andb_true_r; auto.
  apply andb_true_iff; auto.
Qed.

Lemma lang_nonempty (d : ascii -> bool) (q : quant) (r : regex) (g : string) :
  q = One \/ q = Plus -> lang (Cls d q :: r) g -> g <> EmptyString.
Proof.
  intros Hq H. inversion H as [|t r' s1 s2 Ht Hl]; subst.
  inversion Ht; subst; simpl; try discriminate; destruct Hq; discriminate.
Qed.

(** Group 1 of a pattern whose group is a non-empty run over one class. *)
Lemma group_in_class (d : ascii -> bool) (r : regex) (s g : string) (body : regex) :
  has_open r = true -> inside r false = body ->
  (forall t, In t body -> exists q, t = Cls d q) ->
  (exists q r', body = Cls d q :: r' /\ (q = One \/ q = Plus)) ->
  search r s = Some g -> g <> EmptyString /\ all_in d g = true.
Proof.
  intros Ho <- H1 (q & r' & E & Hq) H.
  apply (search_captures r s Ho) in H. split.
  - rewrite E in H. exact (lang_nonempty Hq H).
  - exact (lang_all_in H1 H).
Qed.

(** Greedy repetition over a run of the class followed by the end of the
    group. *)
Lemma star_run (c : ascii -> bool) (m cap : string) :
  all_in c m = true ->
  star c true m cap (match_here [GroupClose] true) = Some (cap ++ m).
Proof.
  revert cap. induction m as [|a m IH]; intros cap; simpl.
  - now rewrite append_nil_r.
  - intros H. apply andb_true_iff in H. destruct H as [Ha Hm].
    rewrite Ha, (IH _ Hm). unfold capture. now rewrite ReProps.append_assoc.
Qed.

End CaptureProps.

(* ================================================================= *)
(** * Further properties of the scraper *)

Module FetchProps.

Import Re ReSpec Scraper ScraperSpec CoverageSpec.
Import ScraperProps.
Local Open Scope string_scope.

(** X1. [_wait_if_needed] sleeps long enough: when it returns, a pending
    backoff has run out and at least the delay of [_get_delay] has passed
    since the previous request; every sleep is positive, and a backoff left
    in the state is one that had already expired. *)
Theorem wait_respects_backoff_and_spacing (cfg : Settings) (st : State) (now jitter : Q) :
  let r := _wait_if_needed cfg st now jitter in
  let resumed := now + total (snd r) in
  (forall b, _backoff_until st = Some b -> b <= resumed) /\
  (forall t, _last_request_time st = Some t -> t + _get_delay cfg st jitter <= resumed) /\
  (forall d, In d (snd r) -> 0 < d) /\
  (forall b, _backoff_until (fst r) = Some b -> b <= now).
Proof.
  cbv zeta. unfold _wait_if_needed.
  assert (Hd : forall b0, _get_delay cfg {| _last_request_time := _last_request_time st;
                                          _consecutive_errors := _consecutive_errors st;
                                          _backoff_until := b0 |} jitter
                        = _get_delay cfg st jitter) by reflexivity.
  destruct (_backoff_until st) as [b|] eqn:Eb;
    [destruct (Py.Qltb now b) eqn:Enow;
       [apply Qltb_lt in Enow | apply Qltb_ge in Enow]|];
    cbn [_last_request_time]; rewrite ?Hd;
    (destruct (_last_request_time st) as [t|];
       [match goal with
        | |- context [Py.Qltb ?x ?y] =>
            destruct (Py.Qltb x y) eqn:Ed; [apply Qltb_lt in Ed | apply Qltb_ge in Ed]
        end|]);
    cbn [fst snd app total _backoff_until]; rewrite ?Eb;
    repeat split; intros x Hx;
    try discriminate;
    try (injection Hx as <-; lra);
    try (simpl in Hx; repeat (destruct Hx as [<- | Hx]; [lra|]); contradiction).
Qed.

Lemma delay_floor (cfg : Settings) (st : State) (jitter : Q) :
  (0 <= _consecutive_errors st)%Z -> 1 # 2 <= jitter ->
  (if safe_mode cfg then 3 # 2 else 1 # 2) <= _get_delay cfg st jitter.
Proof.
  intros Hn Hj. unfold _get_delay.
  assert (H : 0 <= inject_Z (_consecutive_errors st))
    by (change 0 with (inject_Z 0); now rewrite <- Zle_Qle).
  destruct (safe_mode cfg); cbv zeta; nra.
Qed.

(** X22. Two requests are never closer than a second and a half in safe
    mode, and half a second otherwise: with a jitter of at least one half
    and an error count that is not negative, [_wait_if_needed] returns no
    earlier than that after the previous request. *)
Theorem request_spacing_floor (cfg : Settings) (st : State) (now jitter t : Q) :
  (0 <= _consecutive_errors st)%Z -> 1 # 2 <= jitter ->
  _last_request_time st = Some t ->
  t + (if safe_mode cfg then 3 # 2 else 1 # 2)
    <= now + total (snd (_wait_if_needed cfg st now jitter)).
Proof.
  intros Hn Hj Ht. pose proof (delay_floor cfg st Hn Hj) as Hd.
  unfold _wait_if_needed.
  assert (Hg : forall b0, _get_delay cfg {| _last_request_time := _last_request_time st;
                                          _consecutive_errors := _consecutive_errors st;
                                          _backoff_until := b0 |} jitter
                        = _get_delay cfg st jitter) by reflexivity.
  destruct (_backoff_until st) as [b|];
    [destruct (Py.Qltb now b) eqn:Enow;
       [apply Qltb_lt in Enow | apply Qltb_ge in Enow]|];
    cbn [_last_request_time]; rewrite ?Hg, Ht;
    match goal with
    | |- context [Py.Qltb ?x ?y] =>
        destruct (Py.Qltb x y) eqn:Ed; [apply Qltb_lt in Ed | apply Qltb_ge in Ed]
    end;
    cbn [fst snd app total]; lra.
Qed.

Lemma request_spacing_floor_witness :
  10 + (3 # 2) <= 11 + total (snd (_wait_if_needed default_settings
                                     (set_last_request_time init 10) 11 1)).
Proof.
  apply (@request_spacing_floor default_settings (set_last_request_time init 10) 11 1 10);
    [cbn; lia | lra | reflexivity].
Defined.

Lemma detect_blocking_truthy (html : string) (status : Z) (err : string) :
  _detect_blocking html status = Some err -> Py.truthy_str (Some err) = true.
Proof.
  unfold _detect_blocking.
  destruct (status =? 403)%Z; [intros [= <-]; reflexivity|].
  destruct (status =? 429)%Z; [intros [= <-]; reflexivity|].
  destruct (status >=? 500)%Z; [intros [= <-]; reflexivity|].
  generalize blocking_indicators. intros inds.
  induction inds as [|ind rest IH]; simpl; [discriminate|].
  destruct (_ && _); [intros [= <-]; reflexivity | exact IH].
Qed.

Lemma parse_price_in_range (html : string) (p : Q) :
  _parse_price html = Some p -> 0 < p /\ p < 100000.
Proof.
  intros H. apply parse_price_loop_some in H.
  destruct H as (_ & _ & _ & (g & _ & _ & H0 & H1) & _). auto.
Qed.

Lemma parse_stock_status_cases (html : string) :
  _parse_stock_status html <> REMOVED.
Proof.
  unfold _parse_stock_status.
  destruct (any_pattern _ _); [discriminate|].
  destruct (any_pattern _ _); [discriminate|].
  destruct (any_pattern _ _); discriminate.
Qed.

Section Fetch.
Variable _parse_name : string -> option string.
Variable _parse_image : string -> option string.
Variable _parse_checkout_discount : string -> option Q * option string.


(** X3. Every snapshot [fetch_product] returns is of one of two shapes.
    With an error it holds no price, name, image or discount, is not
    warehouse-only, and its stock status is unknown or removed.  Without an
    error its price, if any, lies strictly between 0 and 100000, it is
    warehouse-only exactly when its stock status says so, and its stock
    status is never removed. *)
Theorem snapshot_well_formed (cfg : Settings) (st : State) (url_or_item : string)
    (clk : Clock) (net : Transport) :
  let data :=
    snd (fetch_product _parse_name _parse_image _parse_checkout_discount
           cfg st url_or_item clk net) in
  if Py.truthy_str (error data) then
    price data = None /\ name data = None /\ image_url data = None /\
    checkout_discount data = None /\ checkout_discount_text data = None /\
    is_warehouse_only data = false /\
    (stock_status data = UNKNOWN \/ stock_status data = REMOVED)
  else
    error data = None /\
    (forall p, price data = Some p -> 0 < p /\ p < 100000) /\
    (is_warehouse_only data = true <-> stock_status data = WAREHOUSE_ONLY) /\
    stock_status data <> REMOVED.
Proof.
  cbv zeta. unfold fetch_product.
  destruct (kill_switch cfg); [cbn [snd error Py.truthy_str]; repeat split; auto|].
  destruct (Py.startswith "http" url_or_item);
    (destruct net as [status html | | msg | msg];
     [destruct (_detect_blocking html status) as [err|] eqn:Eb;
      [apply detect_blocking_truthy in Eb; cbn [snd error error_data]; rewrite Eb
      |destruct (status =? 404)%Z;
       [|destruct (status =? 200)%Z; [destruct (_parse_checkout_discount html)|]]]
     | | | ]);
    cbv zeta;
    cbn [snd fst error error_data price name image_url checkout_discount
           checkout_discount_text is_warehouse_only stock_status Py.truthy_str negb
           append];
    repeat split; auto; try discriminate.
  all: try (match goal with
            | H : _parse_price _ = Some _ |- _ => apply parse_price_in_range in H; tauto
            end).
  all: try apply parse_stock_status_cases.
  all: unfold StockStatus_eqb; destruct (_parse_stock_status html); cbn; congruence.
Qed.
(** A snapshot with a price or an in-stock status comes from a usable
    page. *)
Lemma usable_snapshot (cfg : Settings) (st : State) (url_or_item : string)
    (clk : Clock) (net : Transport) :
  let data :=
    snd (fetch_product _parse_name _parse_image _parse_checkout_discount
           cfg st url_or_item clk net) in
  Py.is_some (price data) = true \/ stock_status data = IN_STOCK ->
  kill_switch cfg = false /\ succeeded net = true /\ error data = None /\
  is_warehouse_only data = StockStatus_eqb (stock_status data) WAREHOUSE_ONLY /\
  (forall x, price data = Some x -> 0 < x /\ x < 100000).
Proof.
  cbv zeta. unfold fetch_product, succeeded.
  destruct (kill_switch cfg);
    [cbn [snd price stock_status Py.is_some]; intros [H | H]; discriminate|].
  destruct (Py.startswith "http" url_or_item);
    (destruct net as [status html | | msg | msg];
     [destruct (_detect_blocking html status) as [err|] eqn:Eb;
      [|destruct (status =? 404)%Z;
        [|destruct (status =? 200)%Z; [destruct (_parse_checkout_discount html)|]]]
     | | | ]);
    cbv zeta;
    cbn [snd fst error error_data price is_warehouse_only stock_status Py.is_some
           negb andb];
    intros [H | H]; try discriminate H;
    repeat split; auto; try discriminate;
    match goal with
    | Hx : _parse_price _ = Some _ |- _ => apply parse_price_in_range in Hx; tauto
    end.
Qed.
End Fetch.

Ltac digit_tokens :=
  first
  [ let t := fresh "t" in
    let Ht := fresh "Ht" in
    intros t Ht; simpl in Ht;
    repeat (destruct Ht as [<- | Ht]; [eexists; reflexivity|]); contradiction
  | do 2 eexists; split; [reflexivity | auto] ].

Lemma group_of (r : regex) (s g : string) (body : regex) :
  has_open r = true -> inside r false = body ->
  (forall t, In t body -> exists q, t = Cls Py.is_digit q) ->
  (exists q r', body = Cls Py.is_digit q :: r' /\ (q = One \/ q = Plus)) ->
  search r s = Some g -> g <> EmptyString /\ all_in Py.is_digit g = true.
Proof. apply CaptureProps.group_in_class. Qed.

(** X4. Whatever [_parse_item_number] returns is a non-empty string of
    decimal digits. *)
Theorem parse_item_number_numeric (html url g : string) :
  _parse_item_number html url = Some g ->
  g <> EmptyString /\ all_in Py.is_digit g = true.
Proof.
  unfold _parse_item_number.
  destruct (search (lit_exact "/p/" ++ digits_group)%list url) as [g0|] eqn:E0.
  - intros [= <-]. revert E0.
    apply group_of with (body := [Cls Py.is_digit Plus]);
      [reflexivity | reflexivity | | ]; digit_tokens.
  - unfold ITEM_NUMBER_PATTERNS. cbn [first_group].
    repeat match goal with
    | |- match search ?r html with _ => _ end = _ -> _ =>
        let E := fresh "E" in
        destruct (search r html) as [?g|] eqn:E;
        [ intros [= <-]; revert E | ]
    end; try discriminate.
    + apply group_of with (body := [Cls Py.is_digit Plus]);
        [reflexivity | reflexivity | | ]; digit_tokens.
    + apply group_of with (body := [Cls Py.is_digit Plus]);
        [reflexivity | reflexivity | | ]; digit_tokens.
    + apply group_of with
        (body := [Cls Py.is_digit One; Cls Py.is_digit One; Cls Py.is_digit One;
                  Cls Py.is_digit One; Cls Py.is_digit One; Cls Py.is_digit Opt;
                  Cls Py.is_digit Opt]);
        [reflexivity | reflexivity | | ]; digit_tokens.
    + apply group_of with (body := [Cls Py.is_digit Plus]);
        [reflexivity | reflexivity | | ]; digit_tokens.
Qed.

Lemma parse_item_number_numeric_witness :
  _parse_item_number "<p>Item # 123456</p>" "" = Some "123456" /\
  "123456" <> EmptyString /\ all_in Py.is_digit "123456" = true.
Proof.
  split; [reflexivity|].
  apply (@parse_item_number_numeric "<p>Item # 123456</p>" "" "123456"). reflexivity.
Defined.

(** The product URL built from an item number gives the number back. *)
Lemma item_of_built_url (html item : string) :
  item <> EmptyString -> all_in Py.is_digit item = true ->
  _parse_item_number html (_build_product_url item) = Some item.
Proof.
  intros Hne Hd. destruct item as [|a m]; [congruence|].
  simpl in Hd. apply andb_true_iff in Hd. destruct Hd as [Ha Hm].
  unfold _parse_item_number, _build_product_url, COSTCO_UK_BASE.
  cbn [append].
  assert (E : search (lit_exact "/p/" ++ digits_group)%list
                ("https://www.costco.co.uk/p/" ++ String a m) = Some (String a m)).
  { cbn. rewrite Ha. rewrite (CaptureProps.star_run _ _ _ Hm). reflexivity. }
  cbn [append] in E. now rewrite E.
Qed.

Lemma digit_not_http (item : string) :
  item <> EmptyString -> all_in Py.is_digit item = true ->
  Py.startswith "http" item = false.
Proof.
  destruct item as [|a m]; [congruence|]. intros _ H. simpl in H.
  apply andb_true_iff in H. destruct H as [Ha _].
  destruct a as [[] [] [] [] [] [] [] []]; try discriminate Ha; reflexivity.
Qed.

(** X5. The URL built for an item number gives that number back, so a fetch
    asked for a numeric item number reports exactly that number in its
    snapshot, whatever the page says and whether or not the fetch succeeds. *)
Theorem fetch_reports_requested_item
    (parse_name parse_image : string -> option string)
    (parse_discount : string -> option Q * option string)
    (cfg : Settings) (st : State) (item : string) (clk : Clock) (net : Transport) :
  item <> EmptyString -> all_in Py.is_digit item = true ->
  (forall html, _parse_item_number html (_build_product_url item) = Some item) /\
  item_number (snd (fetch_product parse_name parse_image parse_discount
                      cfg st item clk net)) = item.
Proof.
  intros Hne Hd. split; [intros html; now apply item_of_built_url|].
  unfold fetch_product. destruct (kill_switch cfg); [reflexivity|].
  rewrite (digit_not_http Hne Hd).
  destruct net as [status html | | msg | msg]; try reflexivity.
  destruct (_detect_blocking html status); [reflexivity|].
  destruct (status =? 404)%Z; [reflexivity|].
  destruct (status =? 200)%Z; [|reflexivity].
  rewrite (item_of_built_url html Hne Hd).
  destruct (parse_discount html). cbn [snd item_number].
  destruct item; [congruence | reflexivity].
Qed.

Lemma fetch_reports_requested_item_witness :
  item_number (snd (fetch_product (fun _ => None) (fun _ => None) (fun _ => (None, None))
                      default_settings init "123456" clock0
                      (Response 200 "<p>Item # 999999</p>"))) = "123456".
Proof.
  apply (@fetch_reports_requested_item (fun _ => None) (fun _ => None)
           (fun _ => (None, None)) default_settings init "123456" clock0
           (Response 200 "<p>Item # 999999</p>"));
    [discriminate | reflexivity].
Defined.


End FetchProps.

(* ================================================================= *)
(** * The other extractors, and the properties of models, settings and
      security *)

Module ExtractProps.

Import Re ReSpec Scraper ScraperSpec CoverageSpec.
Import ScraperProps.
Local Open Scope string_scope.

(** ** Strings *)

Lemma all_in_lstrip (c : ascii -> bool) (s : string) :
  all_in c s = true -> all_in c (PyStr.lstrip s) = true.
Proof.
  induction s as [|a s IH]; simpl; [auto|].
  intros H. destruct (Py.is_space a); [|exact H].
  apply andb_true_iff in H. now apply IH.
Qed.

Lemma rstrip_cases (a : ascii) (s : string) :
  PyStr.rstrip (String a s) = EmptyString \/
  PyStr.rstrip (String a s) = String a (PyStr.rstrip s).
Proof.
  simpl. destruct (PyStr.rstrip s); [destruct (Py.is_space a)|]; auto.
Qed.

Lemma all_in_rstrip (c : ascii -> bool) (s : string) :
  all_in c s = true -> all_in c (PyStr.rstrip s) = true.
Proof.
  induction s as [|a s IH]; [auto|].
  intros H. simpl in H. apply andb_true_iff in H. destruct H as [Ha Hs].
  destruct (rstrip_cases a s) as [-> | ->]; [reflexivity|].
  simpl. now rewrite Ha, IH.
Qed.

Lemma all_in_strip (c : ascii -> bool) (s : string) :
  all_in c s = true -> all_in c (PyStr.strip s) = true.
Proof. intros H. now apply all_in_rstrip, all_in_lstrip. Qed.

Lemma all_in_take (c : ascii -> bool) (n : nat) (s : string) :
  all_in c s = true -> all_in c (PyStr.take n s) = true.
Proof.
  revert s. induction n as [|n IH]; intros [|a s]; simpl; auto.
  intros H. apply andb_true_iff in H. destruct H as [Ha Hs]. now rewrite Ha, IH.
Qed.

Lemma all_in_remove_from (c : ascii -> bool) (old : string) (s : string) (skip : nat) :
  all_in c s = true -> all_in c (PyStr.remove_from old skip s) = true.
Proof.
  revert skip. induction s as [|a s IH]; intros skip; [destruct skip; auto|].
  cbn [all_in PyStr.remove_from].
  intros H. apply andb_true_iff in H. destruct H as [Ha Hs].
  destruct skip; [|now apply IH].
  destruct (Py.startswith old (String a s)); [now apply IH|].
  cbn [all_in]. now rewrite Ha, IH.
Qed.

Lemma collapse_plain (s : string) :
  all_in plain_spaced (PyStr.collapse_spaces s) = true.
Proof.
  induction s as [|a s IH]; [reflexivity|].
  simpl. destruct (Py.is_space a) eqn:Ea.
  - destruct s as [|b s']; [reflexivity|].
    destruct (Py.is_space b); [exact IH|].
    change (all_in plain_spaced (String " " (PyStr.collapse_spaces (String b s'))))
      with (plain_spaced " " && all_in plain_spaced (PyStr.collapse_spaces (String b s'))).
    now rewrite IH.
  - change (plain_spaced a && all_in plain_spaced (PyStr.collapse_spaces s) = true).
    unfold plain_spaced at 1. now rewrite Ea, IH.
Qed.

Lemma lstrip_clean (s : string) : clean_head (PyStr.lstrip s).
Proof.
  induction s as [|a s IH]; simpl; [exact I|].
  destruct (Py.is_space a) eqn:Ea; [exact IH | exact Ea].
Qed.

Lemma rstrip_clean (s : string) : clean_head s -> clean_head (PyStr.rstrip s).
Proof.
  destruct s as [|a s]; [auto|]. intros H.
  destruct (rstrip_cases a s) as [-> | ->]; [exact I | exact H].
Qed.

Lemma take_clean (n : nat) (s : string) : clean_head s -> clean_head (PyStr.take n s).
Proof. destruct n, s; simpl; auto. Qed.

Lemma clean_lstrip (s : string) : clean_head s -> PyStr.lstrip s = s.
Proof. destruct s as [|a s]; simpl; [auto|]. now intros ->. Qed.

Lemma strip_clean (s : string) : clean_head (PyStr.strip s).
Proof. apply rstrip_clean, lstrip_clean. Qed.

Lemma length_take (n : nat) (s : string) :
  String.length (PyStr.take n s) = Nat.min n (String.length s).
Proof.
  revert s. induction n as [|n IH]; intros [|a s]; simpl; auto.
Qed.

(** ** [_parse_name] and [_parse_image] *)

Lemma clean_name_plain (g : string) :
  all_in plain_spaced (Extract.clean_name g) = true /\ clean_head (Extract.clean_name g).
Proof.
  unfold Extract.clean_name. split; [|apply strip_clean].
  apply all_in_strip. unfold PyStr.remove. apply all_in_remove_from, collapse_plain.
Qed.

(** X6. A name returned by [_parse_name] has between 6 and 500 characters,
    does not begin with whitespace, and its only whitespace characters are
    plain spaces. *)
Theorem parse_name_clean (html n : string) :
  Extract._parse_name html = Some n ->
  (5 < Py.len n <= 500)%Z /\ all_in plain_spaced n = true /\ PyStr.lstrip n = n.
Proof.
  unfold Extract._parse_name. generalize Extract.NAME_PATTERNS as patterns.
  intros patterns. revert n.
  induction patterns as [|pattern rest IH]; cbn [Extract.parse_name_loop];
    [discriminate|].
  destruct (search pattern html) as [g|]; [|exact IH]. cbv zeta.
  destruct (5 <? Py.len (Extract.clean_name g))%Z eqn:E; [|exact IH].
  clear IH. apply Z.ltb_lt in E.
  destruct (clean_name_plain g) as [Hp Hc].
  pose proof (length_take 500 (Extract.clean_name g)) as Hl.
  pose proof (all_in_take plain_spaced 500 _ Hp) as Ha.
  pose proof (clean_lstrip _ (take_clean 500 _ Hc)) as Hs.
  remember (PyStr.take 500 (Extract.clean_name g)) as t eqn:Et. clear Et.
  intros n [= <-]. unfold Py.len in *. rewrite Hl. repeat split; auto; lia.
Qed.

Lemma parse_name_clean_witness :
  Extract._parse_name titled_page = Some "Kirkland Signature Olive Oil" /\
  (5 < Py.len "Kirkland Signature Olive Oil" <= 500)%Z.
Proof.
  split; [reflexivity|].
  apply (@parse_name_clean titled_page "Kirkland Signature Olive Oil"). reflexivity.
Defined.

Ltac class_tokens :=
  first
  [ let t := fresh "t" in
    let Ht := fresh "Ht" in
    intros t Ht; simpl in Ht;
    repeat (destruct Ht as [<- | Ht]; [eexists; reflexivity|]); contradiction
  | do 2 eexists; split; [reflexivity | auto] ].

Lemma absolute_url_unquoted (g : string) :
  g <> EmptyString -> all_in unquoted g = true ->
  Extract.absolute_url g <> EmptyString /\
  Py.startswith "/" (Extract.absolute_url g) = false /\
  all_in unquoted (Extract.absolute_url g) = true.
Proof.
  intros Hne Hq. unfold Extract.absolute_url.
  destruct (Py.startswith "//" g) eqn:E2.
  - repeat split; [discriminate|]. simpl. exact Hq.
  - destruct (Py.startswith "/" g) eqn:E1.
    + repeat split; [discriminate|]. simpl. exact Hq.
    + auto.
Qed.

(** X7. An image URL returned by [_parse_image] is not empty, is never
    relative to the site root (it does not begin with a slash), and holds
    no double quote. *)
Theorem parse_image_absolute (html u : string) :
  Extract._parse_image html = Some u ->
  u <> EmptyString /\ Py.startswith "/" u = false /\ all_in unquoted u = true.
Proof.
  unfold Extract._parse_image.
  destruct (first_group Extract.IMAGE_PATTERNS html) as [g|] eqn:E; [|discriminate].
  intros [= <-].
  assert (H : g <> EmptyString /\ all_in unquoted g = true).
  { revert E. unfold Extract.IMAGE_PATTERNS. cbn [first_group].
    repeat match goal with
    | |- match search ?r html with _ => _ end = _ -> _ =>
        let E := fresh "E" in
        destruct (search r html) as [?g|] eqn:E;
        [ intros [= <-]; revert E | ]
    end; try discriminate;
    (apply CaptureProps.group_in_class with (body := [Cls not_quote Plus]);
       [reflexivity | reflexivity | | ]; class_tokens). }
  destruct H as [Hne Hq]. now apply absolute_url_unquoted.
Qed.

Lemma parse_image_absolute_witness :
  Extract._parse_image imaged_page = Some "https://www.costco.co.uk/medias/oil.jpg" /\
  Py.startswith "/" "https://www.costco.co.uk/medias/oil.jpg" = false.
Proof.
  split; [reflexivity|].
  apply (@parse_image_absolute imaged_page "https://www.costco.co.uk/medias/oil.jpg").
  reflexivity.
Defined.

End ExtractProps.

(* ================================================================= *)
(** * Properties of [app/models.py], [app/config.py] and
      [app/security.py] *)

Module ModelProps.

Import ReSpec Scraper CoverageSpec.
Import ScraperProps.
Local Open Scope string_scope.

(** X8. With a price that is not negative and a checkout discount that is
    not negative, [effective_price] is defined, is not negative and does not
    exceed the price; without a discount, or with a discount of zero, it is
    the price itself. *)
Theorem effective_price_bounds (price discount : option Q) (p : Q) :
  price = Some p -> 0 <= p -> (forall d, discount = Some d -> 0 <= d) ->
  exists e,
    Extract.effective_price_of price discount = Some e /\ 0 <= e /\ e <= p /\
    (Py.truthy_float discount = false -> e = p).
Proof.
  intros -> Hp Hd. unfold Extract.effective_price_of.
  destruct discount as [d|]; simpl.
  - specialize (Hd d eq_refl).
    destruct (Qeq_bool d 0) eqn:E0; simpl.
    + exists p. repeat split; auto; lra.
    + unfold Extract.discounted.
      destruct (Py.Qltb 0 (p - d)) eqn:E;
        [apply Qltb_lt in E | apply Qltb_ge in E];
        eexists; (split; [reflexivity|]); repeat split; try lra; discriminate.
  - exists p. repeat split; auto; lra.
Qed.

Lemma effective_price_bounds_witness :
  exists e,
    Extract.effective_price_of (Some 1000) (Some 1200) = Some e /\ 0 <= e /\ e <= 1000 /\
    (Py.truthy_float (Some 1200) = false -> e = 1000).
Proof.
  apply (@effective_price_bounds (Some 1000) (Some 1200) 1000);
    [reflexivity | lra | intros d [= <-]; lra].
Defined.

Lemma round_whole (n : Z) (q : Q) : q == inject_Z n -> Py.round_half_even q = n.
Proof.
  intros H. unfold Py.round_half_even.
  assert (Hf : Qfloor q = n) by (rewrite H; apply Qfloor_Z).
  rewrite Hf.
  assert (Hz : q - inject_Z n == 0) by (rewrite H; ring).
  assert (Hc : Qcompare (q - inject_Z n) (1 # 2) = Lt)
    by (apply Qlt_alt; rewrite Hz; reflexivity).
  cbv zeta. now rewrite Hc.
Qed.

Lemma whole_pence_zero (n : Z) : Qeq_bool (inject_Z n / 100) 0 = (n =? 0)%Z.
Proof.
  destruct (n =? 0)%Z eqn:E.
  - apply Z.eqb_eq in E. subst n. reflexivity.
  - apply Z.eqb_neq in E. apply not_true_is_false. intros H.
    apply Qeq_bool_iff in H. apply E.
    unfold Qeq in H. simpl in H. lia.
Qed.

(** X9. A price of [n] whole pence is a clearance price exactly when [n] is
    not zero and its pence part is 97, 00, 88 or 49: every whole-pound
    price counts, a price of zero does not. *)
Theorem clearance_by_pence (p : Product) (n : Z) :
  current_price p = Some (inject_Z n / 100) ->
  Extract.is_clearance_price p =
    negb (n =? 0)%Z && existsb (Z.eqb (n mod 100)) [97; 0; 88; 49]%Z.
Proof.
  intros H. unfold Extract.is_clearance_price. rewrite H.
  unfold Py.truthy_float. rewrite whole_pence_zero.
  destruct (n =? 0)%Z; [reflexivity|]. cbv zeta.
  rewrite (@round_whole n (inject_Z n / 100 * 100)) by field.
  reflexivity.
Qed.

Lemma clearance_by_pence_witness :
  Extract.is_clearance_price (set_current_price (Some (inject_Z 1997 / 100)) SchedulerSpec.unpriced)
  = true.
Proof.
  apply (@clearance_by_pence
           (set_current_price (Some (inject_Z 1997 / 100)) SchedulerSpec.unpriced) 1997).
  reflexivity.
Defined.

(** ** Lists read from settings and columns *)

Lemma rstrip_cons (a : ascii) (s : string) :
  PyStr.rstrip (String a s) =
  match PyStr.rstrip s with
  | EmptyString => if Py.is_space a then EmptyString else String a EmptyString
  | r => String a r
  end.
Proof. reflexivity. Qed.

Lemma rstrip_idem (s : string) : PyStr.rstrip (PyStr.rstrip s) = PyStr.rstrip s.
Proof.
  induction s as [|a s IH]; [reflexivity|].
  rewrite rstrip_cons. destruct (PyStr.rstrip s) as [|b r] eqn:E.
  - destruct (Py.is_space a) eqn:Ea; [reflexivity|].
    rewrite rstrip_cons. simpl. now rewrite Ea.
  - rewrite rstrip_cons, IH. reflexivity.
Qed.

Lemma strip_idem (s : string) : PyStr.strip (PyStr.strip s) = PyStr.strip s.
Proof.
  unfold PyStr.strip at 1.
  rewrite (ExtractProps.clean_lstrip _ (ExtractProps.strip_clean s)).
  unfold PyStr.strip. apply rstrip_idem.
Qed.

Lemma stripped_pieces_clean (sep : ascii) (s x : string) :
  In x (PyStr.stripped_pieces sep s) -> x <> EmptyString /\ PyStr.strip x = x.
Proof.
  unfold PyStr.stripped_pieces. intros H.
  apply in_map_iff in H. destruct H as (y & <- & Hy).
  apply filter_In in Hy. destruct Hy as [_ Hy].
  apply negb_true_iff, String.eqb_neq in Hy.
  split; [exact Hy | apply strip_idem].
Qed.

(** X10. The lists [enabled_channels], [user_agent_list] and
    [allowed_ip_list] hold no empty entry, and no entry with whitespace
    around it. *)
Theorem listed_entries_clean (s x : string) :
  In x (Extract.enabled_channels s) \/ In x (Extract.user_agent_list s)
    \/ In x (Extract.allowed_ip_list s) ->
  x <> EmptyString /\ PyStr.strip x = x.
Proof.
  unfold Extract.enabled_channels, Extract.user_agent_list, Extract.allowed_ip_list.
  intros [H | [H | H]]; try (now apply stripped_pieces_clean in H).
  destruct s; [contradiction | now apply stripped_pieces_clean in H].
Qed.

Lemma listed_entries_clean_witness :
  Extract.enabled_channels " email, ,telegram ,," = ["email"; "telegram"] /\
  PyStr.strip "telegram" = "telegram".
Proof.
  split; [reflexivity|].
  apply (@listed_entries_clean " email, ,telegram ,," "telegram").
  left. simpl. auto.
Defined.

Lemma lstrip_blank (s : string) : all_in Py.is_space s = true -> PyStr.lstrip s = EmptyString.
Proof.
  induction s as [|a s IH]; simpl; [auto|].
  intros H. apply andb_true_iff in H. destruct H as [-> Hs]. auto.
Qed.

Lemma split_blank (s : string) :
  all_in blank_or_comma s = true ->
  Forall (fun x => all_in Py.is_space x = true) (PyStr.split "," s).
Proof.
  induction s as [|a s IH]; simpl.
  - intros _. repeat constructor.
  - intros H. apply andb_true_iff in H. destruct H as [Ha Hs].
    specialize (IH Hs). unfold blank_or_comma in Ha.
    destruct (Ascii.eqb a ",") eqn:E.
    + constructor; [reflexivity | exact IH].
    + rewrite orb_false_r in Ha.
      destruct (PyStr.split "," s) as [|piece rest].
      * repeat constructor. simpl. now rewrite Ha.
      * inversion IH; subst. constructor; [|assumption]. simpl. now rewrite Ha.
Qed.

Lemma stripped_pieces_blank (s : string) :
  all_in blank_or_comma s = true -> PyStr.stripped_pieces "," s = [].
Proof.
  intros H. apply split_blank in H. unfold PyStr.stripped_pieces.
  induction H as [|x l Hx Hl IH]; [reflexivity|].
  assert (E : PyStr.strip x = EmptyString)
    by (unfold PyStr.strip; now rewrite (lstrip_blank _ Hx)).
  cbn [filter]. rewrite E. exact IH.
Qed.

(** X11. [check_ip_allowed] always lets the local address in; an allow-list
    made of nothing but whitespace and commas restricts nothing; and any
    other client is let in exactly when the allow-list is empty or names
    it. *)
Theorem check_ip_allowed_cases :
  (forall allowed_ips, Extract.check_ip_allowed allowed_ips "127.0.0.1" = true) /\
  (forall allowed_ips client_ip,
      all_in blank_or_comma allowed_ips = true ->
      Extract.check_ip_allowed allowed_ips client_ip = true) /\
  (forall allowed_ips client_ip,
      Extract.check_ip_allowed allowed_ips client_ip = true <->
      Extract.allowed_ip_list allowed_ips = [] \/
      In client_ip (Extract.allowed_ip_list allowed_ips) \/ client_ip = "127.0.0.1").
Proof.
  repeat split.
  - intros ips. unfold Extract.check_ip_allowed.
    destruct (Extract.allowed_ip_list ips); [reflexivity|]. apply orb_true_r.
  - intros ips ip H. unfold Extract.check_ip_allowed, Extract.allowed_ip_list.
    destruct ips; [reflexivity|]. now rewrite (stripped_pieces_blank _ H).
  - unfold Extract.check_ip_allowed.
    destruct (Extract.allowed_ip_list allowed_ips) as [|i l]; [auto|].
    intros H. apply orb_true_iff in H. destruct H as [H | H].
    + apply existsb_exists in H. destruct H as (x & Hx & E).
      apply String.eqb_eq in E. subst x. auto.
    + apply String.eqb_eq in H. auto.
  - unfold Extract.check_ip_allowed.
    destruct (Extract.allowed_ip_list allowed_ips) as [|i l]; [auto|].
    intros [H | [H | H]]; [discriminate | |].
    + apply orb_true_iff. left. apply existsb_exists. exists client_ip.
      split; [exact H | apply String.eqb_refl].
    + subst. apply orb_true_r.
Qed.

End ModelProps.

(* ================================================================= *)
(** * Properties of [app/notifications.py] *)

Module NotifyProps.

Import Scheduler SchedulerSpec CoverageSpec.
Import SchedulerProps.
Local Open Scope string_scope.

Section Channels.
Variable cs : Notifications.ChannelSettings.
Variable deliver : string -> string -> string -> bool.

Lemma send_email_answers (subject body : string) :
  answers_for cs "email" (Notifications.send_email cs deliver subject body).
Proof.
  unfold Notifications.send_email. destruct (negb _); split; reflexivity.
Qed.

Lemma send_telegram_answers (message : string) :
  answers_for cs "telegram" (Notifications.send_telegram cs deliver message).
Proof.
  unfold Notifications.send_telegram, answers_for, has_credentials.
  cbn [String.eqb Ascii.eqb Bool.eqb andb].
  destruct (String.eqb (Notifications.telegram_bot_token cs) EmptyString);
    rewrite ?orb_true_r, ?orb_false_r; [split; [reflexivity | discriminate]|].
  destruct (negb _); split; reflexivity.
Qed.

Lemma send_discord_answers (subject body : string) :
  answers_for cs "discord" (Notifications.send_discord cs deliver subject body).
Proof.
  unfold Notifications.send_discord, answers_for, has_credentials.
  cbn [String.eqb Ascii.eqb Bool.eqb andb].
  destruct (String.eqb (Notifications.discord_webhook_url cs) EmptyString);
    rewrite ?orb_true_r, ?orb_false_r; [split; [reflexivity | discriminate]|].
  destruct (negb _); split; reflexivity.
Qed.

Lemma send_pushover_answers (subject body : string) :
  answers_for cs "pushover" (Notifications.send_pushover cs deliver subject body).
Proof.
  unfold Notifications.send_pushover, answers_for, has_credentials.
  cbn [String.eqb Ascii.eqb Bool.eqb andb].
  destruct (String.eqb (Notifications.pushover_app_token cs) EmptyString);
    rewrite ?orb_true_r, ?orb_false_r; [split; [reflexivity | discriminate]|].
  destruct (negb _); split; reflexivity.
Qed.

Lemma answered (chan : string) (r : NotificationResult) (later : list NotificationResult)
    (rest : list string) :
  answers_for cs chan r ->
  map channel later = filter (channel_on cs) rest /\
  Forall (fun r => success r = true -> has_credentials cs (channel r) = true) later ->
  map channel (r :: later) = chan :: filter (channel_on cs) rest /\
  Forall (fun r => success r = true -> has_credentials cs (channel r) = true) (r :: later).
Proof.
  intros [Hc Hs] [Hm Hf]. split.
  - cbn [map]. now rewrite Hc, Hm.
  - constructor; [now rewrite Hc | exact Hf].
Qed.

Lemma switched_on (chan name : string) (on : bool) :
  String.eqb chan name && on = true -> chan = name.
Proof. intros H. apply andb_true_iff in H. now apply String.eqb_eq. Qed.

(** X12. [send_notification] answers for exactly the listed channels that
    it knows and that the settings switch on, in the order listed (a name
    listed twice is answered twice); and a channel whose token or webhook is
    missing is answered as failed. *)
Theorem dispatch_follows_listing (subject body : string) (channels : list string) :
  map channel (Notifications.dispatch cs deliver subject body channels)
    = filter (channel_on cs) channels /\
  Forall (fun r => success r = true -> has_credentials cs (channel r) = true)
    (Notifications.dispatch cs deliver subject body channels).
Proof.
  induction channels as [|chan rest IH]; [split; [reflexivity | constructor]|].
  cbn [Notifications.dispatch filter]. cbv zeta. unfold channel_on.
  destruct (String.eqb chan "email" && _) eqn:E1.
  { apply switched_on in E1. subst chan. cbn [orb].
    apply answered; [apply send_email_answers | exact IH]. }
  destruct (String.eqb chan "telegram" && _) eqn:E2.
  { apply switched_on in E2. subst chan. cbn [orb].
    apply answered; [apply send_telegram_answers | exact IH]. }
  destruct (String.eqb chan "discord" && _) eqn:E3.
  { apply switched_on in E3. subst chan. cbn [orb].
    apply answered; [apply send_discord_answers | exact IH]. }
  destruct (String.eqb chan "pushover" && _) eqn:E4.
  { apply switched_on in E4. subst chan. cbn [orb].
    apply answered; [apply send_pushover_answers | exact IH]. }
  exact IH.
Qed.
End Channels.

End NotifyProps.

(* ================================================================= *)
(** * Properties of [_process_product_update] as a whole *)

Module UpdateProps.

Import Scheduler SchedulerSpec UpdateSpec.
Import ScraperProps SchedulerProps.
Local Open Scope string_scope.

(** ** Columns the steps leave alone *)

Lemma update_lowest_desc (x : Q) (c : Ctx) :
  desc (product (update_lowest x c)) = desc (product c) /\
  disc (product (update_lowest x c)) = disc (product c).
Proof.
  unfold update_lowest.
  destruct (lowest_price (product c)) as [lo|];
    [destruct (Py.Qltb x lo); [cbn; destruct (notify_lowest_ever (product c))|]|];
    split; reflexivity.
Qed.

Lemma update_highest_desc (x : Q) (c : Ctx) :
  desc (product (update_highest x c)) = desc (product c) /\
  disc (product (update_highest x c)) = disc (product c).
Proof.
  unfold update_highest.
  destruct (highest_price (product c)) as [hi|];
    [destruct (Py.Qltb hi x)|]; split; reflexivity.
Qed.

Lemma check_price_drop_desc (old : option Q) (x : Q) (c : Ctx) :
  product (check_price_drop old x c) = product c.
Proof.
  unfold check_price_drop. destruct old as [o|]; [|reflexivity].
  destruct (_ && _); reflexivity.
Qed.

Lemma check_target_price_desc (x : Q) (c : Ctx) :
  product (check_target_price x c) = product c.
Proof.
  unfold check_target_price. destruct (target_price (product c)) as [t|]; [|reflexivity].
  destruct (_ && _); reflexivity.
Qed.

Lemma price_steps_desc (data : Scraper.ProductData) (now : Q) (c : Ctx) :
  desc (product (price_steps data now c)) = desc (product c) /\
  disc (product (price_steps data now c)) =
    (Scraper.checkout_discount data, Scraper.checkout_discount_text data).
Proof.
  unfold price_steps.
  set (old := current_price (product c)).
  set (c2 := update_checkout_discount data (check_price data now old c)).
  assert (H2 : desc (product c2) = desc (product c) /\
               disc (product c2) =
                 (Scraper.checkout_discount data, Scraper.checkout_discount_text data)).
  { unfold c2, update_checkout_discount, check_price.
    destruct (Scraper.price data) as [x|];
      [destruct (price_differs old x)|]; split; reflexivity. }
  clearbody c2. destruct H2 as [Hd Hc].
  unfold check_price_continued.
  destruct (Scraper.price data) as [x|]; [|auto].
  destruct (price_differs old x); [|auto].
  rewrite check_target_price_desc, check_price_drop_desc.
  destruct (update_highest_desc x (update_lowest x c2)) as [-> ->].
  destruct (update_lowest_desc x c2) as [-> ->]. auto.
Qed.

Lemma check_stock_desc (cfg : Settings) (w : World) (data : Scraper.ProductData)
    (now : Q) (c : Ctx) :
  let c' := check_stock cfg w data now c in
  desc (product c') = desc (product c) /\ disc (product c') = disc (product c) /\
  changed c' =
    negb (String.eqb (stock_status (product c))
            (StockStatus_value (Scraper.stock_status data))) || changed c.
Proof.
  cbv zeta. unfold check_stock.
  destruct (String.eqb (stock_status (product c))
              (StockStatus_value (Scraper.stock_status data))); cbn [negb orb].
  - repeat split.
  - destruct (is_back_in_stock _ _); repeat split.
Qed.

Lemma start_desc (p : Product) (data : Scraper.ProductData) (now : Q) :
  let p0 := product (start p data now) in
  (Py.truthy_str (Scraper.name data) = true -> Py.truthy_str (name p0) = true) /\
  (Py.truthy_str (Scraper.image_url data) = true ->
   image_url p0 = Scraper.image_url data).
Proof.
  cbv zeta. unfold start, clear_error_and_update_info. cbn [product].
  cbn [name set_last_error set_consecutive_errors set_last_checked_at].
  destruct (Py.truthy_str (Scraper.name data)) eqn:En;
    destruct (Py.truthy_str (name p)) eqn:Ep;
    destruct (Py.truthy_str (Scraper.image_url data)) eqn:Ei;
    cbn [andb negb]; split; intros H; try discriminate; auto.
Qed.

(** ** A second update from the same snapshot *)

Lemma settled_info (p : Product) (data : Scraper.ProductData) (now : Q) :
  settled p data ->
  clear_error_and_update_info (set_last_checked_at (Some now) p) data
  = set_last_checked_at (Some now) p.
Proof.
  intros (_ & Hc & He & Hn & Hi & _).
  unfold clear_error_and_update_info. cbv zeta.
  destruct p. cbn in Hc, He, Hn, Hi. subst.
  cbn [name set_last_error set_consecutive_errors set_last_checked_at].
  destruct (Py.truthy_str (Scraper.name data)).
  - rewrite (Hn eq_refl). cbn [andb negb].
    destruct (Py.truthy_str (Scraper.image_url data)); [rewrite (Hi eq_refl)|];
      reflexivity.
  - cbn [andb].
    destruct (Py.truthy_str (Scraper.image_url data)); [rewrite (Hi eq_refl)|];
      reflexivity.
Qed.

Lemma settled_discount (p : Product) (data : Scraper.ProductData) :
  disc p = (Scraper.checkout_discount data, Scraper.checkout_discount_text data) ->
  set_checkout_discount_text (Scraper.checkout_discount_text data)
    (set_checkout_discount (Scraper.checkout_discount data) p) = p.
Proof. unfold disc. destruct p. cbn. intros [= <- <-]. reflexivity. Qed.

Lemma settled_run (cfg : Settings) (w : World) (p : Product)
    (data : Scraper.ProductData) (now : Q) :
  Py.truthy_str (Scraper.error data) = false -> settled p data ->
  _process_product_update cfg w p data now
  = (set_last_checked_at (Some now) p, [Commit], false).
Proof.
  intros Herr Hs. unfold _process_product_update. rewrite Herr. cbv zeta.
  rewrite (settled_info now Hs).
  assert (Hs' : settled (set_last_checked_at (Some now) p) data) by exact Hs.
  set (p' := set_last_checked_at (Some now) p) in *. clearbody p'.
  destruct Hs' as (Hst & _ & _ & _ & _ & Hd & Hp).
  set (c0 := {| product := p'; trace := []; alerts_to_send := []; changed := false |}).
  assert (E1 : check_stock cfg w data now c0 = c0).
  { unfold check_stock. cbn [product c0]. rewrite Hst, String.eqb_refl. reflexivity. }
  rewrite E1. cbn [product c0].
  assert (E2 : check_price data now (current_price p') c0 = c0).
  { unfold check_price. destruct (Scraper.price data) as [x|]; [|reflexivity].
    now rewrite (Hp x eq_refl). }
  rewrite E2.
  assert (E3 : update_checkout_discount data c0 = c0).
  { unfold update_checkout_discount. cbn [product c0]. now rewrite (settled_discount _ Hd). }
  rewrite E3.
  assert (E4 : check_price_continued data (current_price p') c0 = c0).
  { unfold check_price_continued. destruct (Scraper.price data) as [x|]; [|reflexivity].
    now rewrite (Hp x eq_refl). }
  rewrite E4. reflexivity.
Qed.

Lemma same_price_settled (x : Q) : price_differs (Some x) x = false.
Proof.
  unfold price_differs, Py.Qltb. apply negb_false_iff, Qle_bool_iff.
  assert (H : x - x == 0) by ring. rewrite H. discriminate.
Qed.

Lemma finish_settled (cfg : Settings) (w : World) (p : Product)
    (data : Scraper.ProductData) (now : Q) :
  settled (product (finish cfg w p data now)) data.
Proof.
  unfold finish.
  destruct (start_effect p data now) as (_ & _ & _ & _ & _ & _ & Hc0 & He0).
  destruct (start_desc p data now) as (Hn0 & Hi0).
  set (c0 := start p data now) in *.
  destruct (check_stock_effect cfg w data now c0)
    as (_ & Hcu1 & _ & _ & _ & Her1 & Hst1 & _).
  destruct (check_stock_desc cfg w data now c0) as (Hd1 & _ & _).
  set (c1 := check_stock cfg w data now c0) in *.
  destruct (price_steps_keeps data now c1) as (_ & Her2 & Hst2).
  destruct (price_steps_desc data now c1) as (Hd2 & Hdisc2).
  assert (Hprice : forall x, Scraper.price data = Some x ->
            price_differs (current_price (product (price_steps data now c1))) x = false).
  { intros x Hx. destruct (price_change data c1) as [y|] eqn:E.
    - destruct (price_steps_changed data now c1 E) as (_ & -> & _).
      unfold price_change in E. rewrite Hx in E.
      destruct (price_differs _ x); [|discriminate]. injection E as <-.
      apply same_price_settled.
    - destruct (price_steps_unchanged data now c1 E) as [_ -> _ _ _ _ _ _ _ _].
      unfold price_change in E. rewrite Hx in E.
      destruct (price_differs _ x); [discriminate | reflexivity]. }
  set (c2 := price_steps data now c1) in *.
  unfold errors in Her1, Her2. unfold desc in Hd1, Hd2.
  assert (Hce : consecutive_errors (product c2) = 0%Z) by congruence.
  assert (Hle : last_error (product c2) = None) by congruence.
  assert (Hnm : name (product c2) = name (product c0)) by congruence.
  assert (Him : image_url (product c2) = image_url (product c0)) by congruence.
  unfold settled. rewrite Hnm, Him, Hst2.
  repeat split; auto.
Qed.

(** X14. Once an error-free snapshot has been taken in, taking in the same
    snapshot again changes nothing: the second update writes the check time
    and commits, adds no history row, sends no alert, makes no basket
    attempt and returns false. *)
Theorem repoll_changes_nothing (cfg : Settings) (w : World) (p : Product)
    (data : Scraper.ProductData) (now later : Q) :
  Py.truthy_str (Scraper.error data) = false ->
  let p1 := product_after (_process_product_update cfg w p data now) in
  _process_product_update cfg w p1 data later
  = (set_last_checked_at (Some later) p1, [Commit], false).
Proof.
  intros Herr. cbv zeta. apply settled_run; [exact Herr|].
  rewrite (process_valid cfg w p data now Herr). apply finish_settled.
Qed.

Lemma repoll_changes_nothing_witness :
  let data := snapshot (Some 80) IN_STOCK in
  let p1 := product_after
              (_process_product_update basket_settings (world true)
                 (sample "out_of_stock" None true None) data 10) in
  events_of (_process_product_update basket_settings (world true) p1 data 20) = [Commit].
Proof.
  cbv zeta.
  rewrite (@repoll_changes_nothing basket_settings (world true)
             (sample "out_of_stock" None true None) (snapshot (Some 80) IN_STOCK) 10 20
             eq_refl).
  reflexivity.
Defined.

(** ** The shape of what an update does *)

Lemma finish_shape (cfg : Settings) (w : World) (p : Product)
    (data : Scraper.ProductData) (now : Q) :
  let p0 := product (start p data now) in
  exists price_alerts extra,
    alerts_to_send (finish cfg w p data now) =
      (back_in_stock_alert p0 data ++ price_alerts)%list /\
    forallb is_price_alert price_alerts = true /\
    trace (finish cfg w p data now) = (stock_events cfg w p0 data now ++ extra)%list /\
    sent_alerts extra = [] /\ recorded_alerts extra = [] /\ basket_attempts extra = [].
Proof.
  cbv zeta. unfold finish.
  destruct (check_stock_effect cfg w data now (start p data now))
    as (_ & _ & _ & _ & _ & _ & _ & Htr & Hal).
  destruct (price_steps_adds data now (check_stock cfg w data now (start p data now)))
    as (price_alerts & extra & H1 & H2 & H3 & H4).
  exists price_alerts, extra. rewrite H1, H3, Htr, Hal. repeat split; tauto.
Qed.

Lemma price_alert_kind (a : alert) :
  is_price_alert a = true ->
  kind a = LOWEST_EVER \/ kind a = PRICE_DROP \/ kind a = TARGET_PRICE.
Proof.
  unfold is_price_alert, kind. destruct (fst (fst a)); try discriminate; auto.
Qed.

Lemma back_in_stock_alert_kind (p : Product) (data : Scraper.ProductData) (a : alert) :
  In a (back_in_stock_alert p data) -> kind a = BACK_IN_STOCK.
Proof.
  unfold back_in_stock_alert. destruct (_ && _); [|contradiction].
  intros [<- | []]. reflexivity.
Qed.

Lemma finish_alert_kinds (cfg : Settings) (w : World) (p : Product)
    (data : Scraper.ProductData) (now : Q) (a : alert) :
  In a (alerts_to_send (finish cfg w p data now)) ->
  kind a = BACK_IN_STOCK \/ kind a = LOWEST_EVER \/ kind a = PRICE_DROP
    \/ kind a = TARGET_PRICE.
Proof.
  destruct (finish_shape cfg w p data now) as (pa & extra & -> & Hk & _).
  intros H. apply in_app_or in H. destruct H as [H | H].
  - left. exact (back_in_stock_alert_kind _ _ _ H).
  - right. apply price_alert_kind. rewrite forallb_forall in Hk. now apply Hk.
Qed.

(** ** Alerts whose message cannot be formatted *)

Section Sink.
Variable w : World.
Hypothesis priced_fail :
  forall p t o n, has_price_field t = true -> send_notification w p t o n = None.

Lemma recorded_send_alert_kind (p : Product) (a : alert) :
  kind a <> STOCK_FLAPPING ->
  Forall (fun a => kind a = PRICE_DROP) (recorded_alerts (_send_alert w p a)).
Proof.
  destruct a as [[t o] n]. unfold kind. cbn [fst]. intros Hk. unfold _send_alert.
  cbn [recorded_alerts].
  destruct (send_notification w p t o n) eqn:E; [|constructor].
  cbn [recorded_alerts]. constructor; [|constructor]. cbn [fst].
  destruct t; try reflexivity; try contradiction;
    rewrite priced_fail in E by reflexivity; discriminate.
Qed.

Lemma recorded_send_alerts_kind (p : Product) (alerts : list alert) :
  (forall a, In a alerts -> kind a <> STOCK_FLAPPING) ->
  Forall (fun a => kind a = PRICE_DROP) (recorded_alerts (send_alerts w p alerts)).
Proof.
  induction alerts as [|a rest IH]; intros H; [constructor|].
  cbn [send_alerts]. rewrite recorded_alerts_app. apply Forall_app. split.
  - apply recorded_send_alert_kind, H. now left.
  - apply IH. intros b Hb. apply H. now right.
Qed.

Lemma handle_basket_recorded (cfg : Settings) (p : Product) (data : Scraper.ProductData) :
  recorded_alerts (_handle_auto_basket cfg w p data) = [].
Proof.
  unfold _handle_auto_basket. destruct (over_max_price p data); [reflexivity|].
  cbv zeta. cbn [recorded_alerts]. destruct (basket_success _); [|reflexivity].
  unfold _send_alert. now rewrite priced_fail.
Qed.

Lemma stock_events_recorded (cfg : Settings) (p : Product) (data : Scraper.ProductData)
    (now : Q) :
  recorded_alerts (stock_events cfg w p data now) = [].
Proof.
  unfold stock_events, basket_events. destruct (String.eqb _ _); [reflexivity|].
  cbn [recorded_alerts]. destruct (_ && _); [apply handle_basket_recorded | reflexivity].
Qed.

Lemma process_recorded_kind (cfg : Settings) (p : Product) (data : Scraper.ProductData)
    (now : Q) :
  Forall (fun a => kind a = PRICE_DROP)
    (recorded_alerts (events_of (_process_product_update cfg w p data now))).
Proof.
  destruct (Py.truthy_str (Scraper.error data)) eqn:Herr.
  - rewrite (process_error cfg w p data now Herr). constructor.
  - rewrite (process_valid cfg w p data now Herr). cbv zeta. unfold events_of.
    cbn [fst snd].
    pose proof (finish_alert_kinds cfg w p data now) as Hk.
    destruct (finish_shape cfg w p data now) as (pa & extra & _ & _ & -> & _ & Hr & _).
    rewrite !recorded_alerts_app, stock_events_recorded, Hr. cbn [app recorded_alerts].
    apply recorded_send_alerts_kind. intros a Ha.
    destruct (Hk a Ha) as [E | [E | [E | E]]]; rewrite E; discriminate.
Qed.
End Sink.

Section Service.
Variable cs : Notifications.ChannelSettings.
Variable notification_channels : Product -> string.
Variable render : string -> Q -> string.
Variable plain_message :
  Product -> AlertType -> option string -> option string -> option (string * string).
Variable priced_message :
  Product -> AlertType -> option string -> option string -> string -> string * string.
Variable deliver : string -> string -> string -> bool.
Variable cart : string -> Z -> BasketResult.

Lemma priced_message_raises (p : Product) (t : AlertType) (o n : option string) :
  has_price_field t = true ->
  Notifications.send_notification cs notification_channels render plain_message
    priced_message deliver p t o n = None.
Proof.
  intros H. unfold Notifications.send_notification, Notifications._format_message.
  destruct t; try discriminate H;
    unfold Notifications.format_field; destruct (current_price p); reflexivity.
Qed.

(** X13. The price field of the back-in-stock, target-price, lowest-ever
    and added-to-basket messages has a format specification that
    [float.__format__] rejects, so [send_notification] raises for these four
    kinds whatever the product; with this service behind the scheduler, the
    only alerts an update ever records are price drops. *)
Theorem only_price_drops_recorded (cfg : Settings) (p : Product)
    (data : Scraper.ProductData) (now : Q) :
  let service :=
    Notifications.service_world cs notification_channels render plain_message
      priced_message deliver cart in
  (forall q t o n, has_price_field t = true -> send_notification service q t o n = None) /\
  Forall (fun a => kind a = PRICE_DROP)
    (recorded_alerts (events_of (_process_product_update cfg service p data now))).
Proof.
  cbv zeta. split.
  - intros q t o n H. apply priced_message_raises, H.
  - apply process_recorded_kind. intros q t o n H. apply priced_message_raises, H.
Qed.
End Service.

(** ** The returned flag *)

Lemma sends_no_history (w : World) (p : Product) (alerts : list alert) :
  existsb is_history (send_alerts w p alerts) = false.
Proof.
  induction alerts as [|[[t o] n] rest IH]; [reflexivity|].
  cbn [send_alerts]. rewrite existsb_app, IH, orb_false_r.
  unfold _send_alert. destruct (send_notification w p t o n); reflexivity.
Qed.

Lemma price_steps_flag (data : Scraper.ProductData) (now : Q) (c : Ctx) :
  let c' := price_steps data now c in
  match price_change data c with
  | Some x =>
      changed c' = true /\
      trace c' = (trace c ++ [AddPriceHistory (id (product c)) x
                                (current_price (product c)) now])%list
  | None =>
      changed c' = changed c /\ trace c' = trace c /\
      alerts_to_send c' = alerts_to_send c
  end.
Proof.
  cbv zeta. destruct (price_change data c) as [x|] eqn:E.
  - destruct (price_steps_changed data now c E) as (_ & _ & _ & _ & _ & _ & _ & Htr & _ & Hch).
    auto.
  - destruct (price_steps_unchanged data now c E) as [_ _ _ _ _ _ _ Htr Hal Hch].
    rewrite app_nil_r in Hal. auto.
Qed.

(** X15. [_process_product_update] returns true exactly when it wrote a row
    to the stock or price history; when it returns false it did nothing but
    commit: no alert was sent and no basket attempt made. *)
Theorem flag_tells_history (cfg : Settings) (w : World) (p : Product)
    (data : Scraper.ProductData) (now : Q) :
  let r := _process_product_update cfg w p data now in
  flag_of r = existsb is_history (events_of r) /\
  (if flag_of r then True else events_of r = [Commit]).
Proof.
  cbv zeta. destruct (Py.truthy_str (Scraper.error data)) eqn:Herr.
  - rewrite (process_error cfg w p data now Herr). split; reflexivity.
  - rewrite (process_valid cfg w p data now Herr). cbv zeta.
    unfold flag_of, events_of, finish. cbn [fst snd].
    set (c0 := start p data now).
    destruct (check_stock_effect cfg w data now c0)
      as (_ & _ & _ & _ & _ & _ & _ & Htr1 & Hal1).
    destruct (check_stock_desc cfg w data now c0) as (_ & _ & Hch1).
    set (c1 := check_stock cfg w data now c0) in *.
    pose proof (price_steps_flag data now c1) as H2. cbv zeta in H2.
    set (c2 := price_steps data now c1) in *.
    change (trace c0) with (@nil Event) in Htr1.
    change (alerts_to_send c0) with (@nil alert) in Hal1.
    change (changed c0) with false in Hch1.
    cbn [app] in Htr1, Hal1. rewrite orb_false_r in Hch1.
    unfold stock_events, back_in_stock_alert, back_in_stock in *.
    destruct (String.eqb (stock_status (product c0))
                (StockStatus_value (Scraper.stock_status data))) eqn:Eeq.
    + assert (Hb : is_back_in_stock (stock_status (product c0))
                     (StockStatus_value (Scraper.stock_status data)) = false).
      { destruct (is_back_in_stock _ _) eqn:Eb; [|reflexivity].
        apply back_in_stock_differs in Eb. congruence. }
      rewrite Hb in Hal1. cbn [andb negb] in *.
      destruct (price_change data c1) as [x|].
      * destruct H2 as (-> & ->). rewrite Htr1. split; reflexivity.
      * destruct H2 as (-> & -> & ->). rewrite Hch1, Htr1, Hal1. split; reflexivity.
    + cbn [negb] in Hch1.
      assert (Hch2 : changed c2 = true).
      { destruct (price_change data c1); [tauto|]. destruct H2 as (-> & _). exact Hch1. }
      assert (Htr2 : exists rest, trace c2 =
                AddStockHistory (id (product c0))
                  (StockStatus_value (Scraper.stock_status data))
                  (stock_status (product c0)) now :: rest).
      { destruct (price_change data c1).
        - destruct H2 as (_ & ->). rewrite Htr1. eexists. reflexivity.
        - destruct H2 as (_ & -> & _). rewrite Htr1. eexists. reflexivity. }
      destruct Htr2 as (rest & ->). rewrite Hch2. split; reflexivity.
Qed.

(** ** The global switch of the assisted checkout *)

Lemma handle_switched_off (cfg : Settings) (w : World) (p : Product)
    (data : Scraper.ProductData) :
  auto_add_to_basket_enabled cfg = false ->
  _handle_auto_basket cfg w p data =
  if over_max_price p data then []
  else [AddToBasket (item_number p) (auto_add_quantity p)].
Proof.
  intros H. unfold _handle_auto_basket, add_to_basket. rewrite H. reflexivity.
Qed.

Lemma check_stock_switched_off (cfg : Settings) (w w' : World)
    (data : Scraper.ProductData) (now : Q) (c : Ctx) :
  auto_add_to_basket_enabled cfg = false ->
  check_stock cfg w data now c = check_stock cfg w' data now c.
Proof.
  intros H. unfold check_stock. now rewrite !handle_switched_off by exact H.
Qed.

Lemma send_alerts_same_sink (w : World) (cart : string -> Z -> BasketResult)
    (p : Product) (alerts : list alert) :
  send_alerts (with_cart w cart) p alerts = send_alerts w p alerts.
Proof.
  induction alerts as [|a rest IH]; [reflexivity|].
  cbn [send_alerts]. now rewrite IH.
Qed.

(** X16. With [auto_add_to_basket_enabled] off, an update never consults
    the basket session (its outcome is the same whatever [add_to_cart] would
    answer) and never sends an added-to-basket alert. *)
Theorem basket_switch_off (cfg : Settings) (w : World) (p : Product)
    (data : Scraper.ProductData) (now : Q) (cart : string -> Z -> BasketResult) :
  auto_add_to_basket_enabled cfg = false ->
  _process_product_update cfg (with_cart w cart) p data now
    = _process_product_update cfg w p data now /\
  Forall (fun a => kind a <> ADDED_TO_BASKET)
    (sent_alerts (events_of (_process_product_update cfg w p data now))).
Proof.
  intros Hoff. split.
  - unfold _process_product_update.
    destruct (Py.truthy_str (Scraper.error data)); [reflexivity|]. cbv zeta.
    rewrite (check_stock_switched_off cfg (with_cart w cart) w _ _ _ Hoff).
    now rewrite send_alerts_same_sink.
  - destruct (Py.truthy_str (Scraper.error data)) eqn:Herr.
    + rewrite (process_error cfg w p data now Herr). constructor.
    + rewrite (process_valid cfg w p data now Herr). cbv zeta. unfold events_of.
      cbn [fst snd]. rewrite sent_with_commit.
      pose proof (finish_alert_kinds cfg w p data now) as Hk.
      destruct (finish_shape cfg w p data now) as (pa & extra & _ & _ & -> & Hs & _).
      rewrite sent_alerts_app, Hs, app_nil_r. apply Forall_app. split.
      * unfold stock_events, basket_events. destruct (String.eqb _ _); [constructor|].
        cbn [sent_alerts]. destruct (_ && _); [|constructor].
        rewrite handle_switched_off by exact Hoff.
        destruct (over_max_price _ _); constructor.
      * apply Forall_forall. intros a Ha.
        destruct (Hk a Ha) as [E | [E | [E | E]]]; rewrite E; discriminate.
Qed.

Lemma basket_switch_off_witness :
  sent_alerts
    (events_of (_process_product_update default_settings (world true)
                  (sample "out_of_stock" None true None)
                  (snapshot (Some 100) IN_STOCK) 10))
  = [(BACK_IN_STOCK, Some "out_of_stock", Some "in_stock")] /\
  Forall (fun a => kind a <> ADDED_TO_BASKET)
    (sent_alerts
       (events_of (_process_product_update default_settings (world true)
                     (sample "out_of_stock" None true None)
                     (snapshot (Some 100) IN_STOCK) 10))).
Proof.
  split; [reflexivity|].
  apply (@basket_switch_off default_settings (world true)
           (sample "out_of_stock" None true None) (snapshot (Some 100) IN_STOCK) 10
           (fun _ _ => {| basket_success := true; message := "done" |})).
  reflexivity.
Defined.

End UpdateProps.

(* ================================================================= *)
(** * Properties of the callers: the poll cycle, the manual refresh, adding
      a product, the checkout dry run *)

Module PollingProps.

Import Scheduler SchedulerSpec UpdateSpec PollingSpec.
Import ScraperProps SchedulerProps.
Local Open Scope string_scope.

Lemma process_keeps_policy (cfg : Settings) (w : World) (p : Product)
    (data : Scraper.ProductData) (now : Q) :
  policy (product_after (_process_product_update cfg w p data now)) = policy p.
Proof.
  destruct (Py.truthy_str (Scraper.error data)) eqn:Herr.
  - rewrite (process_error cfg w p data now Herr). reflexivity.
  - rewrite (process_valid cfg w p data now Herr). cbv zeta. unfold product_after, finish.
    cbn [fst].
    destruct (start_effect p data now) as (_ & _ & _ & _ & H0 & _).
    destruct (check_stock_effect cfg w data now (start p data now))
      as (_ & _ & _ & _ & H1 & _).
    destruct (price_steps_keeps data now (check_stock cfg w data now (start p data now)))
      as (H2 & _).
    congruence.
Qed.

Lemma process_keeps_row (cfg : Settings) (w : World) (p : Product)
    (data : Scraper.ProductData) (now : Q) :
  id (product_after (_process_product_update cfg w p data now)) = id p /\
  item_number (product_after (_process_product_update cfg w p data now)) = item_number p.
Proof.
  pose proof (process_keeps_policy cfg w p data now) as H. unfold policy in H.
  injection H as _ _ _ _ _ _ _ _ H1 H2. auto.
Qed.

Lemma error_not_counted_updated (cfg : Settings) (w : World) (p : Product)
    (data : Scraper.ProductData) (now : Q) :
  Py.truthy_str (Scraper.error data) = true ->
  flag_of (_process_product_update cfg w p data now) = false.
Proof. intros H. now rewrite (process_error cfg w p data now H). Qed.

Section Callers.
Variable _parse_checkout_discount : string -> option Q * option string.

(** ** The poll cycle *)

Lemma poll_one_step (cfg : Settings) (w : World) (l : Polling.Loop) (product : Product)
    (step : Polling.Step) :
  balanced l ->
  let l' := Polling.poll_one _parse_checkout_discount cfg w l product step in
  balanced l' /\
  Polling.checked l' =
    (Polling.checked l + if due cfg (product, step) then 1 else 0)%Z /\
  exists p', Polling.polled l' = (Polling.polled l ++ [p'])%list /\
             written_back cfg (product, step) p'.
Proof.
  intros (H0 & H1 & H2 & H3 & H4). cbv zeta. unfold Polling.poll_one, due.
  cbn [fst snd].
  destruct (_should_poll cfg product (Polling.due_at step) (Polling.due_jitter step))
    eqn:Edue; cbn [negb].
  - destruct (Polling.fetch _ cfg (Polling.scraper l) (item_number product)
                (Polling.clock step) (Polling.answer step)) as [st' data].
    pose proof (process_keeps_row cfg w product data (Polling.processed_at step)) as Hrow.
    pose proof (@error_not_counted_updated cfg w product data (Polling.processed_at step))
      as Herr.
    destruct (_process_product_update cfg w product data (Polling.processed_at step))
      as [[product' evs] flag].
    unfold product_after, flag_of in *. cbn [fst snd] in *.
    split; [|split; [reflexivity|]].
    + unfold balanced.
      cbn [Polling.checked Polling.updated Polling.errors Polling.sleeps].
      destruct (Py.truthy_str (Scraper.error data));
        [rewrite (Herr eq_refl)|destruct flag];
        (destruct (0 <? Polling.checked l)%Z eqn:Ec;
         [apply Z.ltb_lt in Ec; rewrite List.length_app; cbn [List.length]
         |apply Z.ltb_ge in Ec]);
        repeat split; lia.
    + exists product'. split; [reflexivity|].
      unfold written_back. cbn [fst snd]. unfold due. cbn [fst snd]. rewrite Edue.
      destruct Hrow. repeat split; auto. discriminate.
  - split; [|split; [cbn [Polling.checked]; lia|]].
    + unfold balanced.
      cbn [Polling.checked Polling.updated Polling.errors Polling.sleeps]. auto.
    + exists product. split; [reflexivity|]. unfold written_back. auto.
Qed.

Lemma poll_loop_steps (cfg : Settings) (w : World) (work : list (Product * Polling.Step)) :
  forall l, balanced l ->
  let l' := Polling.poll_loop _parse_checkout_discount cfg w l work in
  balanced l' /\
  Polling.checked l' = (Polling.checked l + Z.of_nat (List.length (filter (due cfg) work)))%Z /\
  exists ps, Polling.polled l' = (Polling.polled l ++ ps)%list /\
             Forall2 (written_back cfg) work ps.
Proof.
  induction work as [|[product step] rest IH]; intros l Hl; cbv zeta.
  - cbn [Polling.poll_loop filter List.length]. split; [exact Hl|]. split; [cbn; lia|].
    exists []. rewrite app_nil_r. split; [reflexivity | constructor].
  - cbn [Polling.poll_loop filter].
    destruct (poll_one_step cfg w product step Hl) as (Hb & Hc & p' & Hp & Hw).
    destruct (IH _ Hb) as (Hb' & Hc' & ps & Hps & Hall).
    split; [exact Hb'|]. split.
    + rewrite Hc', Hc. destruct (due cfg (product, step)); cbn [List.length]; lia.
    + exists (p' :: ps). rewrite Hps, Hp, <- app_assoc. split; [reflexivity|].
      now constructor.
Qed.

(** X17. A poll cycle that the kill switch does not skip fetches exactly
    the products [_should_poll] lets through.  Its counters add up: a
    product counts as updated or as an error, never as both; one pacing
    delay is slept before every fetch but the first; every product stays in
    its row, and a product that was not due is left as it was.  The run is
    reported completed exactly when no fetch failed. *)
Theorem poll_cycle_counts (cfg : Settings) (w : World) (st : Scraper.State)
    (work : list (Product * Polling.Step)) :
  kill_switch cfg = false ->
  exists l run,
    Polling._poll_all_products _parse_checkout_discount cfg w st work = Some (l, run) /\
    Polling.products_checked run = Z.of_nat (List.length (filter (due cfg) work)) /\
    (0 <= Polling.products_updated run)%Z /\ (0 <= Polling.errors_count run)%Z /\
    (Polling.products_updated run + Polling.errors_count run
       <= Polling.products_checked run)%Z /\
    Z.of_nat (List.length (Polling.sleeps l)) = Z.max 0 (Polling.products_checked run - 1) /\
    Forall2 (written_back cfg) work (Polling.polled l) /\
    (Polling.status run = "completed" <-> Polling.errors_count run = 0%Z).
Proof.
  intros Hks. unfold Polling._poll_all_products. rewrite Hks. cbv zeta.
  assert (Hidle : balanced (idle st)) by (unfold balanced; cbn; lia).
  destruct (poll_loop_steps cfg w work Hidle)
    as ((H0 & H1 & H2 & H3 & H4) & Hc & ps & Hps & Hall).
  fold (idle st). set (l := Polling.poll_loop _ cfg w (idle st) work) in *.
  eexists _, _. split; [reflexivity|].
  cbn [Polling.products_checked Polling.products_updated Polling.errors_count
         Polling.status].
  cbn in Hc, Hps. rewrite Hps.
  repeat split; try lia; try assumption.
  - destruct (Polling.errors l =? 0)%Z eqn:E; [lia | discriminate].
  - intros ->. reflexivity.
Qed.

(** ** The manual refresh *)

Lemma find_store_same (products : list Product) (pid : Z) (p p' : Product) :
  Polling.find_by_id products pid = Some p -> id p' = pid ->
  Polling.find_by_id (Polling.store_by_id products pid p') pid = Some p'.
Proof.
  intros H Hid. induction products as [|a rest IH]; [discriminate|].
  cbn [Polling.find_by_id Polling.store_by_id] in *.
  destruct (id a =? pid)%Z eqn:E; cbn [Polling.find_by_id].
  - apply Z.eqb_eq in Hid. now rewrite Hid.
  - rewrite E. now apply IH.
Qed.

Lemma find_store_other (products : list Product) (pid other : Z) (p' : Product) :
  id p' = pid -> other <> pid ->
  Polling.find_by_id (Polling.store_by_id products pid p') other
  = Polling.find_by_id products other.
Proof.
  intros Hid Hne. induction products as [|a rest IH]; [reflexivity|].
  cbn [Polling.find_by_id Polling.store_by_id].
  destruct (id a =? pid)%Z eqn:E; cbn [Polling.find_by_id].
  - apply Z.eqb_eq in E.
    assert (E1 : (id p' =? other)%Z = false) by (apply Z.eqb_neq; lia).
    assert (E2 : (id a =? other)%Z = false) by (apply Z.eqb_neq; lia).
    now rewrite E1, E2.
  - destruct (id a =? other)%Z; [reflexivity | exact IH].
Qed.

Lemma store_length (products : list Product) (pid : Z) (p' : Product) :
  List.length (Polling.store_by_id products pid p') = List.length products.
Proof.
  induction products as [|a rest IH]; [reflexivity|].
  cbn [Polling.store_by_id]. destruct (id a =? pid)%Z; cbn [List.length]; auto.
Qed.

(** X18. [poll_single_product] answers nothing for an unknown id and makes
    no request for it.  For a known id it fetches the product's item number
    and writes the updated product back to its row: looking the id up
    afterwards gives the product as [_process_product_update] left it, and
    every other row is as before. *)
Theorem poll_single_writes_back (cfg : Settings) (w : World) (st : Scraper.State)
    (products : list Product) (pid : Z) (step : Polling.Step) :
  match Polling.find_by_id products pid with
  | None =>
      Polling.poll_single_product _parse_checkout_discount cfg w st products pid step
      = None
  | Some product =>
      let fetched :=
        Polling.fetch _parse_checkout_discount cfg st (item_number product)
          (Polling.clock step) (Polling.answer step) in
      let r := _process_product_update cfg w product (snd fetched)
                 (Polling.processed_at step) in
      exists products',
        Polling.poll_single_product _parse_checkout_discount cfg w st products pid step
        = Some (fst fetched, products', events_of r, snd fetched) /\
        Polling.find_by_id products' pid = Some (product_after r) /\
        (forall other, other <> pid ->
           Polling.find_by_id products' other = Polling.find_by_id products other) /\
        List.length products' = List.length products
  end.
Proof.
  unfold Polling.poll_single_product.
  destruct (Polling.find_by_id products pid) as [product|] eqn:Ef; [|reflexivity].
  cbv zeta.
  assert (Hid : id product = pid).
  { clear -Ef. induction products as [|a rest IH]; [discriminate|].
    cbn [Polling.find_by_id] in Ef. destruct (id a =? pid)%Z eqn:E; [|auto].
    injection Ef as <-. now apply Z.eqb_eq. }
  destruct (Polling.fetch _ cfg st (item_number product) (Polling.clock step)
              (Polling.answer step)) as [st' data].
  cbn [fst snd].
  destruct (process_keeps_row cfg w product data (Polling.processed_at step)) as [Hrow _].
  destruct (_process_product_update cfg w product data (Polling.processed_at step))
    as [[product' evs] flag].
  unfold product_after, events_of in *. cbn [fst snd] in *.
  exists (Polling.store_by_id products pid product').
  split; [reflexivity|]. split; [|split].
  - apply find_store_same with (p := product); [exact Ef | congruence].
  - intros other Hne. apply find_store_other; congruence.
  - apply store_length.
Qed.

(** ** Adding a product *)

Lemma find_reactivated (products : list Product) (item : string) (q : Product) :
  Polling.find_by_item products item = Some q ->
  Polling.find_by_item (Polling.reactivate_item products item) item
  = Some (Polling.reactivate q).
Proof.
  induction products as [|a rest IH]; [discriminate|].
  cbn [Polling.find_by_item Polling.reactivate_item].
  destruct (String.eqb (item_number a) item) eqn:E; cbn [Polling.find_by_item].
  - intros [= <-]. cbn [item_number Polling.reactivate]. now rewrite E.
  - rewrite E. exact IH.
Qed.

Lemma reactivate_length (products : list Product) (item : string) :
  List.length (Polling.reactivate_item products item) = List.length products.
Proof.
  induction products as [|a rest IH]; [reflexivity|].
  cbn [Polling.reactivate_item]. destruct (String.eqb _ _); cbn [List.length]; auto.
Qed.

(** X19. [add_product] on an item number not yet tracked fetches it once and
    appends one active product whose lowest and highest price are its
    current price and whose error columns are clear, also when the fetch
    failed; the price, if any, lies strictly between 0 and 100000; a stock
    history row is always written, and a price history row exactly when
    there is a price. *)
Theorem add_product_tracks_new (cfg : Settings) (st : Scraper.State)
    (products : list Product) (url_or_item : string) (target : option Q) (new_id : Z)
    (clk : Scraper.Clock) (net : Scraper.Transport) (now : Q) :
  let item := Polling.item_of url_or_item in
  Polling.find_by_item products item = None ->
  exists product rows,
    Polling.add_product _parse_checkout_discount cfg st products url_or_item target
      new_id clk net now
    = (fst (Polling.fetch _parse_checkout_discount cfg st item clk net),
       (products ++ [product])%list, rows) /\
    id product = new_id /\ item_number product = item /\ is_active product = true /\
    lowest_price product = current_price product /\
    highest_price product = current_price product /\
    previous_price product = None /\
    consecutive_errors product = 0%Z /\ last_error product = None /\
    (forall x, current_price product = Some x -> 0 < x /\ x < 100000) /\
    rows = match current_price product with
           | Some x => [Polling.PriceRow new_id x;
                        Polling.StockRow new_id (stock_status product)]
           | None => [Polling.StockRow new_id (stock_status product)]
           end.
Proof.
  cbv zeta. intros Hnew. unfold Polling.add_product. cbv zeta. rewrite Hnew.
  pose proof (@FetchProps.usable_snapshot Extract._parse_name Extract._parse_image
                _parse_checkout_discount cfg st (Polling.item_of url_or_item) clk net)
    as Hu. cbv zeta in Hu. fold (Polling.fetch _parse_checkout_discount) in Hu.
  destruct (Polling.fetch _ cfg st (Polling.item_of url_or_item) clk net) as [st' data].
  cbn [fst snd] in *.
  eexists _, _. split; [reflexivity|].
  cbn [id item_number is_active lowest_price highest_price current_price previous_price
         consecutive_errors last_error stock_status Polling.new_product].
  do 8 (split; [reflexivity|]). split.
  - intros x Hx. apply Hu; [left; now rewrite Hx | exact Hx].
  - destruct (Scraper.price data) as [x|] eqn:Ex; [|reflexivity].
    assert (Hx : 0 < x /\ x < 100000) by (apply Hu; [left; reflexivity | reflexivity]).
    assert (Ht : Py.truthy_float (Some x) = true).
    { unfold Py.truthy_float. apply negb_true_iff, not_true_is_false. intros E.
      apply Qeq_bool_iff in E. lra. }
    now rewrite Ht.
Qed.

(** X20. [add_product] on an item number already tracked makes no request
    and writes no history row: it only marks the first product with that
    number active, leaving its other columns and the other rows alone. *)
Theorem add_product_reactivates (cfg : Settings) (st : Scraper.State)
    (products : list Product) (url_or_item : string) (target : option Q) (new_id : Z)
    (clk : Scraper.Clock) (net : Scraper.Transport) (now : Q) (existing : Product) :
  let item := Polling.item_of url_or_item in
  Polling.find_by_item products item = Some existing ->
  exists products',
    Polling.add_product _parse_checkout_discount cfg st products url_or_item target
      new_id clk net now = (st, products', []) /\
    Polling.find_by_item products' item = Some (Polling.reactivate existing) /\
    is_active (Polling.reactivate existing) = true /\
    policy (Polling.reactivate existing) = policy existing /\
    errors (Polling.reactivate existing) = errors existing /\
    current_price (Polling.reactivate existing) = current_price existing /\
    List.length products' = List.length products.
Proof.
  cbv zeta. intros H. unfold Polling.add_product. cbv zeta. rewrite H.
  eexists. split; [reflexivity|]. split; [now apply find_reactivated|].
  repeat split. apply reactivate_length.
Qed.

(** ** The checkout dry run *)

(** X21. [validate_checkout_ready] reports a pass exactly when the
    snapshot is in stock and has a price; and whenever it reports stock as
    available, the kill switch was off, the page was usable, delivery is
    possible and the price, if any, lies strictly between 0 and 100000. *)
Theorem validation_passes_when (cfg : Settings) (st : Scraper.State) (item : string)
    (clk : Scraper.Clock) (net : Scraper.Transport) :
  let r := snd (Polling.validate_checkout_ready _parse_checkout_discount cfg st item
                  clk net) in
  (Polling.ready_message r = "Validation passed" <->
   Polling.stock_available r = true /\ Polling.price_confirmed r = true) /\
  (Polling.stock_available r = true ->
   kill_switch cfg = false /\ CoverageSpec.succeeded net = true /\
   Polling.delivery_possible r = true /\
   forall x, Polling.ready_price r = Some x -> 0 < x /\ x < 100000).
Proof.
  cbv zeta. unfold Polling.validate_checkout_ready.
  pose proof (@FetchProps.usable_snapshot Extract._parse_name Extract._parse_image
                _parse_checkout_discount cfg st item clk net) as Hu.
  cbv zeta in Hu. fold (Polling.fetch _parse_checkout_discount) in Hu.
  destruct (Polling.fetch _ cfg st item clk net) as [st' data].
  cbn [fst snd] in *. cbv zeta.
  cbn [snd Polling.ready_message Polling.stock_available Polling.price_confirmed
         Polling.delivery_possible Polling.ready_price].
  destruct (Scraper.stock_status data) eqn:Es; cbn [StockStatus_eqb andb].
  all: try (split; [split; [discriminate | intros [H _]; discriminate H]
                   | intros H; discriminate H]).
  destruct (Hu (or_intror eq_refl)) as (Hk & Hs & _ & Hw & Hp).
  cbn [StockStatus_eqb] in Hw. rewrite Hw. cbn [negb andb]. rewrite andb_true_r.
  split.
  - destruct (Py.is_some (Scraper.price data)); split; try discriminate; auto.
    intros [_ H]. discriminate H.
  - intros _. auto.
Qed.

(** ** The kill switch *)

(** X23. With the kill switch on nothing goes out: [fetch_product] leaves
    the rate limiter as it was and returns the same error snapshot whatever
    the network would have answered, the poll cycle is skipped, and the
    checkout dry run fails. *)
Theorem kill_switch_stops_requests (cfg : Settings) (w : World) (st : Scraper.State)
    (item : string) (clk : Scraper.Clock) (net : Scraper.Transport)
    (work : list (Product * Polling.Step)) :
  kill_switch cfg = true ->
  let fetched := Polling.fetch _parse_checkout_discount cfg st item clk net in
  fst fetched = st /\
  Py.truthy_str (Scraper.error (snd fetched)) = true /\
  Scraper.item_number (snd fetched) = item /\
  (forall clk' net',
     Polling.fetch _parse_checkout_discount cfg st item clk' net' = fetched) /\
  Polling._poll_all_products _parse_checkout_discount cfg w st work = None /\
  Polling.ready_message
    (snd (Polling.validate_checkout_ready _parse_checkout_discount cfg st item clk net))
  = "Validation failed".
Proof.
  intros Hks. cbv zeta.
  unfold Polling.validate_checkout_ready, Polling._poll_all_products, Polling.fetch,
    Scraper.fetch_product.
  rewrite Hks. repeat split.
Qed.

End Callers.

Lemma poll_cycle_counts_witness :
  exists l run,
    Polling._poll_all_products ScraperSpec.no_discount default_settings (world true)
      Scraper.init [(unpriced, timeout_step)] = Some (l, run) /\
    Polling.products_checked run = 1%Z.
Proof.
  destruct (@poll_cycle_counts ScraperSpec.no_discount default_settings (world true)
              Scraper.init [(unpriced, timeout_step)] eq_refl)
    as (l & run & H & Hc & _).
  exists l, run. split; [exact H | exact Hc].
Defined.

Lemma add_product_tracks_new_witness :
  exists product rows,
    Polling.add_product ScraperSpec.no_discount default_settings Scraper.init []
      "123456" None 1 ScraperSpec.clock0 Scraper.TimeoutException 5
    = (fst (Polling.fetch ScraperSpec.no_discount default_settings Scraper.init "123456"
              ScraperSpec.clock0 Scraper.TimeoutException),
       [product], rows) /\
    consecutive_errors product = 0%Z.
Proof.
  destruct (@add_product_tracks_new ScraperSpec.no_discount default_settings Scraper.init
              [] "123456" None 1 ScraperSpec.clock0 Scraper.TimeoutException 5 eq_refl)
    as (product & rows & H & _ & _ & _ & _ & _ & _ & He & _).
  exists product, rows. split; [exact H | exact He].
Defined.

Lemma add_product_reactivates_witness :
  exists products',
    Polling.add_product ScraperSpec.no_discount default_settings Scraper.init [unpriced]
      " 654321 " None 3 ScraperSpec.clock0 Scraper.TimeoutException 5
    = (Scraper.init, products', []) /\
    List.length products' = 1%nat.
Proof.
  destruct (@add_product_reactivates ScraperSpec.no_discount default_settings Scraper.init
              [unpriced] " 654321 " None 3 ScraperSpec.clock0 Scraper.TimeoutException 5
              unpriced eq_refl)
    as (products' & H & _ & _ & _ & _ & _ & Hl).
  exists products'. split; [exact H | exact Hl].
Defined.

Lemma kill_switch_stops_requests_witness :
  Polling._poll_all_products ScraperSpec.no_discount halted_settings (world true)
    Scraper.init [(unpriced, timeout_step)] = None.
Proof.
  apply (@kill_switch_stops_requests ScraperSpec.no_discount halted_settings
           (world true) Scraper.init "123456" ScraperSpec.clock0 Scraper.TimeoutException
           [(unpriced, timeout_step)]).
  reflexivity.
Defined.


End PollingProps.
